(** * GST bulk puller: the asynchronous job client, the batch orchestrator
    and the smart-retry driver

    A shallow embedding of [config.py], [api_client.py], [utils.py],
    [excel_handler.py] and [main.py].  The vendor's HTTP service, the file
    system and the wall clock are an explicit world: every function that
    touches them takes a world, returns the next one, and reports the calls
    it made as a list of events, in program order.  Logging is left out
    (it has no effect on any value the program computes). *)

From Stdlib Require Import ZArith List String Ascii Bool Lia Arith DecimalString.
Import ListNotations.

Local Open Scope string_scope.
Local Open Scope list_scope.
Local Open Scope Z_scope.

(** String concatenation, as an f-string or [+] builds a message. *)
Notation "a @@ b" := (String.append a b) (at level 60, right associativity).

(* ===================================================================== *)
(** ** Python primitives on strings *)
(* ===================================================================== *)

Module Py.

(** [needle in hay] on [str]. *)
Fixpoint str_in (needle hay : string) : bool :=
  if String.prefix needle hay then true
  else match hay with
       | EmptyString => false
       | String _ rest => str_in needle rest
       end.

(** [s.startswith(pre)]. *)
Definition startswith (s pre : string) : bool := String.prefix pre s.

(** [str.isspace] on one ASCII character: TAB..CR, FS..US and the space. *)
Definition is_space (c : ascii) : bool :=
  let n := nat_of_ascii c in
  ((9 <=? n)%nat && (n <=? 13)%nat) || ((28 <=? n)%nat && (n <=? 32)%nat).

Fixpoint lstrip (s : string) : string :=
  match s with
  | EmptyString => EmptyString
  | String c rest => if is_space c then lstrip rest else s
  end.

Fixpoint rstrip (s : string) : string :=
  match s with
  | EmptyString => EmptyString
  | String c rest =>
      match rstrip rest with
      | EmptyString => if is_space c then EmptyString else String c EmptyString
      | r => String c r
      end
  end.

(** [s.strip()]. *)
Definition strip (s : string) : string := rstrip (lstrip s).

Definition upper_char (c : ascii) : ascii :=
  let n := nat_of_ascii c in
  if ((97 <=? n)%nat && (n <=? 122)%nat)%bool then ascii_of_nat (n - 32) else c.

Definition lower_char (c : ascii) : ascii :=
  let n := nat_of_ascii c in
  if ((65 <=? n)%nat && (n <=? 90)%nat)%bool then ascii_of_nat (n + 32) else c.

Fixpoint map_str (f : ascii -> ascii) (s : string) : string :=
  match s with
  | EmptyString => EmptyString
  | String c rest => String (f c) (map_str f rest)
  end.

(** [s.upper()] and [s.lower()], on ASCII letters. *)
Definition upper (s : string) : string := map_str upper_char s.
Definition lower (s : string) : string := map_str lower_char s.

(** [s[:n]]. *)
Definition take (n : nat) (s : string) : string := String.substring 0 n s.

(** [str(z)] for an [int]. *)
Definition str_of_Z (z : Z) : string := NilZero.string_of_int (Z.to_int z).

(** [s in xs] for a list of strings. *)
Definition str_mem (s : string) (xs : list string) : bool :=
  existsb (String.eqb s) xs.

(** A [dict] with [str] keys, in insertion order. *)
Definition dict (V : Type) : Type := list (string * V).

Fixpoint dict_get {V : Type} (d : dict V) (k : string) : option V :=
  match d with
  | [] => None
  | (k', v) :: rest => if String.eqb k k' then Some v else dict_get rest k
  end.

(** [d[k] = v]: overwrite in place, or append a new key. *)
Fixpoint dict_set {V : Type} (d : dict V) (k : string) (v : V) : dict V :=
  match d with
  | [] => [(k, v)]
  | (k', v') :: rest =>
      if String.eqb k k' then (k', v) :: rest else (k', v') :: dict_set rest k v
  end.

End Py.

(* ===================================================================== *)
(** ** config.py *)
(* ===================================================================== *)

Module Config.

(** One entry of [GST_REPORTS]; the fields the client reads. *)
Record Report : Type := mkReport {
  enabled : bool;
  pull_endpoint : string;
  export_endpoint : string
}.

(** The module-level settings the core reads.  The source reads them as
    globals; here they travel as one value, and [config_py] below is
    the file as it stands. *)
Record t : Type := mk {
  GST_REPORTS : Py.dict Report;
  JOB_STATUS : string;
  API_RETRY_COUNT : Z;
  API_RETRY_DELAY : Z;
  PULL_RETRY_DELAY : Z;
  PULL_DELAY_BETWEEN_CALLS : Z;
  SKIP_NOT_CONNECTED_COMPANIES : bool;
  SMART_RETRY_ENABLED : bool;
  RETRY_EXPONENTIAL_BASE : Z;
  RETRY_MAX_WAIT : Z;
  EXPORT_MAX_WAIT : Z;
  EXPORT_CHECK_INTERVAL : Z;
  EXPORT_BATCH_DELAY : Z;
  EXPORT_OUTPUT_DIR : string
}.

Definition API_BASE_URL : string := "https://app.octagst.com/api".

Definition report (on : bool) (slug : string) : Report :=
  mkReport on (API_BASE_URL @@ "/" @@ slug @@ "/pull")
              (API_BASE_URL @@ "/" @@ slug @@ "/export").

Definition config_py : t := {|
  GST_REPORTS :=
    [ ("GSTR-2A", report true "gstr2a");
      ("GSTR-2B", report false "gstr2b");
      ("IMS", report false "ims");
      ("IMS-RECO", report false "ims-reco");
      ("ANNUAL-REPORT", report false "annual-report");
      ("GSTR-2B-RECO", report false "gstr2b-reco");
      ("ITC-CLAIMS", report false "itc-claims");
      ("GSTR-1", report false "gstr1");
      ("GSTR-3B", report false "gstr3b") ];
  JOB_STATUS := API_BASE_URL @@ "/robot/jobstatus";
  API_RETRY_COUNT := 3;
  API_RETRY_DELAY := 2;
  PULL_RETRY_DELAY := 2;
  PULL_DELAY_BETWEEN_CALLS := 1;
  SKIP_NOT_CONNECTED_COMPANIES := true;
  SMART_RETRY_ENABLED := true;
  RETRY_EXPONENTIAL_BASE := 2;
  RETRY_MAX_WAIT := 30;
  EXPORT_MAX_WAIT := 180;
  EXPORT_CHECK_INTERVAL := 3;
  EXPORT_BATCH_DELAY := 2;
  EXPORT_OUTPUT_DIR := "output/exports"
|}.

End Config.

(* ===================================================================== *)
(** ** The world: HTTP session, file system, clock *)
(* ===================================================================== *)

Module World.

(** A JSON value as the client meets it in a response field.  The client
    only tests such a value for truth, compares it, looks it up in a
    table and prints it; arrays, objects and numbers with a fraction as
    field values are outside the model. *)
Inductive JVal : Type :=
| JNull
| JBool (b : bool)
| JInt (z : Z)
| JStr (s : string).

(** Python truth of a value ([if job_id:]). *)
Definition truthy (v : JVal) : bool :=
  match v with
  | JNull => false
  | JBool b => b
  | JInt z => negb (z =? 0)
  | JStr s => negb (String.eqb s "")
  end.

(** [str(v)], as an f-string prints it. *)
Definition py_str (v : JVal) : string :=
  match v with
  | JNull => "None"
  | JBool true => "True"
  | JBool false => "False"
  | JInt z => Py.str_of_Z z
  | JStr s => s
  end.

Definition type_name (v : JVal) : string :=
  match v with
  | JNull => "NoneType"
  | JBool _ => "bool"
  | JInt _ => "int"
  | JStr _ => "str"
  end.

(** What [response.json()] does: raise [JSONDecodeError], return a
    [dict], or return some other document (a list, a number, ...), on
    which [.get] raises [AttributeError]. *)
Inductive JsonResult : Type :=
| JsonDecodeError (msg : string)
| JsonObject (fields : Py.dict JVal)
| JsonOther (py_type : string).

Record Response : Type := mkResponse {
  status_code : Z;
  headers : Py.dict string;
  text : string;
  json : JsonResult;
  iter_content : list string
}.

(** What one call on the [requests] session does. *)
Inductive HttpOutcome : Type :=
| Responded (r : Response)
| ExcTimeout (msg : string)          (* requests.exceptions.Timeout *)
| ExcConnectionError (msg : string)  (* requests.exceptions.ConnectionError *)
| ExcOther (msg : string).           (* any other Exception; msg is str(e) *)

Inductive Payload : Type :=
| PullPayload (gstin returnPeriod : string)
| ExportPayload (gstins : list string)
                (startReturnPeriod endReturnPeriod : string) (reportType : Z).

(** [session.post(endpoint, headers={'Octa-Company': ...}, json=payload)]. *)
Record PostReq : Type := mkPost {
  post_url : string;
  post_company : string;
  post_json : Payload
}.

(** [session.get(url, headers=...)]; the download has no company header. *)
Record GetReq : Type := mkGet {
  get_url : string;
  get_company : option string
}.

(** Where a [time.sleep] stands in the source. *)
Inductive SleepSite : Type :=
| InTransport     (* inside pull_gst_report's retry loop *)
| BetweenCalls    (* run_pull_operation, PULL_DELAY_BETWEEN_CALLS *)
| Backoff         (* smart_retry_with_backoff *)
| Polling         (* the completion-wait loops *)
| BetweenBatches. (* run_direct_export, EXPORT_BATCH_DELAY *)

(** What the program does to the world, in program order. *)
Inductive Event : Type :=
| EvPull (report_type company_id gstin return_period : string)
| EvExport (report_type company_id gstin start_period end_period : string)
           (report_format : Z)
| EvPost (r : PostReq)
| EvGet (r : GetReq)
| EvSleep (site : SleepSite) (secs : Z)
| EvWrite (path : string).

(** The operations of the world on a state [W].  A file-system step
    returns [Some msg] when it raises.  [content_disposition_filename] and
    [url_last_segment] stand for the two library calls of the file-name
    resolution ([re.findall] with the source's pattern, first match,
    quotes stripped; [urlparse(url).path.split('/')(-1)]). *)
Record System (W : Type) : Type := mkSystem {
  session_post : W -> PostReq -> HttpOutcome * W;
  session_get : W -> GetReq -> HttpOutcome * W;
  fs_mkdir : W -> string -> option string * W;
  fs_write : W -> string -> list string -> option string * W;
  fs_stat : W -> string -> option Z;
  now_stamp : W -> string;
  content_disposition_filename : string -> option string;
  url_last_segment : string -> string
}.

Arguments session_post {W}.
Arguments session_get {W}.
Arguments fs_mkdir {W}.
Arguments fs_write {W}.
Arguments fs_stat {W}.
Arguments now_stamp {W}.
Arguments content_disposition_filename {W}.
Arguments url_last_segment {W}.

(** A computation: from a world to a value, the next world and the
    events it caused. *)
Definition M (W A : Type) : Type := W -> A * W * list Event.

Definition ret {W A : Type} (a : A) : M W A := fun w => (a, w, []).

Definition bind {W A B : Type} (m : M W A) (k : A -> M W B) : M W B :=
  fun w =>
    let '(a, w1, t1) := m w in
    let '(b, w2, t2) := k a w1 in
    (b, w2, t1 ++ t2).

Definition emit {W : Type} (e : Event) : M W unit := fun w => (tt, w, [e]).

(** [time.sleep(secs)] at a given place. *)
Definition sleep {W : Type} (site : SleepSite) (secs : Z) : M W unit :=
  emit (EvSleep site secs).

Definition post {W : Type} (sys : System W) (r : PostReq) : M W HttpOutcome :=
  fun w => let '(o, w1) := session_post sys w r in (o, w1, [EvPost r]).

Definition get {W : Type} (sys : System W) (r : GetReq) : M W HttpOutcome :=
  fun w => let '(o, w1) := session_get sys w r in (o, w1, [EvGet r]).

Definition value_of {W A : Type} (x : A * W * list Event) : A := fst (fst x).
Definition world_of {W A : Type} (x : A * W * list Event) : W := snd (fst x).
Definition trace_of {W A : Type} (x : A * W * list Event) : list Event := snd x.

End World.

Declare Scope io_scope.
Delimit Scope io_scope with io.
Notation "x <- m ;; k" := (World.bind m (fun x => k))
  (at level 61, m at next level, right associativity) : io_scope.
Notation "m ;;; k" := (World.bind m (fun _ => k))
  (at level 61, right associativity) : io_scope.

(* ===================================================================== *)
(** ** api_client.py *)
(* ===================================================================== *)

Module ApiClient.
Import World.
Local Open Scope io_scope.

(** The [(success, job_id, error_message)] tuple of the two submissions. *)
Definition SubmitResult : Type := (bool * option JVal * option string)%type.

(** The [(success, filepath, filename_or_error)] tuple of the download. *)
Definition DownloadResult : Type := (bool * option string * option string)%type.

(** [response.headers.get(name, default)]; header names compare without
    regard to case. *)
Fixpoint header_get (hs : Py.dict string) (name default : string) : string :=
  match hs with
  | [] => default
  | (k, v) :: rest =>
      if String.eqb (Py.lower k) (Py.lower name) then v
      else header_get rest name default
  end.

(** [data.get(key)] on a parsed object: [None] when the key is absent. *)
Definition field (data : Py.dict JVal) (key : string) : JVal :=
  match Py.dict_get data key with
  | Some v => v
  | None => JNull
  end.

(** [str(e)] of the [AttributeError] that [.get] raises on a document
    that is not a [dict]. *)
Definition no_get_attribute (py_type : string) : string :=
  "'" @@ py_type @@ "' object has no attribute 'get'".

(** The table of [check_job_status]. *)
Definition status_mapping : list (Z * string) :=
  [ (100, "completed"); (0, "pending"); (1, "processing"); (2, "processing");
    (-1, "failed"); (-2, "cancelled"); (99, "expired") ].

(** The [int] a value equals (and hashes as) when used as a key of a
    [dict] with [int] keys: [True == 1] and [False == 0] in Python. *)
Definition as_int_key (v : JVal) : option Z :=
  match v with
  | JInt z => Some z
  | JBool true => Some 1
  | JBool false => Some 0
  | JNull | JStr _ => None
  end.

Fixpoint table_get (tbl : list (Z * string)) (k : Z) : option string :=
  match tbl with
  | [] => None
  | (k', v) :: rest => if k =? k' then Some v else table_get rest k
  end.

(** [status_mapping.get(job_status_code, 'unknown')]. *)
Definition canonical_status (job_status_code : JVal) : string :=
  match as_int_key job_status_code with
  | Some k =>
      match table_get status_mapping k with
      | Some s => s
      | None => "unknown"
      end
  | None => "unknown"
  end.

(** *** Paths

    [pathlib] as it works on POSIX.  A path is kept as a root and a
    list of names. *)

(** [s.split('/')]. *)
Fixpoint split_slash (s : string) : list string :=
  match s with
  | EmptyString => [""]
  | String c rest =>
      if (c =? "/")%char then "" :: split_slash rest
      else match split_slash rest with
           | [] => [String c ""]
           | x :: xs => String c x :: xs
           end
  end.

(** The names of a path: what stands between the slashes, but for the
    empty names and the single dots, which are dropped.  A name [..]
    stays. *)
Definition path_names (s : string) : list string :=
  filter (fun name => negb ((name =? "") || (name =? "."))%string) (split_slash s).

(** The root of a path: exactly two leading slashes are kept, any other
    number of them is one slash. *)
Definition path_root (s : string) : string :=
  match s with
  | String "/" (String "/" (String "/" _)) => "/"
  | String "/" (String "/" _) => "//"
  | String "/" _ => "/"
  | _ => ""
  end.

(** ['/'.join(names)]. *)
Fixpoint join_slash (names : list string) : string :=
  match names with
  | [] => ""
  | [name] => name
  | name :: rest => name @@ "/" @@ join_slash rest
  end.

(** [str] of a path. *)
Definition path_str (root : string) (names : list string) : string :=
  match root, names with
  | EmptyString, [] => "."
  | _, _ => root @@ join_slash names
  end.

(** [str(Path(a) / b)]: the names of [b] after those of [a]; when [b] is
    absolute, [b] alone. *)
Definition path_join (a b : string) : string :=
  if (path_root b =? "")%string then path_str (path_root a) (path_names a ++ path_names b)
  else path_str (path_root b) (path_names b).

Section Client.
Context {W : Type} (sys : System W) (cfg : Config.t).

(** The body of [for attempt in range(API_RETRY_COUNT)] in
    [pull_gst_report]: [todo] iterations are left, [attempt] is the loop
    variable. *)
Fixpoint pull_attempts (todo : nat) (attempt : Z) (req : PostReq)
  (gstin return_period : string) : M W SubmitResult :=
  match todo with
  | O => ret (false, None, Some "Max retries exceeded")
  | S todo' =>
      let again := pull_attempts todo' (attempt + 1) req gstin return_period in
      let last := negb (attempt <? Config.API_RETRY_COUNT cfg - 1) in
      out <- post sys req ;;
      match out with
      | Responded r =>
          let code := status_code r in
          if code =? 200 then
            match json r with
            | JsonObject data =>
                let job_id := field data "jobId" in
                if truthy job_id then ret (true, Some job_id, None)
                else ret (false, None, Some "No job ID in response")
            | JsonDecodeError _ => ret (false, None, Some "Invalid JSON response")
            | JsonOther ty =>
                ret (false, None, Some ("Unexpected error: " @@ no_get_attribute ty))
            end
          else if code =? 400 then
            let error_code := header_get (headers r) "Octa-ErrorCode" "Unknown" in
            let error_msg := header_get (headers r) "Octa-ErrorMessage" "Bad Request" in
            if String.eqb error_code "2000" then
              ret (false, None,
                   Some ("Not connected to GST System - Please complete OTP verification for "
                         @@ gstin))
            else if String.eqb error_code "100" then
              ret (false, None, Some ("Invalid period format: " @@ return_period))
            else
              ret (false, None, Some ("Error " @@ error_code @@ ": " @@ error_msg))
          else if code =? 401 then
            ret (false, None, Some "Authentication failed - Check API credentials")
          else if code =? 403 then
            ret (false, None, Some "Access denied - Check company permissions")
          else if code =? 429 then
            if last then ret (false, None, Some "Rate limit exceeded")
            else sleep InTransport (Config.PULL_RETRY_DELAY cfg * (attempt + 1)) ;;; again
          else if code =? 500 then
            if last then ret (false, None, Some "OCTA GST server error")
            else sleep InTransport (Config.PULL_RETRY_DELAY cfg) ;;; again
          else
            ret (false, None,
                 Some ("HTTP " @@ Py.str_of_Z code @@ ": " @@ Py.take 100 (text r)))
      | ExcTimeout _ =>
          if last then ret (false, None, Some "Request timeout")
          else sleep InTransport (Config.API_RETRY_DELAY cfg) ;;; again
      | ExcConnectionError _ =>
          if last then ret (false, None, Some "Connection error - Check internet")
          else sleep InTransport (Config.API_RETRY_DELAY cfg) ;;; again
      | ExcOther msg => ret (false, None, Some ("Unexpected error: " @@ msg))
      end
  end.

Definition pull_gst_report (report_type company_id gstin return_period : string)
  : M W SubmitResult :=
  emit (EvPull report_type company_id gstin return_period) ;;;
  match Py.dict_get (Config.GST_REPORTS cfg) report_type with
  | None => ret (false, None, Some ("Unknown report type: " @@ report_type))
  | Some rep =>
      if negb (Config.enabled rep) then
        ret (false, None,
             Some (report_type @@ " is not yet enabled. Waiting for API documentation."))
      else
        let req := mkPost (Config.pull_endpoint rep) company_id
                          (PullPayload gstin return_period) in
        pull_attempts (Z.to_nat (Config.API_RETRY_COUNT cfg)) 0 req gstin return_period
  end.

Definition export_gst_report (report_type company_id gstin
  start_period end_period : string) (report_format : Z) : M W SubmitResult :=
  emit (EvExport report_type company_id gstin start_period end_period report_format) ;;;
  match Py.dict_get (Config.GST_REPORTS cfg) report_type with
  | None => ret (false, None, Some ("Unknown report type: " @@ report_type))
  | Some rep =>
      if negb (Config.enabled rep) then
        ret (false, None,
             Some (report_type @@ " is not yet enabled. Waiting for API documentation."))
      else
        let gstins := [gstin] in
        let req := mkPost (Config.export_endpoint rep) company_id
                          (ExportPayload gstins start_period end_period report_format) in
        out <- post sys req ;;
        match out with
        | Responded r =>
            let code := status_code r in
            if code =? 200 then
              match json r with
              | JsonObject data =>
                  let job_id := field data "jobId" in
                  if truthy job_id then ret (true, Some job_id, None)
                  else ret (false, None, Some "No job ID in response")
              | JsonDecodeError e => ret (false, None, Some ("Invalid JSON response: " @@ e))
              | JsonOther ty => ret (false, None, Some (no_get_attribute ty))
              end
            else if code =? 400 then
              let error_msg := header_get (headers r) "Octa-ErrorMessage" "Bad Request" in
              let error_code := header_get (headers r) "Octa-ErrorCode" "" in
              ret (false, None, Some ("Error " @@ error_code @@ ": " @@ error_msg))
            else if code =? 401 then
              ret (false, None, Some "Authentication failed - Check API credentials")
            else if code =? 403 then
              ret (false, None, Some "Access denied - Check company permissions")
            else
              ret (false, None,
                   Some (header_get (headers r) "Octa-ErrorMessage"
                                    ("HTTP " @@ Py.str_of_Z code)))
        | ExcTimeout _ => ret (false, None, Some "Request timeout")
        | ExcConnectionError _ => ret (false, None, Some "Connection error")
        | ExcOther msg => ret (false, None, Some msg)
        end
  end.

(** The [dict] returned on any failure of the status query. *)
Definition status_error (message : string) : Py.dict JVal :=
  [ ("status", JStr "error"); ("message", JStr message) ].

Definition check_job_status (company_id : string) (job_id : JVal)
  : M W (Py.dict JVal) :=
  let url := Config.JOB_STATUS cfg @@ "/" @@ py_str job_id in
  out <- get sys (mkGet url (Some company_id)) ;;
  match out with
  | Responded r =>
      if status_code r =? 200 then
        match json r with
        | JsonObject data =>
            let job_status_code := field data "jobStatus" in
            ret (Py.dict_set data "status" (JStr (canonical_status job_status_code)))
        | JsonDecodeError e => ret (status_error e)
        | JsonOther ty => ret (status_error (no_get_attribute ty))
        end
      else
        ret (status_error ("Failed to get status: HTTP " @@ Py.str_of_Z (status_code r)))
  | ExcTimeout e | ExcConnectionError e | ExcOther e => ret (status_error e)
  end.

(** The three steps of the file-name resolution of [download_export]. *)
Definition resolve_filename (r : Response) (download_url : string) (job_id : JVal)
  (w : W) : string :=
  let content_disp := header_get (headers r) "content-disposition" "" in
  let from_header :=
    if negb (String.eqb content_disp "") && Py.str_in "filename=" content_disp then
      content_disposition_filename sys content_disp
    else None in
  let named (o : option string) : bool :=
    match o with Some f => negb (String.eqb f "") | None => false end in
  let from_url :=
    if named from_header then from_header
    else
      let seg := url_last_segment sys download_url in
      if negb (String.eqb seg "") && Py.str_in ".xlsx" seg then Some seg else None in
  match from_url with
  | Some f => if negb (String.eqb f "") then f
              else "GSTR2A_Export_" @@ py_str job_id @@ "_" @@ now_stamp sys w @@ ".xlsx"
  | None => "GSTR2A_Export_" @@ py_str job_id @@ "_" @@ now_stamp sys w @@ ".xlsx"
  end.

(** The tail of [download_export]: make the directory, write the body,
    then look at what is on disk. *)
Definition save_and_verify (output_dir filename : string) (body : list string)
  : M W DownloadResult :=
  fun w =>
    let '(e1, w1) := fs_mkdir sys w output_dir in
    match e1 with
    | Some msg => ((false, None, Some msg), w1, [])
    | None =>
        let filepath := path_join output_dir filename in
        let chunks := filter (fun c => negb (String.eqb c "")) body in
        let '(e2, w2) := fs_write sys w1 filepath chunks in
        match e2 with
        | Some msg => ((false, None, Some msg), w2, [EvWrite filepath])
        | None =>
            match fs_stat sys w2 filepath with
            | Some size =>
                if 0 <? size then
                  ((true, Some filepath, Some filename), w2, [EvWrite filepath])
                else
                  ((false, None, Some "File creation failed or file is empty"),
                   w2, [EvWrite filepath])
            | None =>
                ((false, None, Some "File creation failed or file is empty"),
                 w2, [EvWrite filepath])
            end
        end
    end.

(** [job_status.get('jobStatus') == 100]. *)
Definition is_code_100 (v : JVal) : bool :=
  match as_int_key v with Some k => k =? 100 | None => false end.

(** [job_status.get('status') == 'completed']. *)
Definition is_str (v : JVal) (s : string) : bool :=
  match v with JStr s' => String.eqb s' s | _ => false end.

Definition download_export (company_id : string) (job_id : JVal) (output_dir : string)
  : M W DownloadResult :=
  job_status <- check_job_status company_id job_id ;;
  if is_code_100 (field job_status "jobStatus")
     || is_str (field job_status "status") "completed" then
    let download_url := field job_status "url" in
    if negb (truthy download_url) then
      ret (false, None, Some "No download URL in completed job")
    else
      match download_url with
      | JStr url =>
          out <- get sys (mkGet url None) ;;
          match out with
          | Responded r =>
              if negb (status_code r =? 200) then
                ret (false, None,
                     Some ("Download failed: HTTP " @@ Py.str_of_Z (status_code r)))
              else
                fun w =>
                  save_and_verify output_dir (resolve_filename r url job_id w)
                                  (iter_content r) w
          | ExcTimeout e | ExcConnectionError e | ExcOther e => ret (false, None, Some e)
          end
      | other =>
          ret (false, None,
               Some ("'" @@ type_name other @@ "' object is not subscriptable"))
      end
  else
    let shown :=
      match Py.dict_get job_status "jobStatus" with
      | Some v => v
      | None => match Py.dict_get job_status "status" with
                | Some v => v
                | None => JStr "unknown"
                end
      end in
    ret (false, None, Some ("Job not ready. Status: " @@ py_str shown)).

End Client.
End ApiClient.

(* ===================================================================== *)
(** ** Records of the orchestration layer *)
(* ===================================================================== *)

(** One row of the input sheet, after [read_companies]. *)
Module Company.
Record t : Type := mk { Company_ID : string; Company_Name : string; GSTIN : string }.
End Company.

(** One entry of [results] in [run_pull_operation].  The [Timestamp] key
    (wall clock) is left out. *)
Module Row.
Record t : Type := mk {
  Report_Type : string;
  Company_ID : string;
  Company_Name : string;
  GSTIN : string;
  Return_Period : string;
  Job_ID : World.JVal;
  Status : string;
  Error_Message : string
}.
End Row.

Inductive OperationType : Type := pull | export.

(** One entry of [failed_operations].  The keys only an export retry
    reads ([start_period], [end_period], [report_format]) are carried by
    every entry; [report_format] is [None] when the key is absent. *)
Module Op.
Record t : Type := mk {
  operation_type : OperationType;
  report_type : string;
  company_id : string;
  company_name : string;
  gstin : string;
  return_period : string;
  error : option string;
  start_period : string;
  end_period : string;
  report_format : option Z
}.
End Op.

(** One entry of [retry_results]: the operation, and the keys the retry
    adds ([job_id] on success, [final_error] on failure). *)
Module Retry.
Record t : Type := mk {
  op : Op.t;
  retry_status : string;
  retry_attempts : Z;
  job_id : option World.JVal;
  final_error : option string
}.
End Retry.

(** One entry of [export_batches]. *)
Module Batch.
Record t : Type := mk {
  company_id : string;
  company_name : string;
  gstin : string;
  start_period : string;
  end_period : string
}.
End Batch.

(** One entry of [export_results].  [Report_Type] holds what the call
    site stores under that key (the format code in [process_export_batch],
    the report name in [run_direct_export]). *)
Module ExportRow.
Record t : Type := mk {
  Company : string;
  GSTIN : string;
  Period : string;
  Job_ID : World.JVal;
  Filename : option string;
  Filepath : option string;
  Status : string;
  Error : World.JVal;
  Report_Type : World.JVal;
  Report_Format : option Z
}.
End ExportRow.

(* ===================================================================== *)
(** ** utils.py *)
(* ===================================================================== *)

Module Utils.
Import World.
Local Open Scope io_scope.

(** *** Month ranges *)

(** A [datetime] on the first of a month at midnight: all that
    [strptime(s, '%Y-%m')] can return. *)
Record YearMonth : Type := mkYM { year : Z; month : Z }.

(** A call that returns or raises [ValueError]. *)
Inductive Raises (A : Type) : Type :=
| Returns (a : A)
| ValueError.
Arguments Returns {A}.
Arguments ValueError {A}.

(** A decimal digit, as [\d] of [re] and of [strptime] reads it.  Text
    is a [string] of [ascii] characters, one for each character of the
    Python [str]; among the characters a [string] can hold the decimal
    digits are [0] to [9].  A [str] with a digit of another script (a
    full-width digit, which [\d] and [strptime] accept as well) has no
    counterpart here: what is proved about periods is proved of periods
    written in ASCII digits. *)
Definition digit_of (c : ascii) : option Z :=
  let n := nat_of_ascii c in
  if ((48 <=? n)%nat && (n <=? 57)%nat)%bool then Some (Z.of_nat (n - 48)) else None.

Definition MINYEAR : Z := 1.
Definition MAXYEAR : Z := 9999.

(** The month directive of [strptime]: the pattern [1[0-2]|0[1-9]|[1-9]],
    with nothing left over. *)
Definition parse_month (s : string) : option Z :=
  match s with
  | String m1 EmptyString =>
      match digit_of m1 with
      | Some d => if 1 <=? d then Some d else None
      | None => None
      end
  | String m1 (String m2 EmptyString) =>
      match digit_of m1, digit_of m2 with
      | Some 1, Some d => if d <=? 2 then Some (10 + d) else None
      | Some 0, Some d => if 1 <=? d then Some d else None
      | _, _ => None
      end
  | _ => None
  end.

(** [datetime.strptime(s, '%Y-%m')]: four digits, a dash, a month; the
    year must be at least [MINYEAR]. *)
Definition strptime (s : string) : Raises YearMonth :=
  match s with
  | String a (String b (String c (String d (String "-"%char rest)))) =>
      match digit_of a, digit_of b, digit_of c, digit_of d, parse_month rest with
      | Some a, Some b, Some c, Some d, Some m =>
          let y := 1000 * a + 100 * b + 10 * c + d in
          if y <? MINYEAR then ValueError else Returns (mkYM y m)
      | _, _, _, _, _ => ValueError
      end
  | _ => ValueError
  end.

Definition digit_char (d : Z) : ascii := ascii_of_nat (48 + Z.to_nat d).

(** [%m]: the month with two digits. *)
Definition month_text (m : Z) : string :=
  String (digit_char (m / 10)) (String (digit_char (m mod 10)) EmptyString).

(** [d.strftime('%Y-%m')] as glibc prints it: the year in decimal with
    no padding, so the year 999 is printed with three digits (the C
    libraries of Windows and macOS pad it to four); from the year 1000
    on the platforms agree. *)
Definition strftime (d : YearMonth) : string :=
  Py.str_of_Z (year d) @@ "-" @@ month_text (month d).

(** [a <= b] and [a > b] on two such dates. *)
Definition ym_le (a b : YearMonth) : bool :=
  (year a <? year b) || ((year a =? year b) && (month a <=? month b)).
Definition ym_gt (a b : YearMonth) : bool := negb (ym_le a b).

(** The step at the end of the loop body: [replace] raises [ValueError]
    past [MAXYEAR]. *)
Definition next_month (d : YearMonth) : Raises YearMonth :=
  if month d =? 12 then
    if year d + 1 <=? MAXYEAR then Returns (mkYM (year d + 1) 1) else ValueError
  else Returns (mkYM (year d) (month d + 1)).

(** The [while current_date <= end_date] loop; [None] when [fuel]
    iterations were not enough. *)
Fixpoint months_loop (fuel : nat) (current_date end_date : YearMonth)
  : option (Raises (list string)) :=
  match fuel with
  | O => None
  | S fuel' =>
      if ym_le current_date end_date then
        match next_month current_date with
        | ValueError => Some ValueError
        | Returns next =>
            match months_loop fuel' next end_date with
            | Some (Returns months) => Some (Returns (strftime current_date :: months))
            | other => other
            end
        end
      else Some (Returns [])
  end.

(** Iterations the loop can need between two dates: one per month of
    the range, and the test that ends it. *)
Definition months_fuel (start_date end_date : YearMonth) : nat :=
  Z.to_nat (12 * (year end_date - year start_date)
            + (month end_date - month start_date) + 2).

Definition generate_month_range (start_period end_period : string)
  : option (Raises (list string)) :=
  match strptime start_period, strptime end_period with
  | Returns start_date, Returns end_date =>
      let '(start_date, end_date) :=
        if ym_gt start_date end_date then (end_date, start_date)
        else (start_date, end_date) in
      months_loop (months_fuel start_date end_date) start_date end_date
  | _, _ => Some ValueError
  end.

(** A line feed. *)
Definition LF : string := String (ascii_of_nat 10) EmptyString.

(** [validate_period_format]: [re.match] with the pattern
    [^\d{4}-(0[1-9]|1[0-2])$].  [$] matches at the end of the text and
    also before a line feed that ends it, so a period followed by one
    line feed is accepted too. *)
Definition validate_period_format (period : string) : bool :=
  match period with
  | String a (String b (String c (String d (String "-"%char
      (String m1 (String m2 rest)))))) =>
      ((rest =? "")%string || (rest =? LF)%string)
      && match digit_of a, digit_of b, digit_of c, digit_of d,
               digit_of m1, digit_of m2 with
         | Some _, Some _, Some _, Some _, Some 0, Some d2 => 1 <=? d2
         | Some _, Some _, Some _, Some _, Some 1, Some d2 => d2 <=? 2
         | _, _, _, _, _, _ => false
         end
  | _ => false
  end.

(** *** Smart retry *)

Definition max_attempts : Z := 3.

Section Retry.
Context {W : Type} (sys : System W) (cfg : Config.t).

(** The call a retry makes, chosen by [operation_type]. *)
Definition retry_call (operation : Op.t) : M W ApiClient.SubmitResult :=
  match Op.operation_type operation with
  | pull =>
      ApiClient.pull_gst_report sys cfg (Op.report_type operation)
        (Op.company_id operation) (Op.gstin operation) (Op.return_period operation)
  | export =>
      ApiClient.export_gst_report sys cfg (Op.report_type operation)
        (Op.company_id operation) (Op.gstin operation)
        (Op.start_period operation) (Op.end_period operation)
        (match Op.report_format operation with Some f => f | None => 101 end)
  end.

(** The [while attempt <= max_attempts] loop for one operation, with
    [todo] iterations left; the value is what it appends to
    [retry_results].  A failure at [attempt = max_attempts] is the last
    iteration: the increment that follows ends the loop. *)
Fixpoint retry_attempts (todo : nat) (attempt : Z) (operation : Op.t)
  : M W (list Retry.t) :=
  match todo with
  | O => ret []
  | S todo' =>
      res <- retry_call operation ;;
      let '(success, job_id, error) := res in
      if success : bool then
        ret [Retry.mk operation "Success" attempt job_id None]
      else if attempt <? max_attempts then
        sleep Backoff (Z.min (Config.RETRY_EXPONENTIAL_BASE cfg ^ attempt)
                             (Config.RETRY_MAX_WAIT cfg)) ;;;
        retry_attempts todo' (attempt + 1) operation
      else
        ret [Retry.mk operation "Failed" attempt None error]
  end.

Fixpoint retry_each (failed_operations : list Op.t) : M W (list Retry.t) :=
  match failed_operations with
  | [] => ret []
  | operation :: rest =>
      r <- retry_attempts (Z.to_nat max_attempts) 1 operation ;;
      rs <- retry_each rest ;;
      ret (r ++ rs)
  end.

Definition smart_retry_with_backoff (failed_operations : list Op.t)
  : M W (list Retry.t) :=
  if negb (Config.SMART_RETRY_ENABLED cfg) then ret []
  else match failed_operations with
       | [] => ret []
       | _ => retry_each failed_operations
       end.

End Retry.

(** *** Waiting for an export job *)

(** The job id a submission hands on ([None] when the tuple has none). *)
Definition job_of (job_id : option JVal) : JVal :=
  match job_id with Some j => j | None => JNull end.

Definition opt_str (o : option string) : JVal :=
  match o with Some s => JStr s | None => JNull end.

(** [job_status.get('status', '').lower()]; the right side is [str(e)] of
    the [AttributeError] a value that is not a [str] raises. *)
Definition status_lower (job_status : Py.dict JVal) : string + string :=
  match Py.dict_get job_status "status" with
  | None => inl ""
  | Some (JStr s) => inl (Py.lower s)
  | Some v => inr ("'" @@ type_name v @@ "' object has no attribute 'lower'")
  end.

(** [job_status.get(key, default)]. *)
Definition get_default (d : Py.dict JVal) (key : string) (default : JVal) : JVal :=
  match Py.dict_get d key with Some v => v | None => default end.

(** [result.update({...})] with the keys the outcomes set. *)
Definition finish (result : ExportRow.t) (filename filepath : option string)
  (status : string) (err : JVal) : ExportRow.t :=
  ExportRow.mk (ExportRow.Company result) (ExportRow.GSTIN result)
    (ExportRow.Period result) (ExportRow.Job_ID result) filename
    (match filepath with Some f => Some f | None => ExportRow.Filepath result end)
    status err (ExportRow.Report_Type result) (ExportRow.Report_Format result).

Definition set_job_id (result : ExportRow.t) (job_id : JVal) : ExportRow.t :=
  ExportRow.mk (ExportRow.Company result) (ExportRow.GSTIN result)
    (ExportRow.Period result) job_id (ExportRow.Filename result)
    (ExportRow.Filepath result) (ExportRow.Status result) (ExportRow.Error result)
    (ExportRow.Report_Type result) (ExportRow.Report_Format result).

Definition period_label (batch : Batch.t) : string :=
  Batch.start_period batch @@ " to " @@ Batch.end_period batch.

Definition timeout_message (max_wait : Z) : string :=
  "Job did not complete within " @@ Py.str_of_Z max_wait @@ " seconds".

Definition completed_words : list string :=
  ["completed"; "complete"; "success"; "successful"].
Definition failed_words : list string := ["failed"; "error"; "cancelled"].

Section ExportJob.
Context {W : Type} (sys : System W) (cfg : Config.t).

(** The [while waited < EXPORT_MAX_WAIT] loop of [process_export_batch]
    and the timeout that follows it; [None] when [fuel] iterations were
    not enough. *)
Fixpoint wait_for_export (fuel : nat) (waited : Z) (batch : Batch.t)
  (job_id : JVal) (export_dir : string) (result : ExportRow.t)
  : M W (option (ExportRow.t * bool)) :=
  match fuel with
  | O => ret None
  | S fuel' =>
      if waited <? Config.EXPORT_MAX_WAIT cfg then
        sleep Polling (Config.EXPORT_CHECK_INTERVAL cfg) ;;;
        let waited := waited + Config.EXPORT_CHECK_INTERVAL cfg in
        job_status <- ApiClient.check_job_status sys cfg (Batch.company_id batch) job_id ;;
        match status_lower job_status with
        | inr e =>
            ret (Some (finish (set_job_id result (JStr "")) (Some "") None
                              "Error" (JStr e), false))
        | inl status =>
            if Py.str_mem status completed_words then
              dl <- ApiClient.download_export sys cfg (Batch.company_id batch)
                                              job_id export_dir ;;
              let '(dl_success, filepath, filename) := dl in
              if dl_success : bool then
                ret (Some (finish result filename filepath "Success"
                                  (ExportRow.Error result), true))
              else
                ret (Some (finish result (Some "") None "Download Failed"
                                  (opt_str filename), false))
            else if Py.str_mem status failed_words then
              ret (Some (finish result (Some "") None "Job Failed"
                                (get_default job_status "message" (JStr "Job failed")),
                         false))
            else
              wait_for_export fuel' waited batch job_id export_dir result
        end
      else
        ret (Some (finish result (Some "") None "Timeout"
                          (JStr (timeout_message (Config.EXPORT_MAX_WAIT cfg))),
                   false))
  end.

Definition process_export_batch (fuel : nat) (batch : Batch.t) (report_format : Z)
  (report_type_name : string) (export_dir : option string)
  : M W (option (ExportRow.t * bool)) :=
  let export_dir :=
    match export_dir with
    | Some d => if String.eqb d "" then Config.EXPORT_OUTPUT_DIR cfg else d
    | None => Config.EXPORT_OUTPUT_DIR cfg
    end in
  let result :=
    ExportRow.mk (Batch.company_name batch) (Batch.gstin batch) (period_label batch)
                 JNull None None "" JNull (JInt report_format) None in
  res <- ApiClient.export_gst_report sys cfg report_type_name
           (Batch.company_id batch) (Batch.gstin batch)
           (Batch.start_period batch) (Batch.end_period batch) report_format ;;
  let '(success, job_id, error) := res in
  if negb success then
    ret (Some (finish (set_job_id result (JStr "")) (Some "") None
                      "Failed to Create Job" (opt_str error), false))
  else
    wait_for_export fuel 0 batch (job_of job_id) export_dir
                    (set_job_id result (job_of job_id)).

End ExportJob.
End Utils.

(* ===================================================================== *)
(** ** excel_handler.py *)
(* ===================================================================== *)

Module ExcelHandler.

(** [s.replace('.0', '')]: every occurrence, left to right. *)
Fixpoint remove_dot_zero (s : string) : string :=
  match s with
  | EmptyString => EmptyString
  | String c rest =>
      match rest with
      | String z rest' =>
          if (Ascii.eqb c "."%char && Ascii.eqb z "0"%char)%bool
          then remove_dot_zero rest'
          else String c (remove_dot_zero rest)
      | EmptyString => String c EmptyString
      end
  end.

(** A row of the sheet as text; [raw_gstin] is [None] for an empty cell. *)
Record RawRow : Type := mkRaw {
  raw_company_id : string;
  raw_company_name : string;
  raw_gstin : option string
}.

(** The cleaning steps of [read_companies] on one row: rows without a
    GSTIN are dropped, the id is stripped and loses its [.0], the GSTIN
    is stripped and upper-cased. *)
Definition clean_row (r : RawRow) : option Company.t :=
  match raw_gstin r with
  | None => None
  | Some g =>
      Some (Company.mk (remove_dot_zero (Py.strip (raw_company_id r)))
                       (raw_company_name r)
                       (Py.upper (Py.strip g)))
  end.

Fixpoint read_companies (rows : list RawRow) : list Company.t :=
  match rows with
  | [] => []
  | r :: rest =>
      match clean_row r with
      | Some c => c :: read_companies rest
      | None => read_companies rest
      end
  end.

End ExcelHandler.

(* ===================================================================== *)
(** ** main.py *)
(* ===================================================================== *)

Module Main.
Import World.
Local Open Scope io_scope.

(** [if company_id and not company_id.startswith('oc-'): ...]. *)
Definition with_prefix (company_id : string) : string :=
  if negb (String.eqb company_id "") && negb (Py.startswith company_id "oc-")
  then "oc-" @@ company_id else company_id.

(** [x or default] on a [str]. *)
Definition or_else (x default : string) : string :=
  if String.eqb x "" then default else x.

(** *** run_pull_operation *)

(** The three variables the loops of [run_pull_operation] update. *)
Record PullState : Type := mkPS {
  current_operation : Z;
  results : list Row.t;
  failed_operations : list Op.t
}.

Definition append_result (st : PullState) (r : Row.t) : PullState :=
  mkPS (current_operation st) (results st ++ [r]) (failed_operations st).

Definition append_failed (st : PullState) (o : Op.t) : PullState :=
  mkPS (current_operation st) (results st) (failed_operations st ++ [o]).

Definition count_operation (st : PullState) : PullState :=
  mkPS (current_operation st + 1) (results st) (failed_operations st).

(** [not success and error_msg and 'Not connected to GST System' in error_msg]. *)
Definition says_not_connected (success : bool) (error_msg : option string) : bool :=
  negb success &&
  match error_msg with
  | Some e => negb (String.eqb e "") && Py.str_in "Not connected to GST System" e
  | None => false
  end.

Definition is_some {A : Type} (o : option A) : bool :=
  match o with Some _ => true | None => false end.

(** The row for a unit of a company that lacks an id or a GSTIN. *)
Definition missing_row (company_id company_name gstin month report_type : string)
  : Row.t :=
  Row.mk report_type (or_else company_id "Missing") company_name
         (or_else gstin "Missing") month (JStr "") "Skipped"
         "Missing Company ID or GSTIN".

(** The row for a unit skipped because the company is not connected. *)
Definition skipped_row (company_id company_name gstin month not_connected_error
  report_type : string) : Row.t :=
  Row.mk report_type company_id company_name gstin month (JStr "") "Skipped"
         not_connected_error.

Section Pull.
Context {W : Type} (sys : System W) (cfg : Config.t).
Variable report_types : list string.
Variable months : list string.
Variable total_operations : Z.

(** The flag after a unit: [Some e] when [company_not_connected] is set,
    with [e] the value of [not_connected_error]. *)
Definition unit_flag (res : ApiClient.SubmitResult) (not_connected : option string)
  : option string :=
  let '(success, job_id, error_msg) := res in
  if says_not_connected success error_msg
     && Config.SKIP_NOT_CONNECTED_COMPANIES cfg
  then error_msg else not_connected.

(** The entry a failed unit adds to [failed_operations]. *)
Definition unit_operation (company_id company_name gstin month report_type : string)
  (error_msg : option string) : Op.t :=
  Op.mk pull report_type company_id company_name gstin month error_msg "" "" None.

(** The entry a unit adds to [results]. *)
Definition unit_row (company_id company_name gstin month report_type : string)
  (res : ApiClient.SubmitResult) (not_connected : option string) : Row.t :=
  let '(success, job_id, error_msg) := res in
  Row.mk report_type company_id company_name gstin month
    (match job_id with
     | Some j => if truthy j then j else JStr ""
     | None => JStr ""
     end)
    (if success then "Success"
     else if is_some not_connected then "Skipped" else "Failed")
    (match error_msg with Some e => or_else e "-" | None => "-" end).

(** Is the unit queued for a retry? *)
Definition unit_failed (res : ApiClient.SubmitResult) (not_connected : option string)
  : bool :=
  negb (fst (fst res)) && negb (is_some not_connected).

(** The body of the innermost loop: one unit.  [not_connected] is the
    flag on entry; the tests after the call read the flag as the call
    has left it. *)
Definition pull_unit (company_id company_name gstin month : string)
  (not_connected : option string) (st : PullState) (report_type : string)
  : M W (option string * PullState) :=
  let st := count_operation st in
  res <- ApiClient.pull_gst_report sys cfg report_type company_id gstin month ;;
  let not_connected := unit_flag res not_connected in
  let st :=
    if unit_failed res not_connected then
      append_failed st
        (unit_operation company_id company_name gstin month report_type (snd res))
    else st in
  let st :=
    append_result st
      (unit_row company_id company_name gstin month report_type res not_connected) in
  (if (current_operation st <? total_operations) && negb (is_some not_connected)
   then sleep BetweenCalls (Config.PULL_DELAY_BETWEEN_CALLS cfg)
   else ret tt) ;;;
  ret (not_connected, st).

(** [for report_type in report_types] of one month. *)
Fixpoint pull_month (company_id company_name gstin month : string)
  (todo : list string) (not_connected : option string) (st : PullState)
  : M W (option string * PullState) :=
  match todo with
  | [] => ret (not_connected, st)
  | report_type :: rest =>
      r <- pull_unit company_id company_name gstin month not_connected st report_type ;;
      pull_month company_id company_name gstin month rest (fst r) (snd r)
  end.

(** The month of a company already known as not connected: a row per
    report type, no call. *)
Fixpoint skip_month (company_id company_name gstin month not_connected_error : string)
  (todo : list string) (st : PullState) : PullState :=
  match todo with
  | [] => st
  | report_type :: rest =>
      skip_month company_id company_name gstin month not_connected_error rest
        (append_result (count_operation st)
           (skipped_row company_id company_name gstin month not_connected_error
                        report_type))
  end.

(** [for month_index, month in enumerate(months)] of one company. *)
Fixpoint pull_months (company_id company_name gstin : string) (todo : list string)
  (not_connected : option string) (st : PullState) : M W (option string * PullState) :=
  match todo with
  | [] => ret (not_connected, st)
  | month :: rest =>
      match not_connected with
      | Some e =>
          pull_months company_id company_name gstin rest not_connected
            (skip_month company_id company_name gstin month e report_types st)
      | None =>
          r <- pull_month company_id company_name gstin month report_types None st ;;
          pull_months company_id company_name gstin rest (fst r) (snd r)
      end
  end.

(** The rows of a company without an id or a GSTIN. *)
Fixpoint missing_month (company_id company_name gstin month : string)
  (todo : list string) (st : PullState) : PullState :=
  match todo with
  | [] => st
  | report_type :: rest =>
      missing_month company_id company_name gstin month rest
        (append_result st (missing_row company_id company_name gstin month report_type))
  end.

Fixpoint missing_months (company_id company_name gstin : string) (todo : list string)
  (st : PullState) : PullState :=
  match todo with
  | [] => st
  | month :: rest =>
      missing_months company_id company_name gstin rest
        (missing_month company_id company_name gstin month report_types st)
  end.

(** The body of [for company in companies]. *)
Definition pull_company (company : Company.t) (st : PullState) : M W PullState :=
  let company_id := with_prefix (Company.Company_ID company) in
  let company_name := Company.Company_Name company in
  let gstin := Company.GSTIN company in
  if String.eqb company_id "" || String.eqb gstin "" then
    ret (missing_months company_id company_name gstin months st)
  else
    r <- pull_months company_id company_name gstin months None st ;;
    ret (snd r).

Fixpoint pull_companies (companies : list Company.t) (st : PullState)
  : M W PullState :=
  match companies with
  | [] => ret st
  | company :: rest =>
      st' <- pull_company company st ;;
      pull_companies rest st'
  end.

End Pull.

(** The test of the update loop on one result and one retry. *)
Definition retry_matches (r : Row.t) (retry : Retry.t) : bool :=
  String.eqb (Row.Report_Type r) (Op.report_type (Retry.op retry))
  && String.eqb (Row.Company_Name r) (Op.company_name (Retry.op retry))
  && String.eqb (Row.Return_Period r) (Op.return_period (Retry.op retry))
  && String.eqb (Row.Status r) "Failed".

(** [r['Status'] = 'Success (After Retry)'; r['Job ID'] = retry['job_id']]. *)
Definition upgrade (r : Row.t) (retry : Retry.t) : Row.t :=
  Row.mk (Row.Report_Type r) (Row.Company_ID r) (Row.Company_Name r) (Row.GSTIN r)
         (Row.Return_Period r) (Utils.job_of (Retry.job_id retry))
         "Success (After Retry)" (Row.Error_Message r).

(** [for r in results: if ...: ...; break]. *)
Fixpoint upgrade_first (results : list Row.t) (retry : Retry.t) : list Row.t :=
  match results with
  | [] => []
  | r :: rest =>
      if retry_matches r retry then upgrade r retry :: rest
      else r :: upgrade_first rest retry
  end.

(** The body of [for retry in retry_results]. *)
Definition apply_retry (results : list Row.t) (retry : Retry.t) : list Row.t :=
  if String.eqb (Retry.retry_status retry) "Success"
  then upgrade_first results retry else results.

Definition apply_retries (results : list Row.t) (retry_results : list Retry.t)
  : list Row.t :=
  fold_left apply_retry retry_results results.

Section Run.
Context {W : Type} (sys : System W) (cfg : Config.t).

(** The main loops of [run_pull_operation]: the state when they end. *)
Definition pull_all (companies : list Company.t) (months report_types : list string)
  : M W PullState :=
  let total_operations :=
    Z.of_nat (List.length companies) * Z.of_nat (List.length months)
    * Z.of_nat (List.length report_types) in
  pull_companies sys cfg report_types months total_operations companies
                 (mkPS 0 [] []).

(** [run_pull_operation] from the point where the companies, the months
    and the report types are known to the point where [results] is
    handed to the writer. *)
Definition run_pull_operation (companies : list Company.t)
  (months report_types : list string) : M W (list Row.t) :=
  st <- pull_all companies months report_types ;;
  match failed_operations st with
  | [] => ret (results st)
  | _ =>
      retry_results <- Utils.smart_retry_with_backoff sys cfg (failed_operations st) ;;
      ret (apply_retries (results st) retry_results)
  end.

End Run.

(** *** run_direct_export *)

(** Choice 1 and choice 3: the details typed at the prompts
    ([input(...).strip()]), and the prefix on the id. *)
Definition manual_batch (company_id_input company_name_input gstin_input
  start_input end_input : string) : Batch.t :=
  let company_id := Py.strip company_id_input in
  let company_name := Py.strip company_name_input in
  let gstin := Py.strip gstin_input in
  let start_period := Py.strip start_input in
  let end_period := Py.strip end_input in
  Batch.mk (with_prefix company_id) company_name gstin start_period end_period.

(** Choice 2: one batch per company of the sheet. *)
Definition excel_batch (start_period end_period : string) (company : Company.t)
  : Batch.t :=
  Batch.mk (with_prefix (Company.Company_ID company)) (Company.Company_Name company)
           (Company.GSTIN company) start_period end_period.

(** A row of [export_results] as [run_direct_export] builds it. *)
Definition direct_row (batch : Batch.t) (job_id : JVal) (filename filepath : option string)
  (status : string) (err : JVal) (selected_report : string) (report_format : Z)
  : ExportRow.t :=
  ExportRow.mk (Batch.company_name batch) (Batch.gstin batch) (Utils.period_label batch)
               job_id filename filepath status err (JStr selected_report)
               (Some report_format).

(** What the wait loop leaves behind: [job_completed], [waited], and
    what it appended to [export_results] and [failed_exports]. *)
Record Waited : Type := mkWaited {
  job_completed : bool;
  waited_for : Z;
  new_results : list ExportRow.t;
  new_failed : list Batch.t
}.

Section DirectExport.
Context {W : Type} (sys : System W) (cfg : Config.t).
Variable selected_report : string.
Variable report_format : Z.

(** The [while waited < max_wait] loop of [run_direct_export]; [None]
    when [fuel] iterations were not enough. *)
Fixpoint direct_wait (fuel : nat) (waited : Z) (batch : Batch.t) (job_id : JVal)
  : M W (option Waited) :=
  match fuel with
  | O => ret None
  | S fuel' =>
      if waited <? Config.EXPORT_MAX_WAIT cfg then
        sleep Polling (Config.EXPORT_CHECK_INTERVAL cfg) ;;;
        let waited := waited + Config.EXPORT_CHECK_INTERVAL cfg in
        job_status <- ApiClient.check_job_status sys cfg (Batch.company_id batch) job_id ;;
        let status_code := ApiClient.field job_status "jobStatus" in
        let status := Utils.get_default job_status "status" (JStr "unknown") in
        if ApiClient.is_str status "completed" || ApiClient.is_code_100 status_code then
          dl <- ApiClient.download_export sys cfg (Batch.company_id batch) job_id
                  (Config.EXPORT_OUTPUT_DIR cfg) ;;
          let '(dl_success, filepath, filename) := dl in
          if dl_success : bool then
            ret (Some (mkWaited true waited
                   [direct_row batch job_id filename filepath "Success" JNull
                               selected_report report_format] []))
          else
            ret (Some (mkWaited true waited
                   [direct_row batch job_id (Some "") None "Download Failed"
                               (Utils.opt_str filename) selected_report report_format]
                   [batch]))
        else if ApiClient.is_str status "failed" || ApiClient.is_str status "error" then
          ret (Some (mkWaited false waited
                 [direct_row batch job_id (Some "") None "Job Failed"
                             (Utils.get_default job_status "message" (JStr "Job failed"))
                             selected_report report_format]
                 [batch]))
        else direct_wait fuel' waited batch job_id
      else ret (Some (mkWaited false waited [] []))
  end.

(** The body of [for i, batch in enumerate(export_batches, 1)], up to
    the delay: the rows and the failed batches it appends. *)
Definition direct_export_one (fuel : nat) (batch : Batch.t)
  : M W (option (list ExportRow.t * list Batch.t)) :=
  res <- ApiClient.export_gst_report sys cfg selected_report
           (Batch.company_id batch) (Batch.gstin batch)
           (Batch.start_period batch) (Batch.end_period batch) report_format ;;
  let '(success, job_id, error) := res in
  if success && truthy (Utils.job_of job_id) then
    let max_wait := Config.EXPORT_MAX_WAIT cfg in
    w <- direct_wait fuel 0 batch (Utils.job_of job_id) ;;
    match w with
    | None => ret None
    | Some w =>
        if negb (job_completed w) && (max_wait <=? waited_for w) then
          ret (Some (new_results w ++
                       [direct_row batch (Utils.job_of job_id) (Some "") None "Timeout"
                                   (JStr (Utils.timeout_message max_wait))
                                   selected_report report_format],
                     new_failed w ++ [batch]))
        else ret (Some (new_results w, new_failed w))
    end
  else
    ret (Some ([direct_row batch (JStr "") (Some "") None "Failed to Create Job"
                           (Utils.opt_str error) selected_report report_format],
               [batch])).

(** [for i, batch in enumerate(export_batches, 1)]: [i] is the index of
    the head of [todo], [total] is [len(export_batches)]. *)
Fixpoint export_loop (fuel : nat) (i total : Z) (todo : list Batch.t)
  : M W (option (list ExportRow.t * list Batch.t)) :=
  match todo with
  | [] => ret (Some ([], []))
  | batch :: rest =>
      one <- direct_export_one fuel batch ;;
      (if i <? total then sleep BetweenBatches (Config.EXPORT_BATCH_DELAY cfg)
       else ret tt) ;;;
      others <- export_loop fuel (i + 1) total rest ;;
      match one, others with
      | Some (rows, failed), Some (rows', failed') =>
          ret (Some (rows ++ rows', failed ++ failed'))
      | _, _ => ret None
      end
  end.

(** [run_direct_export] from the point where [export_batches] is built:
    [export_results] and [failed_exports] when the loop ends. *)
Definition run_direct_export (fuel : nat) (export_batches : list Batch.t)
  : M W (option (list ExportRow.t * list Batch.t)) :=
  export_loop fuel 1 (Z.of_nat (List.length export_batches)) export_batches.

End DirectExport.
End Main.

(* ===================================================================== *)
(** ** A scripted world, for concrete runs *)
(* ===================================================================== *)

Module Scenario.
Import World.

(** The server answers the calls it receives from a script, one answer
    per call whatever the request, and refuses the connection when the
    script is used up; the disk records the size of every file written. *)
Record Scripted : Type := mkScripted {
  script : list HttpOutcome;
  disk : list (string * Z)
}.

Definition answer (w : Scripted) : HttpOutcome * Scripted :=
  match script w with
  | [] => (ExcConnectionError "connection refused", w)
  | o :: rest => (o, mkScripted rest (disk w))
  end.

Fixpoint disk_size (d : list (string * Z)) (path : string) : option Z :=
  match d with
  | [] => None
  | (p, n) :: rest => if String.eqb p path then Some n else disk_size rest path
  end.

Definition total_length (chunks : list string) : Z :=
  fold_right (fun c n => Z.of_nat (String.length c) + n) 0 chunks.

(** The text after the last slash. *)
Fixpoint after_last_slash (s acc : string) : string :=
  match s with
  | EmptyString => acc
  | String c rest =>
      if Ascii.eqb c "/"%char then after_last_slash rest rest
      else after_last_slash rest acc
  end.

(** [urlparse(url).path] for a URL written as
    [scheme://host/path?query#fragment]: what follows the host, up to the
    query or the fragment. *)
Definition is_mark (c : ascii) : bool := Ascii.eqb c "?"%char || Ascii.eqb c "#"%char.

Fixpoint until_mark (s : string) : string :=
  match s with
  | EmptyString => EmptyString
  | String c rest => if is_mark c then EmptyString else String c (until_mark rest)
  end.

Fixpoint after_host (s : string) : string :=
  match s with
  | EmptyString => EmptyString
  | String c rest =>
      if Ascii.eqb c "/"%char || is_mark c then s else after_host rest
  end.

Fixpoint after_scheme (s : string) : option string :=
  match s with
  | EmptyString => None
  | String c rest =>
      match rest with
      | String "/" (String "/" more) =>
          if Ascii.eqb c ":"%char then Some more else after_scheme rest
      | _ => after_scheme rest
      end
  end.

Definition url_path (url : string) : string :=
  until_mark (match after_scheme url with
              | Some rest => after_host rest
              | None => url
              end).

(** [urlparse(url).path.split('/')[-1]]. *)
Definition last_segment (url : string) : string :=
  after_last_slash (url_path url) (url_path url).

Definition scripted : System Scripted := {|
  session_post := fun w _ => answer w;
  session_get := fun w _ => answer w;
  fs_mkdir := fun w _ => (None, w);
  fs_write := fun w path chunks =>
    (None, mkScripted (script w) ((path, total_length chunks) :: disk w));
  fs_stat := fun w path => disk_size (disk w) path;
  now_stamp := fun _ => "20240401_120000";
  content_disposition_filename := fun _ => None;
  url_last_segment := last_segment
|}.

Definition start (answers : list HttpOutcome) : Scripted := mkScripted answers [].

(** Answers of the vendor. *)
Definition http (code : Z) (hs : Py.dict string) (body : JsonResult) : HttpOutcome :=
  Responded (mkResponse code hs "" body []).

Definition job_created (job_id : string) : HttpOutcome :=
  http 200 [] (JsonObject [("jobId", JStr job_id)]).

Definition not_connected : HttpOutcome :=
  http 400 [("Octa-ErrorCode", "2000"); ("Octa-ErrorMessage", "GSTN not connected")]
       (JsonDecodeError "").

Definition status (code : Z) : HttpOutcome :=
  http 200 [] (JsonObject [("jobStatus", JInt code)]).

Definition status_done (url : string) : HttpOutcome :=
  http 200 [] (JsonObject [("jobStatus", JInt 100); ("url", JStr url)]).

Definition file (chunks : list string) : HttpOutcome :=
  Responded (mkResponse 200 [] "" (JsonDecodeError "") chunks).

(** The events of one kind in a trace. *)
Definition posts (t : list Event) : list PostReq :=
  flat_map (fun e => match e with EvPost r => [r] | _ => [] end) t.

Definition gets (t : list Event) : list GetReq :=
  flat_map (fun e => match e with EvGet r => [r] | _ => [] end) t.

Definition sleeps (site : SleepSite) (t : list Event) : list Z :=
  flat_map (fun e =>
    match e, site with
    | EvSleep InTransport s, InTransport
    | EvSleep BetweenCalls s, BetweenCalls
    | EvSleep Backoff s, Backoff
    | EvSleep Polling s, Polling
    | EvSleep BetweenBatches s, BetweenBatches => [s]
    | _, _ => []
    end) t.

(** The companies a trace calls [pull_gst_report] for, in order. *)
Definition pulls_for (company_id : string) (t : list Event) : list Event :=
  filter (fun e =>
    match e with
    | EvPull _ c _ _ => String.eqb c company_id
    | _ => false
    end) t.

(** *** Vendors and inputs of the concrete runs *)

(** A vendor that answers every call with HTTP 500. *)
Definition always_500 : World.System unit := {|
  World.session_post := fun w _ => (http 500 [] (World.JsonDecodeError ""), w);
  World.session_get := fun w _ => (http 500 [] (World.JsonDecodeError ""), w);
  World.fs_mkdir := fun w _ => (None, w);
  World.fs_write := fun w _ _ => (None, w);
  World.fs_stat := fun _ _ => None;
  World.now_stamp := fun _ => "20240401_120000";
  World.content_disposition_filename := fun _ => None;
  World.url_last_segment := fun url => url
|}.

(** A pull that failed in the main loop, as queued for the retries. *)
Definition failed_pull : Op.t :=
  Op.mk pull "GSTR-2A" "oc-3372" "Acme" "19AADCG0737G1ZQ" "2024-04"
        (Some "Request timeout") "" "" None.

(** Three retries answered with HTTP 401, 403 and 401. *)
Definition refusals : Scripted :=
  start [http 401 [] (World.JsonDecodeError "");
         http 403 [] (World.JsonDecodeError "");
         http 401 [] (World.JsonDecodeError "")].

(** A company of the sheet. *)
Definition acme : Company.t := Company.mk "3372" "Acme" "19AADCG0737G1ZQ".

(** The first call finds the company not connected; the second call is
    answered with a job. *)
Definition not_connected_then_job : Scripted :=
  start [not_connected; job_created "J2"].

(** [config.py] once the GSTR-2B endpoints are switched on. *)
Definition config_with_2b : Config.t :=
  Config.mk
    (Py.dict_set (Config.GST_REPORTS Config.config_py) "GSTR-2B"
                 (Config.report true "gstr2b"))
    (Config.JOB_STATUS Config.config_py) 3 2 2 1 true true 2 30 180 3 2
    (Config.EXPORT_OUTPUT_DIR Config.config_py).



(** A vendor that creates every job and then reports it as processing
    for ever. *)
Definition always_processing : World.System unit := {|
  World.session_post := fun w _ => (job_created "J123", w);
  World.session_get := fun w _ => (status 1, w);
  World.fs_mkdir := fun w _ => (None, w);
  World.fs_write := fun w _ _ => (None, w);
  World.fs_stat := fun _ _ => None;
  World.now_stamp := fun _ => "20240401_120000";
  World.content_disposition_filename := fun _ => None;
  World.url_last_segment := fun url => url
|}.

(** An export batch of three months. *)
Definition acme_batch : Batch.t :=
  Batch.mk "oc-3372" "Acme" "19AADCG0737G1ZQ" "2024-04" "2024-06".

Definition export_url : string := "https://s3.example.com/exports/file.xlsx".

(** A completed job whose download is answered with HTTP 200 and an
    empty body: the file is written with zero bytes. *)
Definition empty_download : Scripted :=
  start [status_done export_url; file []].

End Scenario.

(* ===================================================================== *)
(** ** More of config.py, utils.py and main.py *)
(* ===================================================================== *)

Module Periods.
Import Utils.

(** [get_default_period] of [config.py] (and the same lines at the head
    of [get_user_date_input]): the month before [today], printed;
    [today.replace(year=0)] raises [ValueError]. *)
Definition get_default_period (today : YearMonth) : Raises string :=
  if month today =? 1 then
    if year today - 1 <? MINYEAR then ValueError
    else Returns (strftime (mkYM (year today - 1) 12))
  else Returns (strftime (mkYM (year today) (month today - 1))).

End Periods.

Module Reports.

(** [get_enabled_reports]: the names of [GST_REPORTS] whose entry is
    enabled, in the order of the [dict]. *)
Definition get_enabled_reports (cfg : Config.t) : list string :=
  map fst (filter (fun entry => Config.enabled (snd entry)) (Config.GST_REPORTS cfg)).




End Reports.

Module Batches.

(** [new_batch = batch.copy()] with both periods set to [month]. *)
Definition month_batch (batch : Batch.t) (month : string) : Batch.t :=
  Batch.mk (Batch.company_id batch) (Batch.company_name batch) (Batch.gstin batch)
           month month.

(** Strategy 2 of [run_direct_export]: one batch per month of every
    batch.  [generate_month_range] can raise; [None] stands for its loop
    running out of fuel. *)
Fixpoint split_by_month (export_batches : list Batch.t)
  : option (Utils.Raises (list Batch.t)) :=
  match export_batches with
  | [] => Some (Utils.Returns [])
  | batch :: rest =>
      match Utils.generate_month_range (Batch.start_period batch)
                                       (Batch.end_period batch) with
      | Some (Utils.Returns months) =>
          match split_by_month rest with
          | Some (Utils.Returns new_batches) =>
              Some (Utils.Returns (map (month_batch batch) months ++ new_batches))
          | other => other
          end
      | Some Utils.ValueError => Some Utils.ValueError
      | None => None
      end
  end.

(** The adjustment of the batches to the strategy typed at the prompt:
    [2] splits by month, [3] (quarterly) is [pass], anything else leaves
    the batches as they are. *)
Definition adjust_batches (strategy : string) (export_batches : list Batch.t)
  : option (Utils.Raises (list Batch.t)) :=
  if String.eqb strategy "2" then split_by_month export_batches
  else Some (Utils.Returns export_batches).

(** *** prepare_export_batches

    The frame of the pull results is a list of rows whose cells are
    text, as [run_pull_operation] leaves them.  [run_export_phase] reads
    the frame back from the sheet, where an empty cell comes back as NaN
    (and [groupby] leaves a group with such a key out); a cell of that
    kind has no counterpart here, so the rows stand for results whose
    cells come back as the text that was written. *)










End Batches.

Module ExportPhase.
Import World.
Local Open Scope io_scope.

(** [for r in export_results: if r['Company'] == ... and r['Period'] ==
    ...: ...; break] of the retry loop of [run_export_phase]. *)
Fixpoint mark_retried (export_results : list ExportRow.t) (batch : Batch.t)
  (filename filepath : option string) (job_id : JVal) : list ExportRow.t :=
  match export_results with
  | [] => []
  | r :: rest =>
      if String.eqb (ExportRow.Company r) (Batch.company_name batch)
         && String.eqb (ExportRow.Period r) (Utils.period_label batch)
      then
        ExportRow.mk (ExportRow.Company r) (ExportRow.GSTIN r) (ExportRow.Period r)
                     job_id filename filepath "Success (Retry)" (ExportRow.Error r)
                     (ExportRow.Report_Type r) (ExportRow.Report_Format r) :: rest
      else r :: mark_retried rest batch filename filepath job_id
  end.

Section Phase.
Context {W : Type} (sys : System W) (cfg : Config.t).

(** [EXPORT_RETRY_FAILED] and [EXPORT_RETRY_TIMEOUT] of [config.py]. *)
Variable EXPORT_RETRY_FAILED : bool.
Variable EXPORT_RETRY_TIMEOUT : Z.

(** The answer of [get_report_type()] (100 or 101), the report type read
    from the pull results, and the directory chosen from [export_paths]. *)
Variable report_type : Z.
Variable report_type_name : string.
Variable export_dir : string.

(** The first loop: [process_export_batch(batch, api_client, report_type,
    logger)], so with its defaults for the report type name and the
    directory, and two seconds between two batches. *)
Fixpoint first_pass (fuel : nat) (i total : Z) (todo : list Batch.t)
  : M W (option (list ExportRow.t * list Batch.t)) :=
  match todo with
  | [] => ret (Some ([], []))
  | batch :: rest =>
      one <- Utils.process_export_batch sys cfg fuel batch report_type "GSTR-2A" None ;;
      (if i <? total then sleep BetweenBatches 2 else ret tt) ;;;
      others <- first_pass fuel (i + 1) total rest ;;
      match one, others with
      | Some (result, success), Some (export_results, failed_exports) =>
          ret (Some (result :: export_results,
                     if success : bool then failed_exports else batch :: failed_exports))
      | _, _ => ret None
      end
  end.

(** The [while waited < max_wait] loop of a retry, with its interval of
    ten seconds; the value is [export_results] when the loop is left. *)
Fixpoint retry_wait (fuel : nat) (waited : Z) (batch : Batch.t) (job_id : JVal)
  (export_results : list ExportRow.t) : M W (option (list ExportRow.t)) :=
  match fuel with
  | O => ret None
  | S fuel' =>
      if waited <? EXPORT_RETRY_TIMEOUT then
        sleep Polling 10 ;;;
        let waited := waited + 10 in
        job_status <- ApiClient.check_job_status sys cfg (Batch.company_id batch) job_id ;;
        match Utils.status_lower job_status with
        | inr _ => ret (Some export_results)
        | inl status =>
            if Py.str_mem status Utils.completed_words then
              dl <- ApiClient.download_export sys cfg (Batch.company_id batch)
                                              job_id export_dir ;;
              let '(dl_success, filepath, filename) := dl in
              if dl_success : bool then
                ret (Some (mark_retried export_results batch filename filepath job_id))
              else ret (Some export_results)
            else if Py.str_mem status ["failed"; "error"] then ret (Some export_results)
            else retry_wait fuel' waited batch job_id export_results
        end
      else ret (Some export_results)
  end.

(** The body of [for i, batch in enumerate(failed_exports, 1)]. *)
Definition retry_export (fuel : nat) (batch : Batch.t)
  (export_results : list ExportRow.t) : M W (option (list ExportRow.t)) :=
  res <- ApiClient.export_gst_report sys cfg report_type_name
           (Batch.company_id batch) (Batch.gstin batch)
           (Batch.start_period batch) (Batch.end_period batch) report_type ;;
  let '(success, job_id, error) := res in
  if success && truthy (Utils.job_of job_id) then
    retry_wait fuel 0 batch (Utils.job_of job_id) export_results
  else ret (Some export_results).

Fixpoint retry_exports (fuel : nat) (failed_exports : list Batch.t)
  (export_results : list ExportRow.t) : M W (option (list ExportRow.t)) :=
  match failed_exports with
  | [] => ret (Some export_results)
  | batch :: rest =>
      r <- retry_export fuel batch export_results ;;
      match r with
      | Some export_results' => retry_exports fuel rest export_results'
      | None => ret None
      end
  end.

(** [run_export_phase] from the point where [export_batches] is
    prepared (and not empty) to the point where [export_results] is handed
    to the tracking file. *)
Definition run_export_phase (fuel : nat) (export_batches : list Batch.t)
  : M W (option (list ExportRow.t)) :=
  first <- first_pass fuel 1 (Z.of_nat (List.length export_batches)) export_batches ;;
  match first with
  | None => ret None
  | Some (export_results, failed_exports) =>
      if EXPORT_RETRY_FAILED
         && match failed_exports with [] => false | _ => true end
      then retry_exports fuel failed_exports export_results
      else ret (Some export_results)
  end.

End Phase.
End ExportPhase.

Module Summary.

(** The counts of [save_operation_summary], as [run_export_phase] calls
    it on [export_results]: [total_operations], [successful], [failed]
    and [skipped], each status compared as a whole. *)
Record t : Type := mk {
  total_operations : nat;
  successful : nat;
  failed : nat;
  skipped : nat
}.

Definition count (status : string) (operations : list ExportRow.t) : nat :=
  List.length (filter (fun op => String.eqb (ExportRow.Status op) status) operations).

Definition save_operation_summary (operations : list ExportRow.t) : t :=
  mk (List.length operations) (count "Success" operations)
     (count "Failed" operations) (count "Skipped" operations).

End Summary.

(* ===================================================================== *)
(** * Properties *)
(* ===================================================================== *)

(** ** Monad and dictionary facts *)

Section Basics.
Import World.
Context {W : Type}.

Lemma bind_run {A B : Type} (m : M W A) (k : A -> M W B) (w : W) :
  bind m k w =
  (value_of (k (value_of (m w)) (world_of (m w))),
   world_of (k (value_of (m w)) (world_of (m w))),
   trace_of (m w) ++ trace_of (k (value_of (m w)) (world_of (m w)))).
Proof.
  unfold bind, value_of, world_of, trace_of.
  destruct (m w) as [[a w1] t1]; simpl.
  destruct (k a w1) as [[b w2] t2]; reflexivity.
Qed.

Lemma run_eta {A : Type} (x : A * W * list Event) :
  x = (value_of x, world_of x, trace_of x).
Proof. destruct x as [[a w] t]; reflexivity. Qed.

End Basics.

Lemma dict_get_set_same {V : Type} (d : Py.dict V) (k : string) (v : V) :
  Py.dict_get (Py.dict_set d k v) k = Some v.
Proof.
  induction d as [| [k' v'] rest IH]; simpl.
  - now rewrite String.eqb_refl.
  - destruct (String.eqb k k') eqn:E; simpl; rewrite E; [reflexivity | exact IH].
Qed.

Lemma dict_get_set_other {V : Type} (d : Py.dict V) (k k' : string) (v : V) :
  k' <> k -> Py.dict_get (Py.dict_set d k v) k' = Py.dict_get d k'.
Proof.
  intros Hne. induction d as [| [k0 v0] rest IH]; simpl.
  - destruct (String.eqb k' k) eqn:E; [apply String.eqb_eq in E; contradiction | reflexivity].
  - destruct (String.eqb k k0) eqn:E; simpl.
    + apply String.eqb_eq in E; subst k0.
      destruct (String.eqb k' k) eqn:E'; [apply String.eqb_eq in E'; contradiction | reflexivity].
    + destruct (String.eqb k' k0); [reflexivity | exact IH].
Qed.

(* ===================================================================== *)
(** ** The job status poller *)
(* ===================================================================== *)

Section StatusPoller.
Import World ApiClient.

(** The table, read as a chain of tests on an integer code. *)
Lemma canonical_status_int (code : Z) :
  canonical_status (JInt code) =
  if code =? 100 then "completed"
  else if code =? 0 then "pending"
  else if code =? 1 then "processing"
  else if code =? 2 then "processing"
  else if code =? -1 then "failed"
  else if code =? -2 then "cancelled"
  else if code =? 99 then "expired"
  else "unknown".
Proof.
  unfold canonical_status, as_int_key, status_mapping, table_get.
  repeat match goal with
         | |- context [?a =? ?b] => destruct (a =? b); [reflexivity |]
         end.
  reflexivity.
Qed.

(** Whatever the value under [jobStatus], the status is [completed]
    only for a value equal to the integer 100. *)
Lemma canonical_completed_only_100 (v : JVal) :
  canonical_status v = "completed" -> as_int_key v = Some 100.
Proof.
  unfold canonical_status.
  destruct (as_int_key v) as [k |] eqn:Hk; [| discriminate].
  unfold status_mapping, table_get.
  destruct (k =? 100) eqn:E100; [apply Z.eqb_eq in E100; now subst |].
  repeat match goal with
         | |- context [?a =? ?b] => destruct (a =? b); [discriminate |]
         end.
  discriminate.
Qed.

Context {W : Type} (sys : System W) (cfg : Config.t).

(** A status query answered with HTTP 200 and a JSON object returns that
    object with the derived status stored under [status]. *)
Lemma check_job_status_answered (company_id : string) (job_id : JVal) (w w1 : W)
  (r : Response) (data : Py.dict JVal) :
  session_get sys w (mkGet (Config.JOB_STATUS cfg @@ "/" @@ py_str job_id)
                           (Some company_id)) = (Responded r, w1) ->
  status_code r = 200 ->
  json r = JsonObject data ->
  check_job_status sys cfg company_id job_id w =
  (Py.dict_set data "status" (JStr (canonical_status (field data "jobStatus"))), w1,
   [EvGet (mkGet (Config.JOB_STATUS cfg @@ "/" @@ py_str job_id) (Some company_id))]).
Proof.
  intros Hget H200 Hjson.
  unfold check_job_status, bind, get. rewrite Hget, H200, Hjson. reflexivity.
Qed.

(** C3.  A status query answered with HTTP 200 and an integer
    [jobStatus] derives the status by the fixed table
    100 -> completed, 0 -> pending, 1 -> processing, 2 -> processing,
    -1 -> failed, -2 -> cancelled, 99 -> expired; every other code gives
    [unknown] (so neither [completed] nor [failed]), and [completed] is
    derived for code 100 only. *)
Theorem check_job_status_fixed_table (company_id : string) (job_id : JVal)
  (w w1 : W) (r : Response) (data : Py.dict JVal) (code : Z)
  (Hget : session_get sys w (mkGet (Config.JOB_STATUS cfg @@ "/" @@ py_str job_id)
                                   (Some company_id)) = (Responded r, w1))
  (H200 : status_code r = 200)
  (Hjson : json r = JsonObject data)
  (Hcode : field data "jobStatus" = JInt code) :
  exists status : string,
    Py.dict_get (value_of (check_job_status sys cfg company_id job_id w)) "status"
      = Some (JStr status)
    /\ (code = 100 -> status = "completed")
    /\ (code = 0 -> status = "pending")
    /\ (code = 1 -> status = "processing")
    /\ (code = 2 -> status = "processing")
    /\ (code = -1 -> status = "failed")
    /\ (code = -2 -> status = "cancelled")
    /\ (code = 99 -> status = "expired")
    /\ (~ In code [100; 0; 1; 2; -1; -2; 99] ->
        status = "unknown" /\ status <> "completed" /\ status <> "failed")
    /\ (status = "completed" -> code = 100).
Proof.
  exists (canonical_status (JInt code)).
  rewrite (check_job_status_answered company_id job_id w w1 r data Hget H200 Hjson).
  unfold value_of; simpl fst. rewrite dict_get_set_same, Hcode.
  split; [reflexivity |].
  do 7 (split; [intros ->; reflexivity |]).
  split.
  - intros Hout.
    assert (Hu : canonical_status (JInt code) = "unknown").
    { rewrite canonical_status_int.
      repeat match goal with
             | |- context [?a =? ?b] =>
                 destruct (Z.eqb_spec a b);
                 [exfalso; apply Hout; subst; simpl; tauto |]
             end.
      reflexivity. }
    rewrite Hu. repeat split; discriminate.
  - intros Hc. apply canonical_completed_only_100 in Hc.
    simpl in Hc. congruence.
Qed.

End StatusPoller.

(** The table at work: the scripted vendor answers code 7, which is not
    in the table. *)
Lemma check_job_status_fixed_table_witness :
  exists status : string,
    Py.dict_get
      (World.value_of
         (ApiClient.check_job_status Scenario.scripted Config.config_py "oc-3372"
            (World.JStr "J123") (Scenario.start [Scenario.status 7])))
      "status" = Some (World.JStr status)
    /\ (7 = 100 -> status = "completed")
    /\ (7 = 0 -> status = "pending")
    /\ (7 = 1 -> status = "processing")
    /\ (7 = 2 -> status = "processing")
    /\ (7 = -1 -> status = "failed")
    /\ (7 = -2 -> status = "cancelled")
    /\ (7 = 99 -> status = "expired")
    /\ (~ In 7 [100; 0; 1; 2; -1; -2; 99] ->
        status = "unknown" /\ status <> "completed" /\ status <> "failed")
    /\ (status = "completed" -> 7 = 100).
Proof.
  apply (check_job_status_fixed_table Scenario.scripted Config.config_py "oc-3372"
           (World.JStr "J123") (Scenario.start [Scenario.status 7])
           (Scenario.start [])
           (World.mkResponse 200 [] "" (World.JsonObject [("jobStatus", World.JInt 7)]) [])
           [("jobStatus", World.JInt 7)] 7);
    reflexivity.
Defined.

(* ===================================================================== *)
(** ** The transport layer *)
(* ===================================================================== *)

Section RunLemmas.
Import World.
Context {W : Type}.

Lemma value_bind {A B : Type} (m : M W A) (k : A -> M W B) (w : W) :
  value_of (bind m k w) = value_of (k (value_of (m w)) (world_of (m w))).
Proof. now rewrite bind_run. Qed.

Lemma world_bind {A B : Type} (m : M W A) (k : A -> M W B) (w : W) :
  world_of (bind m k w) = world_of (k (value_of (m w)) (world_of (m w))).
Proof. now rewrite bind_run. Qed.

Lemma trace_bind {A B : Type} (m : M W A) (k : A -> M W B) (w : W) :
  trace_of (bind m k w) =
  trace_of (m w) ++ trace_of (k (value_of (m w)) (world_of (m w))).
Proof. now rewrite bind_run. Qed.

Lemma bind_assoc {A B C : Type} (m : M W A) (k : A -> M W B) (h : B -> M W C) (w : W) :
  bind (bind m k) h w = bind m (fun a => bind (k a) h) w.
Proof.
  unfold bind. destruct (m w) as [[a w1] t1]. destruct (k a w1) as [[b w2] t2].
  destruct (h b w2) as [[c w3] t3]. now rewrite app_assoc.
Qed.

Lemma bind_ret_l {A B : Type} (a : A) (k : A -> M W B) (w : W) :
  bind (ret a) k w = k a w.
Proof. unfold bind, ret. now destruct (k a w) as [[b w2] t2]. Qed.

Lemma emit_bind {B : Type} (e : Event) (k : unit -> M W B) (w : W) :
  bind (emit e) k w = (value_of (k tt w), world_of (k tt w), e :: trace_of (k tt w)).
Proof. unfold bind, emit. now destruct (k tt w) as [[b w2] t2]. Qed.

Lemma value_mk {A : Type} (a : A) (w : W) (t : list Event) : value_of (a, w, t) = a.
Proof. reflexivity. Qed.

Lemma world_mk {A : Type} (a : A) (w : W) (t : list Event) : world_of (a, w, t) = w.
Proof. reflexivity. Qed.

Lemma trace_mk {A : Type} (a : A) (w : W) (t : list Event) : trace_of (a, w, t) = t.
Proof. reflexivity. Qed.

Lemma bind_ext {A B : Type} (m : M W A) (k k' : A -> M W B) (w : W) :
  (forall a w', k a w' = k' a w') -> bind m k w = bind m k' w.
Proof.
  intros H. unfold bind. destruct (m w) as [[a w1] t1]. now rewrite H.
Qed.

End RunLemmas.

(** Case analysis on whatever the goal branches on. *)
Ltac branch :=
  match goal with
  | |- context [match ?x with _ => _ end] => destruct x eqn:?
  | |- context [if ?b then _ else _] => destruct b eqn:?
  end.

(** An outcome the pull loop answers by trying again: HTTP 429, HTTP
    500, a timeout, a refused connection. *)
Definition transient (o : World.HttpOutcome) : bool :=
  match o with
  | World.Responded r =>
      (World.status_code r =? 429) || (World.status_code r =? 500)
  | World.ExcTimeout _ | World.ExcConnectionError _ => true
  | World.ExcOther _ => false
  end.

(** The message the pull loop returns when the last attempt ends so. *)
Definition exhausted_message (o : World.HttpOutcome) : string :=
  match o with
  | World.Responded r =>
      if World.status_code r =? 429 then "Rate limit exceeded"
      else "OCTA GST server error"
  | World.ExcTimeout _ => "Request timeout"
  | World.ExcConnectionError _ => "Connection error - Check internet"
  | World.ExcOther msg => "Unexpected error: " @@ msg
  end.

(** The events the transport loop of a pull can cause. *)
Definition transport_event (e : World.Event) : Prop :=
  match e with
  | World.EvPost _ | World.EvSleep World.InTransport _ => True
  | _ => False
  end.

Section Transport.
Import World ApiClient.
Context {W : Type} (sys : System W) (cfg : Config.t).

(** The world after [n] posts of the same request. *)
Fixpoint after_posts (n : nat) (req : PostReq) (w : W) : W :=
  match n with
  | O => w
  | S n' => after_posts n' req (snd (session_post sys w req))
  end.

Lemma trace_post (r : PostReq) (w : W) : trace_of (post sys r w) = [EvPost r].
Proof. unfold post. now destruct (session_post sys w r). Qed.

Lemma value_post (r : PostReq) (w : W) :
  value_of (post sys r w) = fst (session_post sys w r).
Proof. unfold post. now destruct (session_post sys w r). Qed.

Lemma world_post (r : PostReq) (w : W) :
  world_of (post sys r w) = snd (session_post sys w r).
Proof. unfold post. now destruct (session_post sys w r). Qed.

Lemma trace_get (r : GetReq) (w : W) : trace_of (get sys r w) = [EvGet r].
Proof. unfold get. now destruct (session_get sys w r). Qed.

Lemma value_get (r : GetReq) (w : W) :
  value_of (get sys r w) = fst (session_get sys w r).
Proof. unfold get. now destruct (session_get sys w r). Qed.

Lemma world_get (r : GetReq) (w : W) :
  world_of (get sys r w) = snd (session_get sys w r).
Proof. unfold get. now destruct (session_get sys w r). Qed.

Lemma pull_attempts_events (todo : nat) :
  forall attempt req gstin period w,
    Forall transport_event
      (trace_of (pull_attempts sys cfg todo attempt req gstin period w)).
Proof.
  induction todo as [| todo IH]; intros attempt req gstin period w.
  - constructor.
  - cbn [pull_attempts]. rewrite trace_bind. apply Forall_app. split.
    + unfold post. destruct (session_post sys w req). repeat constructor.
    + repeat (branch; try (now constructor));
        rewrite trace_bind; apply Forall_app; split;
        try (repeat constructor; fail); apply IH.
Qed.

Lemma pull_gst_report_events (report_type company_id gstin period : string) (w : W) :
  exists t,
    trace_of (pull_gst_report sys cfg report_type company_id gstin period w)
      = EvPull report_type company_id gstin period :: t
    /\ Forall transport_event t.
Proof.
  unfold pull_gst_report. rewrite trace_bind. cbn [emit trace_of snd app].
  eexists; split; [reflexivity |].
  unfold value_of, world_of; cbn [emit fst snd].
  repeat (branch; try (now constructor)).
  apply pull_attempts_events.
Qed.

Lemma export_gst_report_events (report_type company_id gstin s e : string)
  (fmt : Z) (w : W) :
  exists t,
    trace_of (export_gst_report sys cfg report_type company_id gstin s e fmt w)
      = EvExport report_type company_id gstin s e fmt :: t
    /\ Forall transport_event t
    /\ (List.length (Scenario.posts t) <= 1)%nat.
Proof.
  unfold export_gst_report. rewrite trace_bind. cbn [emit trace_of snd app].
  eexists; split; [reflexivity |].
  unfold value_of, world_of; cbn [emit fst snd].
  destruct (Py.dict_get (Config.GST_REPORTS cfg) report_type) as [rep |];
    [| split; [constructor | simpl; lia]].
  destruct (negb (Config.enabled rep)); [split; [constructor | simpl; lia] |].
  rewrite (trace_bind (W := W)), trace_post.
  repeat branch; cbn [ret trace_of snd app];
    (split; [repeat constructor | simpl; lia]).
Qed.

End Transport.

Section TransportRetry.
Import World ApiClient.
Context {W : Type} (sys : System W) (cfg : Config.t).

(** When every post of the request ends in a transient failure, the
    loop uses all its iterations: one post each, and the message of the
    last failure. *)
Lemma pull_attempts_exhausted (req : PostReq) (gstin period : string)
  (Hfail : forall w', transient (fst (session_post sys w' req)) = true) :
  forall (todo : nat) (attempt : Z) (w : W),
    attempt + Z.of_nat (S todo) = Config.API_RETRY_COUNT cfg ->
    value_of (pull_attempts sys cfg (S todo) attempt req gstin period w)
      = (false, None,
         Some (exhausted_message
                 (fst (session_post sys (after_posts sys todo req w) req))))
    /\ Scenario.posts (trace_of (pull_attempts sys cfg (S todo) attempt req gstin period w))
       = repeat req (S todo).
Proof.
  induction todo as [| todo IH]; intros attempt w Hcount.
  - cbn [pull_attempts after_posts].
    rewrite value_bind, trace_bind, value_post, world_post, trace_post.
    assert (Hlast : (attempt <? Config.API_RETRY_COUNT cfg - 1) = false)
      by (apply Z.ltb_ge; lia).
    rewrite Hlast. cbn [negb].
    specialize (Hfail w).
    destruct (fst (session_post sys w req)) as [r | m | m | m];
      cbn [transient] in Hfail; try discriminate; try (split; reflexivity).
    cbn [exhausted_message].
    destruct (Z.eqb_spec (status_code r) 429) as [E | E].
    + rewrite E. split; reflexivity.
    + destruct (Z.eqb_spec (status_code r) 500) as [E' | E']; [| discriminate].
      rewrite E'. split; reflexivity.
  - remember (S todo) as k eqn:Hk.
    cbn [pull_attempts after_posts].
    rewrite value_bind, trace_bind, value_post, world_post, trace_post.
    assert (Hlast : (attempt <? Config.API_RETRY_COUNT cfg - 1) = true)
      by (apply Z.ltb_lt; lia).
    rewrite Hlast. cbn [negb].
    assert (Hnext : attempt + 1 + Z.of_nat k = Config.API_RETRY_COUNT cfg) by lia.
    subst k.
    destruct (IH (attempt + 1) (snd (session_post sys w req)) Hnext) as [IHv IHt].
    pose proof (Hfail w) as Hw.
    assert (Hstep : forall secs,
      value_of (bind (sleep InTransport secs)
                  (fun _ => pull_attempts sys cfg (S todo) (attempt + 1) req gstin period)
                  (snd (session_post sys w req)))
        = (false, None,
           Some (exhausted_message
                   (fst (session_post sys
                      (after_posts sys todo req (snd (session_post sys w req))) req))))
      /\ Scenario.posts
           ([EvPost req] ++
            trace_of (bind (sleep InTransport secs)
                        (fun _ => pull_attempts sys cfg (S todo) (attempt + 1) req gstin period)
                        (snd (session_post sys w req))))
         = req :: repeat req (S todo)).
    { intros secs. rewrite value_bind, trace_bind.
      unfold sleep, emit, value_of, world_of, trace_of in *; cbn [fst snd] in *.
      rewrite IHv. split; [reflexivity |].
      unfold Scenario.posts in *. rewrite flat_map_app, flat_map_app, IHt.
      reflexivity. }
    destruct (fst (session_post sys w req)) as [r | m | m | m];
      cbn [transient] in Hw; try discriminate; try apply Hstep.
    destruct (Z.eqb_spec (status_code r) 429) as [E | E].
    + rewrite E. apply Hstep.
    + destruct (Z.eqb_spec (status_code r) 500) as [E' | E']; [| discriminate].
      rewrite E'. apply Hstep.
Qed.

(** An outcome that is not transient ends the loop at once. *)
Lemma pull_attempts_final (req : PostReq) (gstin period : string)
  (todo : nat) (attempt : Z) (w : W) :
  transient (fst (session_post sys w req)) = false ->
  Scenario.posts (trace_of (pull_attempts sys cfg (S todo) attempt req gstin period w))
    = [req].
Proof.
  intros Hfinal. cbn [pull_attempts].
  rewrite trace_bind, value_post, world_post, trace_post.
  destruct (fst (session_post sys w req)) as [r | m | m | m];
    cbn [transient] in Hfinal; try discriminate.
  - apply orb_false_iff in Hfinal. destruct Hfinal as [H429 H500].
    rewrite H429, H500.
    repeat branch; reflexivity.
  - reflexivity.
Qed.

(** Whatever the vendor answers, the loop posts the one request it was
    given, at most once per iteration. *)
Lemma pull_attempts_posts (req : PostReq) (gstin period : string) (todo : nat) :
  forall (attempt : Z) (w : W),
    exists k,
      (k <= todo)%nat
      /\ Scenario.posts (trace_of (pull_attempts sys cfg todo attempt req gstin period w))
         = repeat req k.
Proof.
  induction todo as [| todo IH]; intros attempt w.
  - exists 0%nat. split; [lia | reflexivity].
  - cbn [pull_attempts]. rewrite trace_bind, trace_post.
    assert (Hstop : forall (x : SubmitResult) (w' : W),
              exists k, (k <= S todo)%nat
                        /\ Scenario.posts ([EvPost req] ++ trace_of (ret x w')) = repeat req k)
      by (intros x w'; exists 1%nat; split; [lia | reflexivity]).
    assert (Hgo : forall (secs : Z) (w' : W),
              exists k, (k <= S todo)%nat
                        /\ Scenario.posts
                             ([EvPost req] ++
                              trace_of (bind (sleep InTransport secs)
                                          (fun _ => pull_attempts sys cfg todo (attempt + 1)
                                                      req gstin period) w'))
                           = repeat req k).
    { intros secs w'. unfold sleep. rewrite emit_bind, trace_mk.
      destruct (IH (attempt + 1) w') as (k & Hk & Hp).
      exists (S k). split; [lia |]. cbn. unfold Scenario.posts in Hp. now rewrite Hp. }
    repeat branch; try apply Hstop; apply Hgo.
Qed.

(** The transport layer hands the company id, the GSTIN and the period
    to the vendor as it received them: every post of a pull is the
    request built from the arguments, and there are at most
    [API_RETRY_COUNT] of them. *)
Lemma pull_gst_report_posts (report_type company_id gstin period : string) (w : W) :
  exists (k : nat) (url : string),
    (k <= Z.to_nat (Config.API_RETRY_COUNT cfg))%nat
    /\ Scenario.posts
         (trace_of (pull_gst_report sys cfg report_type company_id gstin period w))
       = repeat (mkPost url company_id (PullPayload gstin period)) k.
Proof.
  unfold pull_gst_report. rewrite emit_bind, trace_mk.
  destruct (Py.dict_get (Config.GST_REPORTS cfg) report_type) as [rep |];
    [| exists 0%nat, ""; split; [lia | reflexivity]].
  destruct (negb (Config.enabled rep));
    [exists 0%nat, ""; split; [lia | reflexivity] |].
  destruct (pull_attempts_posts
              (mkPost (Config.pull_endpoint rep) company_id (PullPayload gstin period))
              gstin period (Z.to_nat (Config.API_RETRY_COUNT cfg)) 0 w) as (k & Hk & Hp).
  exists k, (Config.pull_endpoint rep). split; [exact Hk | exact Hp].
Qed.

End TransportRetry.

Section TransportClaim.
Import World ApiClient.
Context {W : Type} (sys : System W) (cfg : Config.t).

(** C5, as the code has it.  A pull whose every attempt ends in HTTP
    429, HTTP 500, a timeout or a refused connection makes exactly
    [API_RETRY_COUNT] posts and then returns a failure whose message
    names the kind of the last failure; a pull attempt that ends any
    other way (another 5xx status among them) is the last one; an export
    makes at most one post, whatever the answer. *)
Theorem pull_retries_then_reports (report_type company_id gstin period : string)
  (rep : Config.Report) (w : W)
  (Hrep : Py.dict_get (Config.GST_REPORTS cfg) report_type = Some rep)
  (Hon : Config.enabled rep = true)
  (Hcount : 1 <= Config.API_RETRY_COUNT cfg)
  (Hfail : forall w',
     transient (fst (session_post sys w'
       (mkPost (Config.pull_endpoint rep) company_id (PullPayload gstin period))))
     = true) :
  let req := mkPost (Config.pull_endpoint rep) company_id (PullPayload gstin period) in
  let n := Z.to_nat (Config.API_RETRY_COUNT cfg) in
  let run := pull_gst_report sys cfg report_type company_id gstin period w in
  value_of run
    = (false, None,
       Some (exhausted_message
               (fst (session_post sys (after_posts sys (n - 1) req w) req))))
  /\ Scenario.posts (trace_of run) = repeat req n
  /\ (forall (todo : nat) (attempt : Z) (w0 : W),
        transient (fst (session_post sys w0 req)) = false ->
        Scenario.posts (trace_of (pull_attempts sys cfg (S todo) attempt req gstin period w0))
          = [req])
  /\ (forall rt c g s e fmt w0,
        (List.length (Scenario.posts
           (trace_of (export_gst_report sys cfg rt c g s e fmt w0))) <= 1)%nat).
Proof.
  intros req n run.
  assert (Hn : n = S (n - 1)) by (subst n; lia).
  assert (Hrun : run = bind (emit (EvPull report_type company_id gstin period))
                         (fun _ => pull_attempts sys cfg n 0 req gstin period) w).
  { subst run. unfold pull_gst_report. rewrite Hrep, Hon. reflexivity. }
  destruct (pull_attempts_exhausted sys cfg req gstin period Hfail (n - 1)%nat 0 w)
    as [Hv Ht]; [subst n; lia |].
  rewrite <- Hn in Hv, Ht.
  repeat split.
  - rewrite Hrun, value_bind. exact Hv.
  - rewrite Hrun, trace_bind. unfold Scenario.posts in *.
    rewrite flat_map_app. exact Ht.
  - intros todo attempt w0. apply pull_attempts_final.
  - intros rt c g s e fmt w0.
    destruct (export_gst_report_events sys cfg rt c g s e fmt w0) as (t & Ht' & _ & Hle).
    rewrite Ht'. exact Hle.
Qed.

End TransportClaim.

(** Three posts, then the server-error message. *)
Lemma pull_retries_then_reports_witness :
  World.value_of
    (ApiClient.pull_gst_report Scenario.always_500 Config.config_py
       "GSTR-2A" "oc-3372" "19AADCG0737G1ZQ" "2024-04" tt)
    = (false, None, Some "OCTA GST server error")
  /\ List.length
       (Scenario.posts
          (World.trace_of
             (ApiClient.pull_gst_report Scenario.always_500 Config.config_py
                "GSTR-2A" "oc-3372" "19AADCG0737G1ZQ" "2024-04" tt))) = 3%nat.
Proof.
  destruct (pull_retries_then_reports Scenario.always_500 Config.config_py
              "GSTR-2A" "oc-3372" "19AADCG0737G1ZQ" "2024-04"
              (Config.report true "gstr2a") tt eq_refl eq_refl)
    as (Hv & Ht & _).
  - vm_compute. discriminate.
  - intros w'. reflexivity.
  - split; [exact Hv | rewrite Ht; reflexivity].
Defined.

(** C5 as stated fails: an export answered with HTTP 429 and a pull
    answered with HTTP 503 are each reported after a single post, though
    the next answer of the script would have created the job. *)
Lemma transport_retry_counterexample :
  let export_run :=
    ApiClient.export_gst_report Scenario.scripted Config.config_py
      "GSTR-2A" "oc-3372" "19AADCG0737G1ZQ" "2024-04" "2024-04" 101
      (Scenario.start [Scenario.http 429 [] (World.JsonDecodeError "");
                       Scenario.job_created "J123"]) in
  let pull_run :=
    ApiClient.pull_gst_report Scenario.scripted Config.config_py
      "GSTR-2A" "oc-3372" "19AADCG0737G1ZQ" "2024-04"
      (Scenario.start [Scenario.http 503 [] (World.JsonDecodeError "");
                       Scenario.job_created "J123"]) in
  World.value_of export_run = (false, None, Some "HTTP 429")
  /\ List.length (Scenario.posts (World.trace_of export_run)) = 1%nat
  /\ World.value_of pull_run = (false, None, Some "HTTP 503: ")
  /\ List.length (Scenario.posts (World.trace_of pull_run)) = 1%nat.
Proof. vm_compute. repeat split. Qed.

(* ===================================================================== *)
(** ** The smart retry driver *)
(* ===================================================================== *)

Section SmartRetry.
Import World Utils.
Context {W : Type} (sys : System W) (cfg : Config.t).

(** C4, as the code has it.  With base 2 and cap 30, an operation
    whose three retries all fail is retried exactly three times, with a
    pause of 2 seconds after the first failure and of 4 seconds after
    the second and none after the third; the driver then records one
    [Failed] entry with [retry_attempts = 3] and the error of the third
    retry, and makes no further call. *)
Theorem smart_retry_three_attempts (operation : Op.t) (w w1 w2 w3 : W)
  (j1 j2 j3 : option JVal) (e1 e2 e3 : option string) (t1 t2 t3 : list Event)
  (Hon : Config.SMART_RETRY_ENABLED cfg = true)
  (Hbase : Config.RETRY_EXPONENTIAL_BASE cfg = 2)
  (Hcap : Config.RETRY_MAX_WAIT cfg = 30)
  (H1 : retry_call sys cfg operation w = ((false, j1, e1), w1, t1))
  (H2 : retry_call sys cfg operation w1 = ((false, j2, e2), w2, t2))
  (H3 : retry_call sys cfg operation w2 = ((false, j3, e3), w3, t3)) :
  smart_retry_with_backoff sys cfg [operation] w
  = ([Retry.mk operation "Failed" 3 None e3], w3,
     t1 ++ [EvSleep Backoff 2] ++ t2 ++ [EvSleep Backoff 4] ++ t3).
Proof.
  unfold smart_retry_with_backoff. rewrite Hon. cbn [negb retry_each].
  change (Z.to_nat max_attempts) with 3%nat.
  cbn [retry_attempts]. unfold bind, sleep, emit, ret.
  rewrite H1. cbn -[Z.pow Z.min]. rewrite H2. cbn -[Z.pow Z.min]. rewrite H3.
  cbn -[Z.pow Z.min]. rewrite Hbase, Hcap.
  repeat rewrite app_nil_r. repeat rewrite <- app_assoc. reflexivity.
Qed.

End SmartRetry.

Lemma smart_retry_three_attempts_witness :
  World.value_of
    (Utils.smart_retry_with_backoff Scenario.scripted Config.config_py
       [Scenario.failed_pull] Scenario.refusals)
  = [Retry.mk Scenario.failed_pull "Failed" 3 None
       (Some "Authentication failed - Check API credentials")]
  /\ Scenario.sleeps World.Backoff
       (World.trace_of
          (Utils.smart_retry_with_backoff Scenario.scripted Config.config_py
             [Scenario.failed_pull] Scenario.refusals))
     = [2; 4].
Proof.
  rewrite (smart_retry_three_attempts Scenario.scripted Config.config_py Scenario.failed_pull
             Scenario.refusals _ _ _ _ _ _ _ _ _ _ _ _
             eq_refl eq_refl eq_refl eq_refl eq_refl eq_refl).
  split; reflexivity.
Defined.

(** C4 as stated fails: between three attempts the driver sleeps twice,
    2 then 4 seconds; there is no pause of 8 seconds. *)
Lemma smart_retry_delays_counterexample :
  Scenario.sleeps World.Backoff
    (World.trace_of
       (Utils.smart_retry_with_backoff Scenario.scripted Config.config_py
          [Scenario.failed_pull] Scenario.refusals))
  = [2; 4]
  /\ Scenario.sleeps World.Backoff
       (World.trace_of
          (Utils.smart_retry_with_backoff Scenario.scripted Config.config_py
             [Scenario.failed_pull] Scenario.refusals))
     <> [2; 4; 8].
Proof. split; [reflexivity | discriminate]. Qed.

(* ===================================================================== *)
(** ** The batch orchestrator *)
(* ===================================================================== *)

(** Does the result stand for the operation, and is it [Failed]?  This
    is the test of the update loop. *)
Definition row_matches (r : Row.t) (o : Op.t) : bool :=
  String.eqb (Row.Report_Type r) (Op.report_type o)
  && String.eqb (Row.Company_Name r) (Op.company_name o)
  && String.eqb (Row.Return_Period r) (Op.return_period o)
  && String.eqb (Row.Status r) "Failed".

(** Do two operations name the same report type, company name and
    period? *)
Definition same_unit (o o' : Op.t) : bool :=
  String.eqb (Op.report_type o') (Op.report_type o)
  && String.eqb (Op.company_name o') (Op.company_name o)
  && String.eqb (Op.return_period o') (Op.return_period o).

Definition count_rows (o : Op.t) (rows : list Row.t) : nat :=
  List.length (filter (fun r => row_matches r o) rows).

Definition count_ops (o : Op.t) (ops : list Op.t) : nat :=
  List.length (filter (same_unit o) ops).

(** [st'] is [st] after [n] more units: [n] more results, and as many
    new [Failed] results for a unit as new failed operations for it. *)
Definition grows (n : nat) (st st' : Main.PullState) : Prop :=
  exists rows ops,
    Main.results st' = Main.results st ++ rows
    /\ Main.failed_operations st' = Main.failed_operations st ++ ops
    /\ List.length rows = n
    /\ forall o, count_rows o rows = count_ops o ops.

Lemma grows_refl (st : Main.PullState) : grows 0 st st.
Proof.
  exists [], []. now rewrite !app_nil_r.
Qed.

Lemma grows_trans (n m : nat) (st1 st2 st3 : Main.PullState) :
  grows n st1 st2 -> grows m st2 st3 -> grows (n + m) st1 st3.
Proof.
  intros (r1 & o1 & Hr1 & Ho1 & Hl1 & Hc1) (r2 & o2 & Hr2 & Ho2 & Hl2 & Hc2).
  exists (r1 ++ r2), (o1 ++ o2). repeat split.
  - now rewrite Hr2, Hr1, app_assoc.
  - now rewrite Ho2, Ho1, app_assoc.
  - rewrite length_app. lia.
  - intros o. unfold count_rows, count_ops in *.
    rewrite !filter_app, !length_app, Hc1, Hc2. reflexivity.
Qed.

(** A result that is not [Failed] stands for no operation. *)
Lemma grows_row (st : Main.PullState) (r : Row.t) :
  Row.Status r <> "Failed" -> grows 1 st (Main.append_result st r).
Proof.
  intros Hs. exists [r], []. cbn. rewrite app_nil_r. repeat split.
  intros o. unfold count_rows, row_matches. cbn.
  destruct (String.eqb_spec (Row.Status r) "Failed") as [E | _]; [contradiction |].
  now rewrite andb_false_r.
Qed.

Lemma grows_count (st : Main.PullState) :
  grows 0 st (Main.count_operation st).
Proof. exists [], []. cbn. now rewrite !app_nil_r. Qed.

Section Orchestrator.
Import World Main.
Context {W : Type} (sys : System W) (cfg : Config.t).
Variable report_types : list string.
Variable months : list string.
Variable total_operations : Z.

Local Abbreviation pull_unit := (Main.pull_unit sys cfg total_operations).
Local Abbreviation pull_month := (Main.pull_month sys cfg total_operations).
Local Abbreviation pull_months := (Main.pull_months sys cfg report_types total_operations).
Local Abbreviation pull_company :=
  (Main.pull_company sys cfg report_types months total_operations).
Local Abbreviation pull_companies :=
  (Main.pull_companies sys cfg report_types months total_operations).

(** What a unit returns, whatever it sleeps. *)
Lemma pull_unit_value (c n g m : string) (flag : option string) (st : PullState)
  (rt : string) (w : W) :
  let res := value_of (ApiClient.pull_gst_report sys cfg rt c g m w) in
  let flag' := Main.unit_flag cfg res flag in
  let st1 := count_operation st in
  let st2 := if unit_failed res flag'
             then append_failed st1 (unit_operation c n g m rt (snd res)) else st1 in
  value_of (pull_unit c n g m flag st rt w)
  = (flag', append_result st2 (unit_row c n g m rt res flag')).
Proof.
  cbv zeta. unfold Main.pull_unit. rewrite value_bind, value_bind.
  reflexivity.
Qed.

Lemma pull_unit_grows (c n g m : string) (flag : option string) (st : PullState)
  (rt : string) (w : W) :
  grows 1 st (snd (value_of (pull_unit c n g m flag st rt w))).
Proof.
  rewrite pull_unit_value. cbn [snd].
  destruct (value_of (ApiClient.pull_gst_report sys cfg rt c g m w))
    as [[success job_id] error_msg].
  set (flag' := Main.unit_flag cfg (success, job_id, error_msg) flag).
  unfold unit_failed, unit_row. cbn [fst snd].
  destruct success; cbn [negb andb].
  - apply (grows_trans 0 1 _ _ _ (grows_count st)).
    apply grows_row. cbn. discriminate.
  - destruct (is_some flag'); cbn [negb].
    + apply (grows_trans 0 1 _ _ _ (grows_count st)).
      apply grows_row. cbn. discriminate.
    + eexists [_], [_]. cbn. repeat split.
      intros o. unfold count_rows, count_ops, row_matches, same_unit. cbn.
      rewrite andb_true_r. now branch.
Qed.

Lemma pull_month_grows (c n g m : string) (todo : list string) :
  forall flag st w,
    grows (List.length todo) st (snd (value_of (pull_month c n g m todo flag st w))).
Proof.
  induction todo as [| rt rest IH]; intros flag st w.
  - apply grows_refl.
  - cbn [Main.pull_month List.length]. rewrite value_bind.
    apply (grows_trans 1 (List.length rest) st _ _ (pull_unit_grows c n g m flag st rt w)).
    apply IH.
Qed.

Lemma skip_month_grows (c n g m e : string) (todo : list string) :
  forall st, grows (List.length todo) st (skip_month c n g m e todo st).
Proof.
  induction todo as [| rt rest IH]; intros st.
  - apply grows_refl.
  - cbn [skip_month List.length].
    eapply (grows_trans 1 (List.length rest)); [| apply IH].
    apply (grows_trans 0 1 _ _ _ (grows_count st)).
    apply grows_row. cbn. discriminate.
Qed.

Lemma pull_months_grows (c n g : string) (todo : list string) :
  forall flag st w,
    grows (List.length todo * List.length report_types) st
          (snd (value_of (pull_months c n g todo flag st w))).
Proof.
  induction todo as [| m rest IH]; intros flag st w.
  - apply grows_refl.
  - cbn [Main.pull_months List.length Nat.mul]. destruct flag as [e |].
    + apply (grows_trans _ _ st _ _ (skip_month_grows c n g m e report_types st)).
      apply IH.
    + rewrite value_bind.
      apply (grows_trans _ _ st _ _ (pull_month_grows c n g m report_types None st w)).
      apply IH.
Qed.

Lemma missing_month_grows (c n g m : string) (todo : list string) :
  forall st, grows (List.length todo) st (missing_month c n g m todo st).
Proof.
  induction todo as [| rt rest IH]; intros st.
  - apply grows_refl.
  - cbn [missing_month List.length].
    eapply (grows_trans 1 (List.length rest)); [| apply IH].
    apply grows_row. cbn. discriminate.
Qed.

Lemma missing_months_grows (c n g : string) (todo : list string) :
  forall st,
    grows (List.length todo * List.length report_types) st
          (missing_months report_types c n g todo st).
Proof.
  induction todo as [| m rest IH]; intros st.
  - apply grows_refl.
  - cbn [missing_months List.length Nat.mul].
    apply (grows_trans _ _ st _ _ (missing_month_grows c n g m report_types st)).
    apply IH.
Qed.

Lemma pull_company_grows (company : Company.t) (st : PullState) (w : W) :
  grows (List.length months * List.length report_types) st
        (value_of (pull_company company st w)).
Proof.
  unfold Main.pull_company. branch.
  - apply missing_months_grows.
  - rewrite value_bind. apply pull_months_grows.
Qed.

Lemma pull_companies_grows (companies : list Company.t) :
  forall st w,
    grows (List.length companies * (List.length months * List.length report_types))
          st (value_of (pull_companies companies st w)).
Proof.
  induction companies as [| company rest IH]; intros st w.
  - apply grows_refl.
  - cbn [Main.pull_companies List.length Nat.mul]. rewrite value_bind.
    apply (grows_trans _ _ st _ _ (pull_company_grows company st w)).
    apply IH.
Qed.

End Orchestrator.

(** *** The update after the retries keeps every result in its place *)

Lemma upgrade_first_length (results : list Row.t) (retry : Retry.t) :
  List.length (Main.upgrade_first results retry) = List.length results.
Proof.
  induction results as [| r rest IH]; [reflexivity |].
  cbn [Main.upgrade_first]. destruct (Main.retry_matches r retry); cbn; congruence.
Qed.

Lemma apply_retry_length (results : list Row.t) (retry : Retry.t) :
  List.length (Main.apply_retry results retry) = List.length results.
Proof.
  unfold Main.apply_retry. branch; [apply upgrade_first_length | reflexivity].
Qed.

Lemma apply_retries_length (retry_results : list Retry.t) :
  forall results,
    List.length (Main.apply_retries results retry_results) = List.length results.
Proof.
  unfold Main.apply_retries.
  induction retry_results as [| retry rest IH]; intros results; [reflexivity |].
  cbn [fold_left]. rewrite IH. apply apply_retry_length.
Qed.

(** *** Every result stands for its unit *)

(** The units of a batch in the order the loops visit them: company by
    company, month by month, report type by report type. *)
Definition month_units (company : Company.t) (month : string)
  (report_types : list string) : list (Company.t * string * string) :=
  map (fun report_type => (company, month, report_type)) report_types.

Definition company_units (company : Company.t) (months report_types : list string)
  : list (Company.t * string * string) :=
  flat_map (fun month => month_units company month report_types) months.

Definition pull_units (companies : list Company.t) (months report_types : list string)
  : list (Company.t * string * string) :=
  flat_map (fun company => company_units company months report_types) companies.

(** [not company_id or not gstin], the test that sends a company to the
    rows of a missing id or GSTIN. *)
Definition lacks_id_or_gstin (company : Company.t) : bool :=
  String.eqb (Main.with_prefix (Company.Company_ID company)) ""
  || String.eqb (Company.GSTIN company) "".

(** The result [r] is the record of the unit [u]: it names the unit's
    report type, company and month (an absent id or GSTIN as "Missing"),
    and its status is one of the four a result can have; for a company
    without an id or a GSTIN it is the skipped record that says so. *)
Definition stands_for (u : Company.t * string * string) (r : Row.t) : Prop :=
  let '(company, month, report_type) := u in
  Row.Report_Type r = report_type
  /\ Row.Company_ID r
     = Main.or_else (Main.with_prefix (Company.Company_ID company)) "Missing"
  /\ Row.Company_Name r = Company.Company_Name company
  /\ Row.GSTIN r = Main.or_else (Company.GSTIN company) "Missing"
  /\ Row.Return_Period r = month
  /\ (if lacks_id_or_gstin company
      then Row.Status r = "Skipped"
           /\ Row.Error_Message r = "Missing Company ID or GSTIN"
           /\ Row.Job_ID r = World.JStr ""
      else In (Row.Status r) ["Success"; "Failed"; "Skipped"; "Success (After Retry)"]).

(** [st'] is [st] with one more result for each unit of [us], in their
    order. *)
Definition records (us : list (Company.t * string * string))
  (st st' : Main.PullState) : Prop :=
  exists rows,
    Main.results st' = Main.results st ++ rows /\ Forall2 stands_for us rows.

Lemma records_refl (st : Main.PullState) : records [] st st.
Proof. exists []. split; [now rewrite app_nil_r | constructor]. Qed.

Lemma records_trans (us1 us2 : list (Company.t * string * string))
  (st1 st2 st3 : Main.PullState) :
  records us1 st1 st2 -> records us2 st2 st3 -> records (us1 ++ us2) st1 st3.
Proof.
  intros (r1 & H1 & F1) (r2 & H2 & F2). exists (r1 ++ r2). split.
  - now rewrite H2, H1, app_assoc.
  - now apply Forall2_app.
Qed.

Lemma records_row (u : Company.t * string * string) (st st' : Main.PullState)
  (r : Row.t) :
  Main.results st' = Main.results st ++ [r] -> stands_for u r -> records [u] st st'.
Proof.
  intros Hr Hu. exists [r]. split; [exact Hr |]. constructor; [exact Hu | constructor].
Qed.

Lemma pull_units_length (companies : list Company.t) (months report_types : list string) :
  List.length (pull_units companies months report_types)
  = (List.length companies * List.length months * List.length report_types)%nat.
Proof.
  assert (Hc : forall company,
            List.length (company_units company months report_types)
            = (List.length months * List.length report_types)%nat).
  { intros company. unfold company_units.
    induction months as [| m rest IH]; [reflexivity |].
    cbn [flat_map List.length]. rewrite length_app, IH. unfold month_units.
    rewrite length_map. lia. }
  unfold pull_units. induction companies as [| c rest IH]; [reflexivity |].
  cbn [flat_map List.length]. rewrite length_app, IH, Hc. lia.
Qed.

Section UnitRecords.
Import World Main.
Context {W : Type} (sys : System W) (cfg : Config.t).
Variable report_types : list string.
Variable months : list string.
Variable total_operations : Z.
Variable company : Company.t.

Local Abbreviation c := (with_prefix (Company.Company_ID company)).
Local Abbreviation n := (Company.Company_Name company).
Local Abbreviation g := (Company.GSTIN company).

Lemma complete_labels :
  lacks_id_or_gstin company = false -> or_else c "Missing" = c /\ or_else g "Missing" = g.
Proof.
  unfold lacks_id_or_gstin, or_else. intros H. apply orb_false_iff in H.
  destruct H as [Hc Hg]. now rewrite Hc, Hg.
Qed.

Lemma pull_unit_records (Hok : lacks_id_or_gstin company = false) (m : string)
  (flag : option string) (st : PullState) (rt : string) (w : W) :
  records [(company, m, rt)] st
    (snd (value_of (Main.pull_unit sys cfg total_operations c n g m flag st rt w))).
Proof.
  rewrite pull_unit_value. cbn [snd].
  destruct (complete_labels Hok) as [Ec Eg].
  destruct (value_of (ApiClient.pull_gst_report sys cfg rt c g m w))
    as [[success job_id] error_msg].
  eapply records_row.
  - unfold append_result. cbn [results].
    match goal with
    | |- context [if ?b then _ else _] => destruct b
    end; reflexivity.
  - unfold stands_for, unit_row. rewrite Hok, Ec, Eg. cbn [Row.Report_Type Row.Company_ID
      Row.Company_Name Row.GSTIN Row.Return_Period Row.Status].
    repeat (split; [reflexivity |]).
    destruct success; [now left |].
    destruct (is_some _); [right; right; now left | right; now left].
Qed.

Lemma pull_month_records (Hok : lacks_id_or_gstin company = false) (m : string)
  (todo : list string) :
  forall flag st w,
    records (month_units company m todo) st
      (snd (value_of (Main.pull_month sys cfg total_operations c n g m todo flag st w))).
Proof.
  induction todo as [| rt rest IH]; intros flag st w.
  - apply records_refl.
  - cbn [Main.pull_month]. rewrite value_bind.
    apply (records_trans [_] _ st _ _ (pull_unit_records Hok m flag st rt w)).
    apply IH.
Qed.

Lemma skip_month_records (Hok : lacks_id_or_gstin company = false) (m e : string)
  (todo : list string) :
  forall st, records (month_units company m todo) st (skip_month c n g m e todo st).
Proof.
  induction todo as [| rt rest IH]; intros st.
  - apply records_refl.
  - cbn [skip_month]. eapply (records_trans [_]); [| apply IH].
    destruct (complete_labels Hok) as [Ec Eg].
    eapply records_row; [reflexivity |].
    unfold stands_for, skipped_row. rewrite Hok, Ec, Eg. cbn.
    repeat (split; [reflexivity |]). right; right; now left.
Qed.

Lemma pull_months_records (Hok : lacks_id_or_gstin company = false)
  (todo : list string) :
  forall flag st w,
    records (company_units company todo report_types) st
      (snd (value_of
              (Main.pull_months sys cfg report_types total_operations c n g todo
                                flag st w))).
Proof.
  induction todo as [| m rest IH]; intros flag st w.
  - apply records_refl.
  - cbn [Main.pull_months]. unfold company_units. cbn [flat_map].
    destruct flag as [e |].
    + apply (records_trans _ _ st _ _ (skip_month_records Hok m e report_types st)).
      apply IH.
    + rewrite value_bind.
      apply (records_trans _ _ st _ _ (pull_month_records Hok m report_types None st w)).
      apply IH.
Qed.

Lemma missing_month_records (Hmiss : lacks_id_or_gstin company = true) (m : string)
  (todo : list string) :
  forall st, records (month_units company m todo) st (missing_month c n g m todo st).
Proof.
  induction todo as [| rt rest IH]; intros st.
  - apply records_refl.
  - cbn [missing_month]. eapply (records_trans [_]); [| apply IH].
    eapply records_row; [reflexivity |].
    unfold stands_for, missing_row. rewrite Hmiss. cbn. repeat split.
Qed.

Lemma missing_months_records (Hmiss : lacks_id_or_gstin company = true)
  (todo : list string) :
  forall st,
    records (company_units company todo report_types) st
            (missing_months report_types c n g todo st).
Proof.
  induction todo as [| m rest IH]; intros st.
  - apply records_refl.
  - cbn [missing_months]. unfold company_units. cbn [flat_map].
    apply (records_trans _ _ st _ _ (missing_month_records Hmiss m report_types st)).
    apply IH.
Qed.

Lemma pull_company_records (st : PullState) (w : W) :
  records (company_units company months report_types) st
    (value_of (Main.pull_company sys cfg report_types months total_operations
                                 company st w)).
Proof.
  unfold Main.pull_company.
  destruct (lacks_id_or_gstin company) eqn:Hl; unfold lacks_id_or_gstin in Hl;
    rewrite Hl.
  - apply missing_months_records. exact Hl.
  - rewrite value_bind. apply pull_months_records. exact Hl.
Qed.

End UnitRecords.

Section BatchRecords.
Import World Main.
Context {W : Type} (sys : System W) (cfg : Config.t).

Lemma pull_companies_records (months report_types : list string) (total : Z)
  (companies : list Company.t) :
  forall st w,
    records (pull_units companies months report_types) st
      (value_of (Main.pull_companies sys cfg report_types months total companies st w)).
Proof.
  induction companies as [| company rest IH]; intros st w.
  - apply records_refl.
  - cbn [Main.pull_companies]. unfold pull_units. cbn [flat_map]. rewrite value_bind.
    apply (records_trans _ _ st _ _
             (pull_company_records sys cfg report_types months total company st w)).
    apply IH.
Qed.

End BatchRecords.

(** The update after the retries changes the status and the job id of
    a [Failed] result and nothing else, so every result goes on standing
    for its unit. *)
Lemma upgrade_stands_for (u : Company.t * string * string) (r : Row.t)
  (retry : Retry.t) :
  stands_for u r -> Main.retry_matches r retry = true ->
  stands_for u (Main.upgrade r retry).
Proof.
  destruct u as [[company month] report_type]. unfold stands_for, Main.upgrade.
  cbn [Row.Report_Type Row.Company_ID Row.Company_Name Row.GSTIN Row.Return_Period
       Row.Status Row.Error_Message Row.Job_ID].
  intros (H1 & H2 & H3 & H4 & H5 & H6) Hm.
  repeat (split; [assumption |]).
  destruct (lacks_id_or_gstin company).
  - destruct H6 as (Hs & _). unfold Main.retry_matches in Hm. rewrite Hs in Hm.
    rewrite andb_false_r in Hm. discriminate.
  - right; right; right; now left.
Qed.

Lemma upgrade_first_stands_for (retry : Retry.t) (us : list (Company.t * string * string))
  (rows : list Row.t) :
  Forall2 stands_for us rows -> Forall2 stands_for us (Main.upgrade_first rows retry).
Proof.
  induction 1 as [| u r us rows Hu Hrest IH]; [constructor |].
  cbn [Main.upgrade_first]. destruct (Main.retry_matches r retry) eqn:Hm.
  - constructor; [now apply upgrade_stands_for | exact Hrest].
  - constructor; assumption.
Qed.

Lemma apply_retries_stands_for (retry_results : list Retry.t)
  (us : list (Company.t * string * string)) :
  forall rows,
    Forall2 stands_for us rows ->
    Forall2 stands_for us (Main.apply_retries rows retry_results).
Proof.
  unfold Main.apply_retries.
  induction retry_results as [| retry rest IH]; intros rows H; [exact H |].
  cbn [fold_left]. apply IH. unfold Main.apply_retry.
  destruct (String.eqb _ _); [now apply upgrade_first_stands_for | exact H].
Qed.

Section ResultCount.
Import World Main.
Context {W : Type} (sys : System W) (cfg : Config.t).

Lemma pull_all_grows (companies : list Company.t) (months report_types : list string)
  (w : W) :
  grows (List.length companies * (List.length months * List.length report_types))
        (mkPS 0 [] []) (value_of (pull_all sys cfg companies months report_types w)).
Proof. unfold pull_all. apply pull_companies_grows. Qed.

Lemma pull_all_records (companies : list Company.t) (months report_types : list string)
  (w : W) :
  Forall2 stands_for (pull_units companies months report_types)
    (results (value_of (pull_all sys cfg companies months report_types w))).
Proof.
  unfold pull_all.
  destruct (pull_companies_records sys cfg months report_types
              (Z.of_nat (List.length companies) * Z.of_nat (List.length months)
               * Z.of_nat (List.length report_types)) companies (mkPS 0 [] []) w)
    as (rows & Hr & Hall).
  rewrite Hr. exact Hall.
Qed.

(** C1.  Whatever the vendor answers, a pull batch ends with exactly
    one result per (company, month, report type).  The number of results
    is the product of the three lengths, and the results are the records
    of the units in the order of the loops: the n-th result names the
    report type, the company and the month of the n-th unit, with the
    status of a pulled, failed, skipped or retried unit, and for a
    company without an id or a GSTIN it is the skipped record that says
    so.  The retries that follow add no result, drop none and move
    none. *)
Theorem one_result_per_unit (companies : list Company.t)
  (months report_types : list string) (w : W) :
  let results :=
    value_of (run_pull_operation sys cfg companies months report_types w) in
  List.length results
  = (List.length companies * List.length months * List.length report_types)%nat
  /\ Forall2 stands_for (pull_units companies months report_types) results.
Proof.
  cbv zeta.
  assert (Hall : Forall2 stands_for (pull_units companies months report_types)
            (value_of (run_pull_operation sys cfg companies months report_types w))).
  { unfold run_pull_operation. rewrite value_bind.
    pose proof (pull_all_records companies months report_types w) as Hrec.
    destruct (failed_operations
                (value_of (pull_all sys cfg companies months report_types w))).
    - exact Hrec.
    - rewrite value_bind. unfold ret, value_of at 1. cbn [fst].
      now apply apply_retries_stands_for. }
  split; [| exact Hall].
  rewrite <- (Forall2_length Hall). apply pull_units_length.
Qed.

End ResultCount.

(** *** The not-connected short circuit *)

(** The state of the loops after the months [todo] of a company known
    as not connected. *)
Fixpoint skip_months (report_types : list string) (company_id company_name gstin
  not_connected_error : string) (todo : list string) (st : Main.PullState)
  : Main.PullState :=
  match todo with
  | [] => st
  | month :: rest =>
      skip_months report_types company_id company_name gstin not_connected_error rest
        (Main.skip_month company_id company_name gstin month not_connected_error
                         report_types st)
  end.

(** The calls of [pull_gst_report] in a trace. *)
Definition pull_calls (t : list World.Event) : list World.Event :=
  filter (fun e => match e with World.EvPull _ _ _ _ => true | _ => false end) t.

Definition not_connected_text : string := "Not connected to GST System".

Lemma pull_calls_app (a b : list World.Event) :
  pull_calls (a ++ b) = pull_calls a ++ pull_calls b.
Proof. apply filter_app. Qed.

Lemma pull_calls_transport (t : list World.Event) :
  Forall transport_event t -> pull_calls t = [].
Proof.
  induction 1 as [| e t He _ IH]; [reflexivity |].
  cbn. destruct e; cbn in He; try contradiction; exact IH.
Qed.

Lemma str_in_nonempty (needle e : string) :
  needle <> "" -> Py.str_in needle e = true -> e <> "".
Proof.
  intros Hn Hin ->. destruct needle; [contradiction | discriminate].
Qed.

Section ShortCircuit.
Import World Main.
Context {W : Type} (sys : System W) (cfg : Config.t).
Variable report_types : list string.
Variable total_operations : Z.

Local Abbreviation pull_unit := (Main.pull_unit sys cfg total_operations).
Local Abbreviation pull_month := (Main.pull_month sys cfg total_operations).
Local Abbreviation pull_months := (Main.pull_months sys cfg report_types total_operations).

Lemma skip_month_results (c n g m e : string) (todo : list string) :
  forall st,
    results (skip_month c n g m e todo st)
    = results st ++ map (skipped_row c n g m e) todo.
Proof.
  induction todo as [| rt rest IH]; intros st; cbn [skip_month map].
  - now rewrite app_nil_r.
  - rewrite IH. cbn. now rewrite <- app_assoc.
Qed.

Lemma skip_months_results (c n g e : string) (todo : list string) :
  forall st,
    results (skip_months report_types c n g e todo st)
    = results st
      ++ flat_map (fun m => map (skipped_row c n g m e) report_types) todo.
Proof.
  induction todo as [| m rest IH]; intros st; cbn [skip_months flat_map].
  - now rewrite app_nil_r.
  - rewrite IH, skip_month_results. now rewrite <- app_assoc.
Qed.

(** Once the flag is set, the months that follow cause no event and
    leave the world as it is. *)
Lemma pull_months_skips (c n g e : string) (todo : list string) :
  forall st w,
    pull_months c n g todo (Some e) st w
    = ((Some e, skip_months report_types c n g e todo st), w, []).
Proof.
  induction todo as [| m rest IH]; intros st w; [reflexivity |].
  cbn [Main.pull_months skip_months]. apply IH.
Qed.

Lemma pull_months_app (c n g : string) (a b : list string) :
  forall flag st w,
    pull_months c n g (a ++ b) flag st w
    = bind (pull_months c n g a flag st)
           (fun r => pull_months c n g b (fst r) (snd r)) w.
Proof.
  induction a as [| m rest IH]; intros flag st w.
  - cbn [app Main.pull_months]. now rewrite bind_ret_l.
  - cbn [app Main.pull_months]. destruct flag as [e |].
    + apply IH.
    + rewrite bind_assoc. apply bind_ext. intros r w'. apply IH.
Qed.

Lemma pull_month_app (c n g m : string) (a b : list string) :
  forall flag st w,
    pull_month c n g m (a ++ b) flag st w
    = bind (pull_month c n g m a flag st)
           (fun r => pull_month c n g m b (fst r) (snd r)) w.
Proof.
  induction a as [| rt rest IH]; intros flag st w.
  - cbn [app Main.pull_month]. now rewrite bind_ret_l.
  - cbn [app Main.pull_month].
    rewrite bind_assoc. apply bind_ext. intros r w'. apply IH.
Qed.

(** One unit, in full: the value, the world and the events. *)
Lemma pull_unit_run (c n g m : string) (flag : option string) (st : PullState)
  (rt : string) (w : W) :
  let run := ApiClient.pull_gst_report sys cfg rt c g m w in
  let res := value_of run in
  let flag' := Main.unit_flag cfg res flag in
  let st1 := count_operation st in
  let st2 := if unit_failed res flag'
             then append_failed st1 (unit_operation c n g m rt (snd res)) else st1 in
  let st3 := append_result st2 (unit_row c n g m rt res flag') in
  pull_unit c n g m flag st rt w
  = ((flag', st3), world_of run,
     trace_of run ++
     (if (current_operation st3 <? total_operations) && negb (is_some flag')
      then [EvSleep BetweenCalls (Config.PULL_DELAY_BETWEEN_CALLS cfg)] else [])).
Proof.
  cbv zeta. unfold Main.pull_unit. rewrite bind_run.
  destruct (ApiClient.pull_gst_report sys cfg rt c g m w) as [[res w1] t1].
  unfold value_of, world_of, trace_of. cbn [fst snd current_operation append_result].
  match goal with
  | |- context [if ?b then sleep _ _ else ret tt] => destruct b
  end; reflexivity.
Qed.

Lemma pull_unit_calls (c n g m : string) (flag : option string) (st : PullState)
  (rt : string) (w : W) :
  pull_calls (trace_of (pull_unit c n g m flag st rt w)) = [EvPull rt c g m].
Proof.
  rewrite pull_unit_run. cbn [trace_of snd]. rewrite pull_calls_app.
  destruct (pull_gst_report_events sys cfg rt c g m w) as (t & Ht & Hf).
  rewrite Ht. cbn [pull_calls filter]. fold (pull_calls t).
  rewrite (pull_calls_transport t Hf). now branch.
Qed.

(** Every report type of a month that is entered is submitted, whatever
    the flag becomes on the way. *)
Lemma pull_month_calls (c n g m : string) (todo : list string) :
  forall flag st w,
    pull_calls (trace_of (pull_month c n g m todo flag st w))
    = map (fun rt => EvPull rt c g m) todo.
Proof.
  induction todo as [| rt rest IH]; intros flag st w; [reflexivity |].
  cbn [Main.pull_month map]. rewrite trace_bind, pull_calls_app, pull_unit_calls, IH.
  reflexivity.
Qed.

(** A set flag stays set, and keeps naming a not-connected message. *)
Lemma unit_flag_keeps (res : ApiClient.SubmitResult) (e : string) :
  Py.str_in not_connected_text e = true ->
  exists e', unit_flag cfg res (Some e) = Some e'
             /\ Py.str_in not_connected_text e' = true.
Proof.
  intros He. destruct res as [[success job_id] error_msg]. unfold unit_flag.
  destruct (says_not_connected success error_msg
            && Config.SKIP_NOT_CONNECTED_COMPANIES cfg) eqn:E.
  - apply andb_true_iff in E. destruct E as [E _].
    unfold says_not_connected in E. apply andb_true_iff in E. destruct E as [_ E].
    destruct error_msg as [e' |]; [| discriminate].
    apply andb_true_iff in E. destruct E as [_ E]. now exists e'.
  - now exists e.
Qed.

Lemma pull_month_keeps (c n g m : string) (todo : list string) :
  forall e st w,
    Py.str_in not_connected_text e = true ->
    exists e', fst (value_of (pull_month c n g m todo (Some e) st w)) = Some e'
               /\ Py.str_in not_connected_text e' = true.
Proof.
  induction todo as [| rt rest IH]; intros e st w He.
  - now exists e.
  - cbn [Main.pull_month]. rewrite value_bind, pull_unit_run.
    cbn [value_of world_of fst snd].
    destruct (unit_flag_keeps
                (value_of (ApiClient.pull_gst_report sys cfg rt c g m w)) e He)
      as (e1 & -> & He1).
    now apply IH.
Qed.

End ShortCircuit.

Section ShortCircuitClaim.
Import World Main.
Context {W : Type} (sys : System W) (cfg : Config.t).
Variable total_operations : Z.

(** The flag after the unit that finds the company not connected. *)
Lemma unit_flag_sets (j : option JVal) (e : string) (flag : option string) :
  Config.SKIP_NOT_CONNECTED_COMPANIES cfg = true ->
  Py.str_in not_connected_text e = true ->
  unit_flag cfg (false, j, Some e) flag = Some e.
Proof.
  intros Hskip He. unfold unit_flag, says_not_connected.
  fold not_connected_text. rewrite He, Hskip.
  destruct (String.eqb_spec e "") as [-> | _]; [discriminate | reflexivity].
Qed.

(** C2, as the code has it.  With skipping enabled, let the unit
    [(month, rt)] of a company be the first to return an error that
    contains "Not connected to GST System".  That unit is recorded as
    [Skipped] with its error; the report types left in that month are
    still submitted, one call each; every unit of every later month is
    recorded as [Skipped] with one and the same not-connected message
    (the last one returned in that month, which is the first one when no
    report type is left), and the loop over the company's months makes no
    call and causes no event after that month.  The flag is local to the
    loop over one company's months, so no other company is touched. *)
Theorem not_connected_skips_later_months
  (c n g : string) (before after : list string) (month rt : string)
  (rts1 rts2 : list string) (st st1 st1' : PullState) (w w1 w1' wu : W)
  (t1 t1' tu : list Event) (e : string)
  (Hskip : Config.SKIP_NOT_CONNECTED_COMPANIES cfg = true)
  (Hbefore : pull_months sys cfg (rts1 ++ rt :: rts2) total_operations c n g
               before None st w = ((None, st1), w1, t1))
  (Hmonth : pull_month sys cfg total_operations c n g month rts1 None st1 w1
            = ((None, st1'), w1', t1'))
  (Hunit : ApiClient.pull_gst_report sys cfg rt c g month w1'
           = ((false, None, Some e), wu, tu))
  (Hnc : Py.str_in not_connected_text e = true) :
  exists (e' : string) (st2 : PullState) (w2 : W) (t2 : list Event) (rows : list Row.t),
    pull_months sys cfg (rts1 ++ rt :: rts2) total_operations c n g
      (before ++ month :: after) None st w
    = ((Some e', skip_months (rts1 ++ rt :: rts2) c n g e' after st2), w2,
       t1 ++ t1' ++ t2)
    /\ Py.str_in not_connected_text e' = true
    /\ (rts2 = [] -> e' = e)
    /\ results (skip_months (rts1 ++ rt :: rts2) c n g e' after st2)
       = results st2
         ++ flat_map (fun m => map (skipped_row c n g m e') (rts1 ++ rt :: rts2)) after
    /\ pull_calls t2 = map (fun r => EvPull r c g month) (rt :: rts2)
    /\ results st2
       = results st1' ++ Row.mk rt c n g month (JStr "") "Skipped" e :: rows
    /\ List.length rows = List.length rts2.
Proof.
  set (rts := rts1 ++ rt :: rts2) in *.
  (* the unit that finds the company not connected *)
  pose proof (pull_unit_run sys cfg total_operations c n g month None st1' rt w1') as Hu.
  cbv zeta in Hu. rewrite Hunit in Hu.
  unfold value_of, world_of, trace_of in Hu. cbn [fst snd] in Hu.
  rewrite (unit_flag_sets None e None Hskip Hnc) in Hu.
  unfold unit_failed in Hu. cbn [fst snd negb andb is_some] in Hu.
  rewrite andb_false_r, app_nil_r in Hu.
  set (stu := append_result (count_operation st1')
                (unit_row c n g month rt (false, None, Some e) (Some e))) in Hu.
  (* the rest of the month *)
  destruct (pull_month sys cfg total_operations c n g month rts2 (Some e) stu wu)
    as [[[f2 st2] w2] tr] eqn:Hrest.
  destruct (pull_month_keeps sys cfg total_operations c n g month rts2 e stu wu Hnc)
    as (e' & Hf2 & He').
  rewrite Hrest in Hf2. unfold value_of in Hf2. cbn [fst] in Hf2. subst f2.
  assert (Hm : pull_month sys cfg total_operations c n g month rts None st1 w1
               = ((Some e', st2), w2, t1' ++ tu ++ tr)).
  { unfold rts. rewrite pull_month_app, bind_run, Hmonth.
    unfold value_of, world_of, trace_of. cbn [fst snd Main.pull_month].
    rewrite bind_run, Hu. unfold value_of, world_of, trace_of. cbn [fst snd].
    rewrite Hrest. reflexivity. }
  exists e', st2, w2, (tu ++ tr).
  pose proof (pull_unit_grows sys cfg total_operations c n g month None st1' rt w1') as Hg1.
  pose proof (pull_month_grows sys cfg total_operations c n g month rts2 (Some e) stu wu)
    as Hg2.
  rewrite Hrest in Hg2. unfold value_of in Hg2. cbn [fst snd] in Hg2.
  destruct Hg2 as (rows & _ & Hrows & _ & Hlen & _).
  exists rows.
  split; [| split; [exact He' | split; [| split; [| split; [| split]]]]].
  - rewrite pull_months_app, bind_run, Hbefore.
    unfold value_of, world_of, trace_of. cbn [fst snd Main.pull_months].
    rewrite bind_run. fold rts. rewrite Hm.
    unfold value_of, world_of, trace_of. cbn [fst snd].
    rewrite (pull_months_skips sys cfg rts total_operations c n g e' after st2 w2).
    cbn [fst snd]. now rewrite app_nil_r.
  - intros ->. cbn in Hrest. unfold ret in Hrest. congruence.
  - apply skip_months_results.
  - rewrite pull_calls_app.
    destruct (pull_gst_report_events sys cfg rt c g month w1') as (t & Ht & Hf).
    rewrite Hunit in Ht. unfold trace_of in Ht. cbn [snd] in Ht. rewrite Ht.
    cbn [pull_calls filter]. fold (pull_calls t).
    rewrite (pull_calls_transport t Hf).
    pose proof (pull_month_calls sys cfg total_operations c n g month rts2 (Some e) stu wu)
      as Hc.
    rewrite Hrest in Hc. unfold trace_of in Hc. cbn [snd] in Hc. rewrite Hc.
    reflexivity.
  - rewrite Hrows. unfold stu. cbn [results append_result count_operation unit_row].
    rewrite <- app_assoc. cbn [app].
    unfold or_else. destruct (String.eqb_spec e "") as [-> | _]; [discriminate |].
    reflexivity.
  - exact Hlen.
Qed.

(** The flag belongs to one company: whatever happened to the company
    before, the months of the next one are entered with the flag
    clear. *)
Lemma pull_company_flag_is_local (report_types months : list string)
  (company : Company.t) (st : PullState) (w : W) :
  with_prefix (Company.Company_ID company) <> "" ->
  Company.GSTIN company <> "" ->
  pull_company sys cfg report_types months total_operations company st w
  = bind (pull_months sys cfg report_types total_operations
            (with_prefix (Company.Company_ID company)) (Company.Company_Name company)
            (Company.GSTIN company) months None st)
         (fun r => ret (snd r)) w.
Proof.
  intros Hid Hg. unfold pull_company.
  destruct (String.eqb_spec (with_prefix (Company.Company_ID company)) "");
    [contradiction |].
  destruct (String.eqb_spec (Company.GSTIN company) ""); [contradiction |].
  reflexivity.
Qed.

End ShortCircuitClaim.

Lemma not_connected_skips_later_months_witness :
  exists (e' : string) (st2 : Main.PullState) (w2 : Scenario.Scripted)
         (t2 : list World.Event) (rows : list Row.t),
    Main.pull_months Scenario.scripted Config.config_py ["GSTR-2A"; "GSTR-2A"] 4
      "oc-3372" "Acme" "19AADCG0737G1ZQ" ["2024-04"; "2024-05"] None
      (Main.mkPS 0 [] []) Scenario.not_connected_then_job
    = ((Some e',
        skip_months ["GSTR-2A"; "GSTR-2A"] "oc-3372" "Acme" "19AADCG0737G1ZQ" e'
                    ["2024-05"] st2),
       w2, [] ++ [] ++ t2)
    /\ Py.str_in not_connected_text e' = true
    /\ (["GSTR-2A"] = [] ->
        e' = "Not connected to GST System - Please complete OTP verification for 19AADCG0737G1ZQ")
    /\ Main.results
         (skip_months ["GSTR-2A"; "GSTR-2A"] "oc-3372" "Acme" "19AADCG0737G1ZQ" e'
                      ["2024-05"] st2)
       = Main.results st2
         ++ flat_map (fun m => map (Main.skipped_row "oc-3372" "Acme" "19AADCG0737G1ZQ" m e')
                                   ["GSTR-2A"; "GSTR-2A"]) ["2024-05"]
    /\ pull_calls t2
       = map (fun r => World.EvPull r "oc-3372" "19AADCG0737G1ZQ" "2024-04")
             ["GSTR-2A"; "GSTR-2A"]
    /\ Main.results st2
       = Main.results (Main.mkPS 0 [] [])
         ++ Row.mk "GSTR-2A" "oc-3372" "Acme" "19AADCG0737G1ZQ" "2024-04" (World.JStr "")
              "Skipped"
              "Not connected to GST System - Please complete OTP verification for 19AADCG0737G1ZQ"
            :: rows
    /\ List.length rows = List.length ["GSTR-2A"].
Proof.
  apply (not_connected_skips_later_months Scenario.scripted Config.config_py 4
           "oc-3372" "Acme" "19AADCG0737G1ZQ" [] ["2024-05"] "2024-04" "GSTR-2A"
           [] ["GSTR-2A"] (Main.mkPS 0 [] []) (Main.mkPS 0 [] []) (Main.mkPS 0 [] [])
           Scenario.not_connected_then_job Scenario.not_connected_then_job Scenario.not_connected_then_job
           (Scenario.start [Scenario.job_created "J2"]) [] []
           [World.EvPull "GSTR-2A" "oc-3372" "19AADCG0737G1ZQ" "2024-04";
            World.EvPost (World.mkPost "https://app.octagst.com/api/gstr2a/pull" "oc-3372"
                            (World.PullPayload "19AADCG0737G1ZQ" "2024-04"))]
           "Not connected to GST System - Please complete OTP verification for 19AADCG0737G1ZQ");
    reflexivity.
Defined.

(** C2 as stated fails for the report types left in the month in which
    the company is found not connected: they are still submitted.  With
    [config.py] as it stands and GSTR-2A selected twice, the second unit
    of 2024-04 is posted and recorded as [Success]; with GSTR-2B switched
    on, the GSTR-2B unit of that month is posted and recorded as
    [Success] as well.  Only the units of 2024-05 are skipped. *)
Lemma not_connected_same_month_counterexample :
  let run :=
    Main.run_pull_operation Scenario.scripted Config.config_py [Scenario.acme]
      ["2024-04"; "2024-05"] ["GSTR-2A"; "GSTR-2A"] Scenario.not_connected_then_job in
  let run_2b :=
    Main.run_pull_operation Scenario.scripted Scenario.config_with_2b [Scenario.acme]
      ["2024-04"; "2024-05"] ["GSTR-2A"; "GSTR-2B"] Scenario.not_connected_then_job in
  map Row.Status (World.value_of run) = ["Skipped"; "Success"; "Skipped"; "Skipped"]
  /\ List.length (Scenario.pulls_for "oc-3372" (World.trace_of run)) = 2%nat
  /\ List.length (Scenario.posts (World.trace_of run)) = 2%nat
  /\ map Row.Status (World.value_of run_2b) = ["Skipped"; "Success"; "Skipped"; "Skipped"]
  /\ map Row.Report_Type (World.value_of run_2b)
     = ["GSTR-2A"; "GSTR-2B"; "GSTR-2A"; "GSTR-2B"]
  /\ List.length (Scenario.posts (World.trace_of run_2b)) = 2%nat.
Proof. vm_compute. repeat split. Qed.

(* ===================================================================== *)
(** ** The update of the results after the retries *)
(* ===================================================================== *)

Section RetryResults.
Import World Utils.
Context {W : Type} (sys : System W) (cfg : Config.t).




End RetryResults.










Section RetryUpdate.
Import World Main.
Context {W : Type} (sys : System W) (cfg : Config.t).



End RetryUpdate.


(* ===================================================================== *)
(** ** The job completion waiter *)
(* ===================================================================== *)

(** A status snapshot that neither wait loop takes for the end of the
    job: its status, in lower case, is none of the words the loops
    recognise. *)
Definition nonterminal (job_status : Py.dict World.JVal) : Prop :=
  exists s,
    Py.dict_get job_status "status" = Some (World.JStr s)
    /\ Py.str_mem (Py.lower s) Utils.completed_words = false
    /\ Py.str_mem (Py.lower s) Utils.failed_words = false.

(** The number of polls within the budget: the budget divided by the
    interval, rounded up. *)
Definition polls_needed (cfg : Config.t) : nat :=
  Z.to_nat ((Config.EXPORT_MAX_WAIT cfg + Config.EXPORT_CHECK_INTERVAL cfg - 1)
            / Config.EXPORT_CHECK_INTERVAL cfg).

(** [rem] polls are left when [waited] seconds have gone by. *)
Definition polls_left (cfg : Config.t) (rem : nat) (waited : Z) : Prop :=
  Config.EXPORT_MAX_WAIT cfg - waited <= Z.of_nat rem * Config.EXPORT_CHECK_INTERVAL cfg
  /\ ((0 < rem)%nat ->
      (Z.of_nat rem - 1) * Config.EXPORT_CHECK_INTERVAL cfg
      < Config.EXPORT_MAX_WAIT cfg - waited).

Lemma polls_left_start (cfg : Config.t) :
  0 < Config.EXPORT_CHECK_INTERVAL cfg -> polls_left cfg (polls_needed cfg) 0.
Proof.
  intros Hi. unfold polls_left, polls_needed.
  set (b := Config.EXPORT_MAX_WAIT cfg). set (i := Config.EXPORT_CHECK_INTERVAL cfg) in *.
  pose proof (Z.div_mod (b + i - 1) i ltac:(lia)) as Hdm.
  pose proof (Z.mod_pos_bound (b + i - 1) i Hi) as Hmod.
  destruct (Z_le_gt_dec ((b + i - 1) / i) 0) as [Hq | Hq].
  - replace (Z.to_nat ((b + i - 1) / i)) with 0%nat by lia.
    split; [nia | intros H; lia].
  - rewrite Z2Nat.id by lia. split; [nia | intros _; nia].
Qed.

Lemma polls_left_next (cfg : Config.t) (rem : nat) (waited : Z) :
  polls_left cfg (S rem) waited ->
  polls_left cfg rem (waited + Config.EXPORT_CHECK_INTERVAL cfg).
Proof.
  unfold polls_left. intros [Hle Hgt]. specialize (Hgt ltac:(lia)).
  split; [lia | intros _; lia].
Qed.

Section Waiter.
Import World ApiClient Utils.
Context {W : Type} (sys : System W) (cfg : Config.t).

(** A status query is one GET, whatever comes back. *)
Lemma check_job_status_trace (company_id : string) (job_id : JVal) (w : W) :
  trace_of (check_job_status sys cfg company_id job_id w)
  = [EvGet (mkGet (Config.JOB_STATUS cfg @@ "/" @@ py_str job_id) (Some company_id))].
Proof.
  unfold check_job_status. rewrite trace_bind, trace_get.
  repeat branch; reflexivity.
Qed.

(** The snapshot carries code 100 only together with the status
    [completed]. *)
Lemma check_job_status_code_100 (company_id : string) (job_id : JVal) (w : W) :
  is_code_100 (field (value_of (check_job_status sys cfg company_id job_id w)) "jobStatus")
    = true ->
  Py.dict_get (value_of (check_job_status sys cfg company_id job_id w)) "status"
    = Some (JStr "completed").
Proof.
  unfold check_job_status. rewrite value_bind.
  destruct (value_of (get sys _ w)) as [r | e | e | e]; try discriminate.
  destruct (status_code r =? 200); [| discriminate].
  destruct (json r) as [e | data | ty]; try discriminate.
  unfold ret, value_of. cbn [fst].
  unfold field at 1. rewrite dict_get_set_other by discriminate.
  fold (field data "jobStatus"). intros H100.
  rewrite dict_get_set_same. do 2 f_equal.
  unfold is_code_100 in H100. unfold canonical_status.
  destruct (as_int_key (field data "jobStatus")) as [k |]; [| discriminate].
  apply Z.eqb_eq in H100. now subst k.
Qed.

(** A successful export submission carries a job id that counts as
    true. *)
Lemma export_success_truthy (report_type company_id gstin s e : string) (fmt : Z)
  (w : W) (job : JVal) (err : option string) :
  value_of (export_gst_report sys cfg report_type company_id gstin s e fmt w)
    = (true, Some job, err) ->
  truthy job = true.
Proof.
  unfold export_gst_report. rewrite emit_bind. unfold value_of at 1. cbn [fst].
  destruct (Py.dict_get (Config.GST_REPORTS cfg) report_type) as [rep |];
    [| discriminate].
  destruct (negb (Config.enabled rep)); [discriminate |].
  rewrite value_bind.
  destruct (value_of (post sys _ w)) as [r | m | m | m]; try discriminate.
  repeat (branch; try discriminate).
  unfold ret, value_of. cbn [fst]. intros H. now inversion H; subst.
Qed.

End Waiter.

Lemma gets_poll (secs : Z) (r : World.GetReq) (t : list World.Event) :
  Scenario.gets (World.EvSleep World.Polling secs :: [World.EvGet r] ++ t)
  = r :: Scenario.gets t.
Proof. reflexivity. Qed.

Lemma sleeps_poll (secs : Z) (r : World.GetReq) (t : list World.Event) :
  Scenario.sleeps World.Polling (World.EvSleep World.Polling secs :: [World.EvGet r] ++ t)
  = secs :: Scenario.sleeps World.Polling t.
Proof. reflexivity. Qed.

Section WaitLoops.
Import World ApiClient Utils.
Context {W : Type} (sys : System W) (cfg : Config.t).
Variable batch : Batch.t.
Variable job : JVal.
Hypothesis Hinterval : 0 < Config.EXPORT_CHECK_INTERVAL cfg.
Hypothesis Hnever :
  forall w', nonterminal
    (value_of (check_job_status sys cfg (Batch.company_id batch) job w')).

Lemma never_status_lower (w : W) :
  exists s,
    status_lower (value_of (check_job_status sys cfg (Batch.company_id batch) job w))
      = inl s
    /\ Py.str_mem s completed_words = false
    /\ Py.str_mem s failed_words = false.
Proof.
  destruct (Hnever w) as (s & Hs & Hc & Hf).
  exists (Py.lower s). unfold status_lower. now rewrite Hs.
Qed.

(** The loop of [process_export_batch] on a job that never ends: [rem]
    polls, then the timeout outcome. *)
Lemma wait_for_export_times_out (export_dir : string) (result : ExportRow.t) :
  forall (rem : nat) (waited : Z) (fuel : nat) (w : W),
    (rem < fuel)%nat ->
    polls_left cfg rem waited ->
    let run := wait_for_export sys cfg fuel waited batch job export_dir result w in
    value_of run
      = Some (finish result (Some "") None "Timeout"
                (JStr (timeout_message (Config.EXPORT_MAX_WAIT cfg))), false)
    /\ List.length (Scenario.gets (trace_of run)) = rem
    /\ Scenario.sleeps Polling (trace_of run)
       = repeat (Config.EXPORT_CHECK_INTERVAL cfg) rem.
Proof.
  induction rem as [| rem IH]; intros waited fuel w Hfuel Hleft;
    (destruct fuel as [| fuel]; [lia |]); cbv zeta; cbn [wait_for_export].
  - destruct Hleft as [Hle _].
    assert (Hend : (waited <? Config.EXPORT_MAX_WAIT cfg) = false)
      by (apply Z.ltb_ge; lia).
    rewrite Hend. repeat split.
  - pose proof Hleft as [_ Hgt]. specialize (Hgt ltac:(lia)).
    assert (Hgo : (waited <? Config.EXPORT_MAX_WAIT cfg) = true)
      by (apply Z.ltb_lt; nia).
    rewrite Hgo. unfold sleep. rewrite emit_bind, value_mk, trace_mk.
    rewrite value_bind, trace_bind, check_job_status_trace.
    destruct (never_status_lower w) as (s & Hs & Hc & Hf).
    rewrite Hs, Hc, Hf.
    destruct (IH (waited + Config.EXPORT_CHECK_INTERVAL cfg) fuel
                 (world_of (check_job_status sys cfg (Batch.company_id batch) job w))
                 ltac:(lia) (polls_left_next cfg rem waited Hleft))
      as (Hv & Hg & Hsl).
    repeat split.
    + exact Hv.
    + rewrite gets_poll. cbn [List.length]. now rewrite Hg.
    + rewrite sleeps_poll. cbn [repeat]. now rewrite Hsl.
Qed.

Variable selected_report : string.
Variable report_format : Z.

Lemma never_direct (w : W) :
  let js := value_of (check_job_status sys cfg (Batch.company_id batch) job w) in
  is_str (get_default js "status" (JStr "unknown")) "completed"
    || is_code_100 (field js "jobStatus") = false
  /\ is_str (get_default js "status" (JStr "unknown")) "failed"
     || is_str (get_default js "status" (JStr "unknown")) "error" = false.
Proof.
  cbv zeta. destruct (Hnever w) as (s & Hs & Hc & Hf).
  destruct (is_code_100
              (field (value_of (check_job_status sys cfg (Batch.company_id batch) job w))
                     "jobStatus")) eqn:H100.
  - apply check_job_status_code_100 in H100. rewrite H100 in Hs.
    inversion Hs; subst s. discriminate.
  - unfold get_default. rewrite Hs. unfold is_str.
    split.
    + destruct (String.eqb_spec s "completed") as [-> | _]; [discriminate | reflexivity].
    + destruct (String.eqb_spec s "failed") as [-> | _]; [discriminate |].
      destruct (String.eqb_spec s "error") as [-> | _]; [discriminate | reflexivity].
Qed.

(** The loop of [run_direct_export] on a job that never ends: [rem]
    polls, nothing appended, the job not completed. *)
Lemma direct_wait_runs_out :
  forall (rem : nat) (waited : Z) (fuel : nat) (w : W),
    (rem < fuel)%nat ->
    polls_left cfg rem waited ->
    let run := Main.direct_wait sys cfg selected_report report_format fuel waited
                                batch job w in
    value_of run
      = Some (Main.mkWaited false
                (waited + Z.of_nat rem * Config.EXPORT_CHECK_INTERVAL cfg) [] [])
    /\ List.length (Scenario.gets (trace_of run)) = rem
    /\ Scenario.sleeps Polling (trace_of run)
       = repeat (Config.EXPORT_CHECK_INTERVAL cfg) rem.
Proof.
  induction rem as [| rem IH]; intros waited fuel w Hfuel Hleft;
    (destruct fuel as [| fuel]; [lia |]); cbv zeta; cbn [Main.direct_wait].
  - destruct Hleft as [Hle _].
    assert (Hend : (waited <? Config.EXPORT_MAX_WAIT cfg) = false)
      by (apply Z.ltb_ge; lia).
    rewrite Hend. repeat split. unfold ret, value_of. cbn [fst].
    do 2 f_equal. lia.
  - pose proof Hleft as [_ Hgt]. specialize (Hgt ltac:(lia)).
    assert (Hgo : (waited <? Config.EXPORT_MAX_WAIT cfg) = true)
      by (apply Z.ltb_lt; nia).
    rewrite Hgo. unfold sleep. rewrite emit_bind, value_mk, trace_mk.
    rewrite value_bind, trace_bind, check_job_status_trace.
    destruct (never_direct w) as [Hc Hf]. cbv zeta in Hc, Hf.
    rewrite Hc, Hf.
    destruct (IH (waited + Config.EXPORT_CHECK_INTERVAL cfg) fuel
                 (world_of (check_job_status sys cfg (Batch.company_id batch) job w))
                 ltac:(lia) (polls_left_next cfg rem waited Hleft))
      as (Hv & Hg & Hsl).
    repeat split.
    + rewrite Hv. do 2 f_equal. rewrite Nat2Z.inj_succ. ring.
    + rewrite gets_poll. cbn [List.length]. now rewrite Hg.
    + rewrite sleeps_poll. cbn [repeat]. now rewrite Hsl.
Qed.

End WaitLoops.

Lemma gets_transport (t : list World.Event) :
  Forall transport_event t -> Scenario.gets t = [].
Proof.
  induction 1 as [| e t He _ IH]; [reflexivity |].
  destruct e; cbn in He; try contradiction; exact IH.
Qed.

Lemma gets_app (a b : list World.Event) :
  Scenario.gets (a ++ b) = Scenario.gets a ++ Scenario.gets b.
Proof. apply flat_map_app. Qed.

Section WaiterClaim.
Import World ApiClient Utils.
Context {W : Type} (sys : System W) (cfg : Config.t).

(** C6.  Let an export job be created, and let no status query ever
    return a status that the wait loops take for the end of the job.
    With a positive check interval, both wait loops (the one of
    [process_export_batch] and the one of [run_direct_export]) stop after
    [polls_needed] status queries, the budget divided by the interval
    and rounded up, and the unit is recorded with status [Timeout] and
    the job id; [run_direct_export] also queues the batch as failed.
    Any fuel above that number of iterations is enough. *)
Theorem export_wait_times_out (batch : Batch.t) (report_type_name : string)
  (report_format : Z) (export_dir : option string) (job : JVal)
  (err : option string) (w w0 : W) (t0 : list Event) (fuel : nat)
  (Hinterval : 0 < Config.EXPORT_CHECK_INTERVAL cfg)
  (Hfuel : (polls_needed cfg < fuel)%nat)
  (Hjob : export_gst_report sys cfg report_type_name (Batch.company_id batch)
            (Batch.gstin batch) (Batch.start_period batch) (Batch.end_period batch)
            report_format w
          = ((true, Some job, err), w0, t0))
  (Hnever : forall w', nonterminal
     (value_of (check_job_status sys cfg (Batch.company_id batch) job w'))) :
  let run :=
    process_export_batch sys cfg fuel batch report_format report_type_name export_dir w in
  let direct :=
    Main.direct_export_one sys cfg report_type_name report_format fuel batch w in
  (exists row,
     value_of run = Some (row, false)
     /\ ExportRow.Status row = "Timeout"
     /\ ExportRow.Job_ID row = job
     /\ ExportRow.Error row = JStr (timeout_message (Config.EXPORT_MAX_WAIT cfg)))
  /\ List.length (Scenario.gets (trace_of run)) = polls_needed cfg
  /\ (exists row,
        value_of direct = Some ([row], [batch])
        /\ ExportRow.Status row = "Timeout"
        /\ ExportRow.Job_ID row = job
        /\ ExportRow.Error row = JStr (timeout_message (Config.EXPORT_MAX_WAIT cfg)))
  /\ List.length (Scenario.gets (trace_of direct)) = polls_needed cfg
  /\ polls_left cfg (polls_needed cfg) 0.
Proof.
  intros run direct.
  pose proof (polls_left_start cfg Hinterval) as Hleft.
  assert (Ht0 : Scenario.gets t0 = []).
  { destruct (export_gst_report_events sys cfg report_type_name (Batch.company_id batch)
                (Batch.gstin batch) (Batch.start_period batch) (Batch.end_period batch)
                report_format w) as (t & Ht & Hf & _).
    rewrite Hjob, trace_mk in Ht. subst t0. cbn. now apply gets_transport. }
  assert (Htruthy : truthy job = true).
  { apply (export_success_truthy sys cfg report_type_name (Batch.company_id batch)
             (Batch.gstin batch) (Batch.start_period batch) (Batch.end_period batch)
             report_format w job err).
    now rewrite Hjob. }
  split; [| split; [| split; [| split]]].
  - subst run. unfold process_export_batch. rewrite value_bind, Hjob, value_mk, world_mk.
    cbn [negb job_of].
    match goal with
    | |- context [wait_for_export sys cfg fuel 0 batch job ?d ?r w0] =>
        destruct (wait_for_export_times_out sys cfg batch job Hinterval Hnever d r
                    (polls_needed cfg) 0 fuel w0 Hfuel Hleft) as (Hv & _ & _)
    end.
    eexists. split; [exact Hv |]. repeat split.
  - subst run. unfold process_export_batch. rewrite trace_bind, Hjob, value_mk, world_mk,
      trace_mk.
    cbn [negb job_of]. rewrite gets_app, Ht0.
    match goal with
    | |- context [wait_for_export sys cfg fuel 0 batch job ?d ?r w0] =>
        destruct (wait_for_export_times_out sys cfg batch job Hinterval Hnever d r
                    (polls_needed cfg) 0 fuel w0 Hfuel Hleft) as (_ & Hg & _)
    end.
    exact Hg.
  - subst direct. unfold Main.direct_export_one.
    rewrite value_bind, Hjob, value_mk, world_mk.
    cbn [job_of andb]. rewrite Htruthy, value_bind.
    destruct (direct_wait_runs_out sys cfg batch job Hinterval Hnever report_type_name
                report_format (polls_needed cfg) 0 fuel w0 Hfuel Hleft) as (Hv & _ & _).
    rewrite Hv. cbn [Main.job_completed Main.waited_for negb andb
                     Main.new_results Main.new_failed app].
    assert (Hover : (Config.EXPORT_MAX_WAIT cfg
                     <=? 0 + Z.of_nat (polls_needed cfg) * Config.EXPORT_CHECK_INTERVAL cfg)
                    = true)
      by (apply Z.leb_le; destruct Hleft; lia).
    rewrite Hover. eexists. split; [reflexivity |]. repeat split.
  - subst direct. unfold Main.direct_export_one.
    rewrite trace_bind, Hjob, value_mk, world_mk, trace_mk.
    cbn [job_of andb]. rewrite Htruthy, trace_bind, gets_app, gets_app, Ht0.
    destruct (direct_wait_runs_out sys cfg batch job Hinterval Hnever report_type_name
                report_format (polls_needed cfg) 0 fuel w0 Hfuel Hleft) as (Hv & Hg & _).
    rewrite Hv. cbn [Main.job_completed Main.waited_for negb andb].
    assert (Hover : (Config.EXPORT_MAX_WAIT cfg
                     <=? 0 + Z.of_nat (polls_needed cfg) * Config.EXPORT_CHECK_INTERVAL cfg)
                    = true)
      by (apply Z.leb_le; destruct Hleft; lia).
    rewrite Hover. cbn [ret trace_of snd Scenario.gets flat_map app].
    rewrite app_nil_r. exact Hg.
  - exact Hleft.
Qed.

End WaiterClaim.

Lemma always_processing_nonterminal (w' : unit) :
  nonterminal
    (World.value_of
       (ApiClient.check_job_status Scenario.always_processing Config.config_py
          (Batch.company_id Scenario.acme_batch) (World.JStr "J123") w')).
Proof.
  destruct w'. exists "processing". repeat split.
Defined.

(** With [config.py] as it stands (a check every 3 seconds, a budget of
    180 seconds) the loops give up after 60 status queries. *)
Lemma export_wait_times_out_witness :
  let run :=
    Utils.process_export_batch Scenario.always_processing Config.config_py 61 Scenario.acme_batch 101
      "GSTR-2A" None tt in
  let direct :=
    Main.direct_export_one Scenario.always_processing Config.config_py "GSTR-2A" 101 61
      Scenario.acme_batch tt in
  (exists row,
     World.value_of run = Some (row, false)
     /\ ExportRow.Status row = "Timeout"
     /\ ExportRow.Job_ID row = World.JStr "J123"
     /\ ExportRow.Error row
        = World.JStr (Utils.timeout_message (Config.EXPORT_MAX_WAIT Config.config_py)))
  /\ List.length (Scenario.gets (World.trace_of run)) = polls_needed Config.config_py
  /\ (exists row,
        World.value_of direct = Some ([row], [Scenario.acme_batch])
        /\ ExportRow.Status row = "Timeout"
        /\ ExportRow.Job_ID row = World.JStr "J123"
        /\ ExportRow.Error row
           = World.JStr (Utils.timeout_message (Config.EXPORT_MAX_WAIT Config.config_py)))
  /\ List.length (Scenario.gets (World.trace_of direct)) = polls_needed Config.config_py
  /\ polls_left Config.config_py (polls_needed Config.config_py) 0.
Proof.
  apply (export_wait_times_out Scenario.always_processing Config.config_py Scenario.acme_batch "GSTR-2A"
           101 None (World.JStr "J123") None tt tt
           [World.EvExport "GSTR-2A" "oc-3372" "19AADCG0737G1ZQ" "2024-04" "2024-06" 101;
            World.EvPost (World.mkPost "https://app.octagst.com/api/gstr2a/export"
                            "oc-3372"
                            (World.ExportPayload ["19AADCG0737G1ZQ"] "2024-04" "2024-06" 101))]
           61%nat).
  - reflexivity.
  - vm_compute. constructor.
  - reflexivity.
  - exact always_processing_nonterminal.
Defined.

Example polls_needed_config : polls_needed Config.config_py = 60%nat.
Proof. reflexivity. Qed.

(* ===================================================================== *)
(** ** The artifact download *)
(* ===================================================================== *)

Section Download.
Import World ApiClient.
Context {W : Type} (sys : System W) (cfg : Config.t).

Definition empty_file_message : string := "File creation failed or file is empty".

Definition written_chunks (r : Response) : list string :=
  filter (fun c => negb (String.eqb c "")) (iter_content r).

(** The tail of the download succeeds only with a file of positive size
    on disk. *)
Lemma save_and_verify_success (output_dir filename : string) (body : list string)
  (w : W) (p f : option string) :
  value_of (save_and_verify sys output_dir filename body w) = (true, p, f) ->
  exists size,
    p = Some (path_join output_dir filename)
    /\ f = Some filename
    /\ fs_stat sys (world_of (save_and_verify sys output_dir filename body w))
               (path_join output_dir filename) = Some size
    /\ 0 < size.
Proof.
  unfold save_and_verify.
  destruct (fs_mkdir sys w output_dir) as [[msg |] w1]; [discriminate |].
  destruct (fs_write sys w1 _ _) as [[msg |] w2]; [discriminate |].
  destruct (fs_stat sys w2 (path_join output_dir filename)) as [size |] eqn:Hstat;
    [| discriminate].
  destruct (0 <? size) eqn:Hpos; [| discriminate].
  unfold value_of, world_of. cbn [fst snd]. intros H. inversion H; subst.
  exists size. repeat split; [exact Hstat | now apply Z.ltb_lt].
Qed.

(** What the tail does once the directory is made and the body
    written: it looks at the file. *)
Lemma save_and_verify_written (output_dir filename : string) (body : list string)
  (w w3 w4 : W) :
  fs_mkdir sys w output_dir = (None, w3) ->
  fs_write sys w3 (path_join output_dir filename)
           (filter (fun c => negb (String.eqb c "")) body) = (None, w4) ->
  value_of (save_and_verify sys output_dir filename body w)
  = match fs_stat sys w4 (path_join output_dir filename) with
    | Some size =>
        if 0 <? size then (true, Some (path_join output_dir filename), Some filename)
        else (false, None, Some empty_file_message)
    | None => (false, None, Some empty_file_message)
    end.
Proof.
  intros Hmk Hwr. unfold save_and_verify. rewrite Hmk, Hwr.
  destruct (fs_stat sys w4 (path_join output_dir filename)) as [size |]; [| reflexivity].
  now destruct (0 <? size).
Qed.

Lemma download_export_success (company_id : string) (job_id : JVal)
  (output_dir : string) (w : W) (p f : option string) :
  value_of (download_export sys cfg company_id job_id output_dir w) = (true, p, f) ->
  exists path size,
    p = Some path
    /\ fs_stat sys (world_of (download_export sys cfg company_id job_id output_dir w))
               path = Some size
    /\ 0 < size.
Proof.
  unfold download_export. rewrite value_bind, world_bind.
  set (js := value_of (check_job_status sys cfg company_id job_id w)).
  set (w1 := world_of (check_job_status sys cfg company_id job_id w)).
  destruct (is_code_100 (field js "jobStatus") || is_str (field js "status") "completed");
    [| discriminate].
  destruct (negb (truthy (field js "url"))); [discriminate |].
  destruct (field js "url") as [| b | z | url]; try discriminate.
  rewrite value_bind, world_bind.
  destruct (value_of (get sys (mkGet url None) w1)) as [r | e | e | e];
    try discriminate.
  destruct (negb (status_code r =? 200)); [discriminate |].
  intros H. apply save_and_verify_success in H.
  destruct H as (size & Hp & _ & Hstat & Hpos).
  exists (path_join output_dir
            (resolve_filename sys r url job_id (world_of (get sys (mkGet url None) w1)))),
         size.
  repeat split; assumption.
Qed.

(** C7.  Take a download whose job is completed (code 100) with a
    download URL, whose GET is answered with HTTP 200, and whose
    directory and file are written without an error.  Then
    [download_export] looks at the written file: when it is missing, or
    present with size zero (or less), the result is a failure with the
    message "File creation failed or file is empty"; when it is present
    with a positive size, the result is the success with its path and
    name.  And for every call whatever: a success means a file of
    positive size on disk. *)
Theorem download_export_checks_file (company_id : string) (job_id : JVal)
  (output_dir : string) (w w1 w2 w3 w4 : W) (r1 r2 : Response)
  (data : Py.dict JVal) (url : string)
  (Hstatus : session_get sys w (mkGet (Config.JOB_STATUS cfg @@ "/" @@ py_str job_id)
                                      (Some company_id)) = (Responded r1, w1))
  (H200 : status_code r1 = 200)
  (Hjson : json r1 = JsonObject data)
  (Hdone : is_code_100 (field data "jobStatus") = true)
  (Hurl : field data "url" = JStr url)
  (Hsome : url <> "")
  (Hget : session_get sys w1 (mkGet url None) = (Responded r2, w2))
  (Hget200 : status_code r2 = 200)
  (Hmkdir : fs_mkdir sys w2 output_dir = (None, w3))
  (Hwrite : fs_write sys w3
              (path_join output_dir (resolve_filename sys r2 url job_id w2))
              (written_chunks r2) = (None, w4)) :
  let filename := resolve_filename sys r2 url job_id w2 in
  let filepath := path_join output_dir filename in
  let result := value_of (download_export sys cfg company_id job_id output_dir w) in
  (fs_stat sys w4 filepath = None ->
   result = (false, None, Some empty_file_message))
  /\ (forall size, fs_stat sys w4 filepath = Some size -> size <= 0 ->
      result = (false, None, Some empty_file_message))
  /\ (forall size, fs_stat sys w4 filepath = Some size -> 0 < size ->
      result = (true, Some filepath, Some filename))
  /\ (forall company job dir w' p f,
        value_of (download_export sys cfg company job dir w') = (true, p, f) ->
        exists path size,
          p = Some path
          /\ fs_stat sys (world_of (download_export sys cfg company job dir w')) path
             = Some size
          /\ 0 < size).
Proof.
  intros filename filepath result.
  assert (Hres : result
                 = match fs_stat sys w4 filepath with
                   | Some size =>
                       if 0 <? size then (true, Some filepath, Some filename)
                       else (false, None, Some empty_file_message)
                   | None => (false, None, Some empty_file_message)
                   end).
  { subst result. unfold download_export.
    rewrite value_bind.
    rewrite (check_job_status_answered sys cfg company_id job_id w w1 r1 data
               Hstatus H200 Hjson).
    rewrite value_mk, world_mk.
    assert (Hcode : field (Py.dict_set data "status"
                             (JStr (canonical_status (field data "jobStatus"))))
                          "jobStatus" = field data "jobStatus")
      by (unfold field; now rewrite dict_get_set_other by discriminate).
    assert (Hu : field (Py.dict_set data "status"
                          (JStr (canonical_status (field data "jobStatus"))))
                       "url" = JStr url)
      by (unfold field in *; now rewrite dict_get_set_other by discriminate).
    rewrite Hcode, Hdone, Hu. cbn [orb truthy].
    destruct (String.eqb_spec url "") as [E | _]; [contradiction |]. cbn [negb].
    rewrite value_bind, value_get, world_get, Hget. cbn [fst snd].
    rewrite Hget200. cbn [Z.eqb Pos.eqb negb].
    apply (save_and_verify_written output_dir filename (iter_content r2) w2 w3 w4 Hmkdir
             Hwrite). }
  repeat split.
  - intros Hnone. now rewrite Hres, Hnone.
  - intros size Hsize Hle. rewrite Hres, Hsize.
    assert (Hz : (0 <? size) = false) by (apply Z.ltb_ge; lia). now rewrite Hz.
  - intros size Hsize Hpos. rewrite Hres, Hsize.
    assert (Hz : (0 <? size) = true) by (apply Z.ltb_lt; lia). now rewrite Hz.
  - intros company job dir w' p f. apply download_export_success.
Qed.

End Download.

Lemma download_export_checks_file_witness :
  let filename :=
    ApiClient.resolve_filename Scenario.scripted
      (World.mkResponse 200 [] "" (World.JsonDecodeError "") []) Scenario.export_url
      (World.JStr "J123") (Scenario.start []) in
  let filepath := ApiClient.path_join "output/exports" filename in
  let result :=
    World.value_of
      (ApiClient.download_export Scenario.scripted Config.config_py "oc-3372"
         (World.JStr "J123") "output/exports" Scenario.empty_download) in
  let w4 := Scenario.mkScripted [] [("output/exports/file.xlsx", 0)] in
  (World.fs_stat Scenario.scripted w4 filepath = None ->
   result = (false, None, Some empty_file_message))
  /\ (forall size, World.fs_stat Scenario.scripted w4 filepath = Some size -> size <= 0 ->
      result = (false, None, Some empty_file_message))
  /\ (forall size, World.fs_stat Scenario.scripted w4 filepath = Some size -> 0 < size ->
      result = (true, Some filepath, Some filename))
  /\ (forall company job dir w' p f,
        World.value_of
          (ApiClient.download_export Scenario.scripted Config.config_py company job dir w')
          = (true, p, f) ->
        exists path size,
          p = Some path
          /\ World.fs_stat Scenario.scripted
               (World.world_of
                  (ApiClient.download_export Scenario.scripted Config.config_py
                     company job dir w')) path = Some size
          /\ 0 < size).
Proof.
  apply (download_export_checks_file Scenario.scripted Config.config_py "oc-3372"
           (World.JStr "J123") "output/exports" Scenario.empty_download
           (Scenario.start [Scenario.file []]) (Scenario.start []) (Scenario.start [])
           (Scenario.mkScripted [] [("output/exports/file.xlsx", 0)])
           (World.mkResponse 200 []  ""
              (World.JsonObject [("jobStatus", World.JInt 100);
                                 ("url", World.JStr Scenario.export_url)]) [])
           (World.mkResponse 200 [] "" (World.JsonDecodeError "") [])
           [("jobStatus", World.JInt 100); ("url", World.JStr Scenario.export_url)]
           Scenario.export_url);
    try reflexivity.
  discriminate.
Defined.

(** The run itself: HTTP 200, zero bytes on disk, a failure. *)
Example empty_download_fails :
  World.value_of
    (ApiClient.download_export Scenario.scripted Config.config_py "oc-3372"
       (World.JStr "J123") "output/exports" Scenario.empty_download)
  = (false, None, Some "File creation failed or file is empty").
Proof. reflexivity. Qed.

(* ===================================================================== *)
(** ** Normalisation of the company id and the GSTIN *)
(* ===================================================================== *)

Lemma upper_char_idempotent (c : ascii) :
  Py.upper_char (Py.upper_char c) = Py.upper_char c.
Proof. destruct c as [[] [] [] [] [] [] [] []]; reflexivity. Qed.

Lemma upper_idempotent (s : string) : Py.upper (Py.upper s) = Py.upper s.
Proof.
  unfold Py.upper. induction s as [| c s IH]; [reflexivity |].
  cbn [Py.map_str]. now rewrite upper_char_idempotent, IH.
Qed.

(** Every GSTIN that [read_companies] hands on is in upper case. *)
Lemma read_companies_gstin_upper (rows : list ExcelHandler.RawRow) (c : Company.t) :
  In c (ExcelHandler.read_companies rows) -> Py.upper (Company.GSTIN c) = Company.GSTIN c.
Proof.
  induction rows as [| r rows IH]; [contradiction |].
  cbn [ExcelHandler.read_companies]. unfold ExcelHandler.clean_row.
  destruct (ExcelHandler.raw_gstin r) as [g |]; [| exact IH].
  intros [<- | Hin]; [apply upper_idempotent | now apply IH].
Qed.

(** A company id that is not empty carries the prefix after
    [with_prefix]. *)
Lemma with_prefix_startswith (company_id : string) :
  company_id <> "" -> Py.startswith (Main.with_prefix company_id) "oc-" = true.
Proof.
  intros Hne. unfold Main.with_prefix.
  destruct (String.eqb_spec company_id "") as [E | _]; [contradiction |].
  cbn [negb andb].
  destruct (Py.startswith company_id "oc-") eqn:Hp; cbn [negb]; [exact Hp |].
  unfold Py.startswith. cbn. now destruct company_id.
Qed.

(** No pull is submitted for a company without an id or a GSTIN, and a
    company that is submitted has the prefix on its id. *)
Lemma pull_company_guard {W : Type} (sys : World.System W) (cfg : Config.t)
  (report_types months : list string) (total : Z) (company : Company.t)
  (st : Main.PullState) (w : W) :
  Main.with_prefix (Company.Company_ID company) = "" \/ Company.GSTIN company = "" ->
  World.trace_of (Main.pull_company sys cfg report_types months total company st w) = [].
Proof.
  intros Hmissing. unfold Main.pull_company.
  destruct (String.eqb_spec (Main.with_prefix (Company.Company_ID company)) "") as [_ | Hid];
    [reflexivity |].
  destruct (String.eqb_spec (Company.GSTIN company) "") as [_ | Hg]; [reflexivity |].
  destruct Hmissing; contradiction.
Qed.

(** C9 fails on the manual paths of the direct export.  A GSTIN typed
    in lower case at the prompt is stripped and nothing more: the export
    request is posted with the GSTIN in lower case, while the same GSTIN
    read from the sheet is in upper case.  An empty company id typed at
    the prompt gets no prefix and is posted as it is, while the pull loop
    skips such a company. *)
Theorem manual_entry_is_not_normalized :
  let typed := Main.manual_batch "3372" "Acme" " 19aadcg0737g1zq " "2024-04" "2024-04" in
  let run :=
    Main.direct_export_one Scenario.scripted Config.config_py "GSTR-2A" 101 61 typed
      (Scenario.start [Scenario.http 401 [] (World.JsonDecodeError "")]) in
  let no_id := Main.manual_batch "" "Acme" "19AADCG0737G1ZQ" "2024-04" "2024-04" in
  let run_no_id :=
    Main.direct_export_one Scenario.scripted Config.config_py "GSTR-2A" 101 61 no_id
      (Scenario.start [Scenario.http 401 [] (World.JsonDecodeError "")]) in
  Batch.gstin typed = "19aadcg0737g1zq"
  /\ Py.upper (Batch.gstin typed) <> Batch.gstin typed
  /\ Scenario.posts (World.trace_of run)
     = [World.mkPost "https://app.octagst.com/api/gstr2a/export" "oc-3372"
          (World.ExportPayload ["19aadcg0737g1zq"] "2024-04" "2024-04" 101)]
  /\ map Company.GSTIN
         (ExcelHandler.read_companies
            [ExcelHandler.mkRaw "3372.0" "Acme" (Some " 19aadcg0737g1zq ")])
     = ["19AADCG0737G1ZQ"]
  /\ Py.startswith (Batch.company_id no_id) "oc-" = false
  /\ Scenario.posts (World.trace_of run_no_id)
     = [World.mkPost "https://app.octagst.com/api/gstr2a/export" ""
          (World.ExportPayload ["19AADCG0737G1ZQ"] "2024-04" "2024-04" 101)].
Proof. vm_compute. repeat split. discriminate. Qed.

(* ===================================================================== *)
(** ** Month ranges *)
(* ===================================================================== *)

Section MonthRange.
Import Utils.

(** Months counted from year 0. *)
Definition month_index (d : YearMonth) : Z := 12 * year d + month d.

Definition valid_date (d : YearMonth) : Prop :=
  MINYEAR <= year d <= MAXYEAR /\ 1 <= month d <= 12.

(** The calendar month after [d]. *)
Definition following (d : YearMonth) : YearMonth :=
  if month d =? 12 then mkYM (year d + 1) 1 else mkYM (year d) (month d + 1).

(** [n] successive calendar months from [d] on. *)
Fixpoint months_run (n : nat) (d : YearMonth) : list YearMonth :=
  match n with
  | O => []
  | S k => d :: months_run k (following d)
  end.

Definition last_month : YearMonth := mkYM MAXYEAR 12.

Lemma digit_of_range (c : ascii) (d : Z) : digit_of c = Some d -> 0 <= d <= 9.
Proof.
  unfold digit_of.
  destruct ((48 <=? nat_of_ascii c)%nat && (nat_of_ascii c <=? 57)%nat) eqn:E;
    [| discriminate].
  apply andb_true_iff in E. destruct E as [E1 E2].
  apply Nat.leb_le in E1, E2. intros H. inversion H. lia.
Qed.

Lemma parse_month_range (s : string) (m : Z) : parse_month s = Some m -> 1 <= m <= 12.
Proof.
  unfold parse_month.
  destruct s as [| m1 [| m2 [| ? ?]]]; try discriminate.
  - destruct (digit_of m1) as [d |] eqn:Hd; [| discriminate].
    apply digit_of_range in Hd.
    destruct (Z.leb_spec 1 d); [| discriminate]. intros Heq; inversion Heq. lia.
  - destruct (digit_of m1) as [d1 |] eqn:H1; [| discriminate].
    destruct (digit_of m2) as [d2 |] eqn:H2;
      [| destruct d1 as [| [| |] |]; discriminate].
    apply digit_of_range in H2.
    destruct d1 as [| [| |] |]; try discriminate;
      match goal with
      | |- context [if ?b then _ else _] => destruct b eqn:Hb
      end; try discriminate;
      apply Z.leb_le in Hb; intros Heq;
      first [assert (Hm : 10 + d2 = m) by congruence
            | assert (Hm : d2 = m) by congruence];
      lia.
Qed.

(** What [strptime] returns is a date of the calendar. *)
Lemma strptime_valid (s : string) (d : YearMonth) :
  strptime s = Returns d -> valid_date d.
Proof.
  unfold strptime.
  destruct s as [| a [| b [| c [| e [| dash rest]]]]]; try discriminate.
  destruct dash as [[] [] [] [] [] [] [] []]; try discriminate.
  destruct (digit_of a) as [da |] eqn:Ha; [| discriminate].
  destruct (digit_of b) as [db |] eqn:Hb; [| discriminate].
  destruct (digit_of c) as [dc |] eqn:Hc; [| discriminate].
  destruct (digit_of e) as [de |] eqn:He; [| discriminate].
  destruct (parse_month rest) as [m |] eqn:Hm; [| discriminate].
  apply digit_of_range in Ha, Hb, Hc, He. apply parse_month_range in Hm.
  destruct (Z.ltb_spec (1000 * da + 100 * db + 10 * dc + de) MINYEAR); [discriminate |].
  intros Heq.
  assert (Hd : d = mkYM (1000 * da + 100 * db + 10 * dc + de) m) by congruence.
  subst d. unfold valid_date, MINYEAR, MAXYEAR in *. cbn [year month]. lia.
Qed.

Lemma ym_le_index (a b : YearMonth) :
  valid_date a -> valid_date b -> ym_le a b = true <-> month_index a <= month_index b.
Proof.
  unfold valid_date, ym_le, month_index. intros [_ Ha] [_ Hb].
  rewrite orb_true_iff, andb_true_iff, Z.ltb_lt, Z.eqb_eq, Z.leb_le. lia.
Qed.

Lemma index_injective (a b : YearMonth) :
  valid_date a -> valid_date b -> month_index a = month_index b -> a = b.
Proof.
  unfold valid_date, month_index. destruct a as [ya ma], b as [yb mb].
  cbn [year month].
  intros [_ Ha] [_ Hb] H. assert (ya = yb) by lia. subst. f_equal. lia.
Qed.

Lemma following_spec (d : YearMonth) :
  valid_date d -> month_index d < month_index last_month ->
  next_month d = Returns (following d)
  /\ valid_date (following d)
  /\ month_index (following d) = month_index d + 1.
Proof.
  unfold valid_date, month_index, last_month, next_month, following, MINYEAR, MAXYEAR.
  destruct d as [y m]. cbn [year month]. intros [Hy Hm] Hlt.
  destruct (Z.eqb_spec m 12) as [-> | Hne].
  - destruct (Z.leb_spec (y + 1) 9999); [| lia]. cbn [year month]. repeat split; lia.
  - cbn [year month]. repeat split; lia.
Qed.

(** The loop returns the months from [d] to [e], when [e] is before
    the last month of the calendar. *)
Lemma months_loop_returns (e : YearMonth) (He : valid_date e)
  (Hlast : month_index e < month_index last_month) :
  forall (n : nat) (d : YearMonth) (fuel : nat),
    valid_date d ->
    Z.of_nat n = Z.max 0 (month_index e - month_index d + 1) ->
    (n < fuel)%nat ->
    months_loop fuel d e = Some (Returns (map strftime (months_run n d))).
Proof.
  induction n as [| n IH]; intros d fuel Hd Hn Hfuel;
    (destruct fuel as [| fuel]; [lia |]); cbn [months_loop months_run map].
  - assert (Hgt : ym_le d e = false).
    { destruct (ym_le d e) eqn:E; [| reflexivity].
      apply (ym_le_index d e Hd He) in E. lia. }
    now rewrite Hgt.
  - assert (Hle : ym_le d e = true) by (apply (ym_le_index d e Hd He); lia).
    rewrite Hle.
    destruct (following_spec d Hd ltac:(lia)) as (Hnext & Hv & Hi).
    rewrite Hnext. rewrite (IH (following d) fuel Hv ltac:(lia) ltac:(lia)).
    reflexivity.
Qed.

Lemma months_run_last (n : nat) :
  forall d e default,
    valid_date d -> valid_date e -> month_index e < month_index last_month ->
    month_index e = month_index d + Z.of_nat n ->
    last (months_run (S n) d) default = e.
Proof.
  induction n as [| n IH]; intros d e default Hd He Hlast Hi.
  - assert (d = e) by (apply index_injective; auto; lia). now subst.
  - destruct (following_spec d Hd ltac:(lia)) as (_ & Hv & Hf).
    pose proof (IH (following d) e default Hv He Hlast ltac:(lia)) as Hl.
    change (months_run (S (S n)) d) with (d :: months_run (S n) (following d)).
    cbn [last]. cbn [months_run] in Hl |- *. exact Hl.
Qed.

End MonthRange.

Section MonthRangeClaim.
Import Utils.

Lemma ym_gt_index (a b : YearMonth) :
  valid_date a -> valid_date b -> ym_gt a b = true <-> month_index b < month_index a.
Proof.
  intros Ha Hb. unfold ym_gt. rewrite negb_true_iff.
  pose proof (ym_le_index a b Ha Hb) as H.
  destruct (ym_le a b); split; intros; try discriminate; try reflexivity.
  - assert (month_index a <= month_index b) by now apply H. lia.
  - destruct (Z_le_gt_dec (month_index a) (month_index b)) as [Hle | Hgt]; [| lia].
    apply H in Hle. discriminate.
Qed.

(** The earlier and the later of two dates, as the swap picks them. *)
Definition earlier (a b : YearMonth) : YearMonth := if ym_gt a b then b else a.
Definition later (a b : YearMonth) : YearMonth := if ym_gt a b then a else b.

(** Away from the last month of the calendar the function does what
    C10 says: it returns, in either order of its arguments, the run of
    successive months from the earlier date to the later one; the run is
    not empty, starts with the earlier and ends with the later. *)
Lemma generate_month_range_returns (a b : string) (da db : YearMonth) :
  strptime a = Returns da ->
  strptime b = Returns db ->
  month_index da < month_index last_month ->
  month_index db < month_index last_month ->
  let lo := earlier da db in
  let hi := later da db in
  let n := Z.to_nat (month_index hi - month_index lo) in
  generate_month_range a b = Some (Returns (map strftime (months_run (S n) lo)))
  /\ generate_month_range b a = generate_month_range a b
  /\ last (months_run (S n) lo) lo = hi.
Proof.
  intros Ha Hb Hla Hlb lo hi n.
  pose proof (strptime_valid a da Ha) as Va.
  pose proof (strptime_valid b db Hb) as Vb.
  assert (Hrun : forall x y : YearMonth,
            valid_date x -> valid_date y -> month_index y < month_index last_month ->
            month_index x <= month_index y ->
            months_loop (months_fuel x y) x y
            = Some (Returns (map strftime
                      (months_run (S (Z.to_nat (month_index y - month_index x))) x)))).
  { intros x y Vx Vy Hy Hxy.
    apply (months_loop_returns y Vy Hy); [exact Vx | lia |].
    unfold months_fuel, month_index in *. lia. }
  assert (Hab : generate_month_range a b
                = Some (Returns (map strftime (months_run (S n) lo)))).
  { unfold generate_month_range. rewrite Ha, Hb. subst lo hi n. unfold earlier, later.
    destruct (ym_gt da db) eqn:Hgt.
    - apply (ym_gt_index da db Va Vb) in Hgt. apply Hrun; auto; lia.
    - assert (month_index da <= month_index db).
      { destruct (Z_le_gt_dec (month_index da) (month_index db)); [assumption |].
        assert (ym_gt da db = true) by (apply ym_gt_index; auto; lia). congruence. }
      apply Hrun; auto. }
  split; [exact Hab | split].
  - rewrite Hab. unfold generate_month_range. rewrite Ha, Hb. subst lo hi n.
    unfold earlier, later.
    destruct (ym_gt da db) eqn:Hgt; destruct (ym_gt db da) eqn:Hgt'.
    + apply (ym_gt_index da db Va Vb) in Hgt. apply (ym_gt_index db da Vb Va) in Hgt'. lia.
    + apply (ym_gt_index da db Va Vb) in Hgt. apply Hrun; auto; lia.
    + apply (ym_gt_index db da Vb Va) in Hgt'. apply Hrun; auto; lia.
    + assert (month_index da = month_index db).
      { destruct (Z.lt_trichotomy (month_index da) (month_index db)) as [H | [H | H]];
          [| assumption |].
        - assert (ym_gt db da = true) by (apply ym_gt_index; auto). congruence.
        - assert (ym_gt da db = true) by (apply ym_gt_index; auto; lia). congruence. }
      assert (da = db) by (apply index_injective; auto). subst db.
      apply Hrun; auto; lia.
  - subst lo hi n. unfold earlier, later.
    destruct (ym_gt da db) eqn:Hgt.
    + apply (ym_gt_index da db Va Vb) in Hgt.
      apply (months_run_last _ db da db Vb Va Hla). lia.
    + assert (month_index da <= month_index db).
      { destruct (Z_le_gt_dec (month_index da) (month_index db)); [assumption |].
        assert (ym_gt da db = true) by (apply ym_gt_index; auto; lia). congruence. }
      apply (months_run_last _ da db da Va Vb Hlb). lia.
Qed.

Lemma digit_char_of (c : ascii) (d : Z) : digit_of c = Some d -> digit_char d = c.
Proof.
  unfold digit_of, digit_char.
  destruct ((48 <=? nat_of_ascii c)%nat && (nat_of_ascii c <=? 57)%nat) eqn:E;
    [| discriminate].
  apply andb_true_iff in E. destruct E as [E1 E2]. apply Nat.leb_le in E1, E2.
  intros H. injection H as <-. rewrite Nat2Z.id.
  replace (48 + (nat_of_ascii c - 48))%nat with (nat_of_ascii c) by lia.
  apply ascii_nat_embedding.
Qed.

Lemma four_digits (a b c d : Z) :
  0 <= a <= 9 -> 0 <= b <= 9 -> 0 <= c <= 9 -> 0 <= d <= 9 ->
  let y := 1000 * a + 100 * b + 10 * c + d in
  y / 1000 = a /\ y / 100 mod 10 = b /\ y / 10 mod 10 = c /\ y mod 10 = d.
Proof.
  intros Ha Hb Hc Hd y. subst y.
  assert (H1 : (1000 * a + 100 * b + 10 * c + d) / 1000 = a)
    by (symmetry; apply (Z.div_unique _ 1000 a (100 * b + 10 * c + d)); lia).
  assert (H2 : (1000 * a + 100 * b + 10 * c + d) / 100 = 10 * a + b)
    by (symmetry; apply (Z.div_unique _ 100 (10 * a + b) (10 * c + d)); lia).
  assert (H3 : (1000 * a + 100 * b + 10 * c + d) / 10 = 100 * a + 10 * b + c)
    by (symmetry; apply (Z.div_unique _ 10 (100 * a + 10 * b + c) d); lia).
  rewrite H1, H2, H3. repeat split.
  - symmetry. apply (Z.mod_unique _ 10 a b); lia.
  - symmetry. apply (Z.mod_unique _ 10 (10 * a + b) c); lia.
  - symmetry. apply (Z.mod_unique _ 10 (100 * a + 10 * b + c) d); lia.
Qed.

Lemma two_digits (a b : Z) :
  0 <= a <= 9 -> 0 <= b <= 9 -> (10 * a + b) / 10 = a /\ (10 * a + b) mod 10 = b.
Proof.
  intros Ha Hb. split.
  - symmetry. apply (Z.div_unique _ 10 a b); lia.
  - symmetry. apply (Z.mod_unique _ 10 a b); lia.
Qed.

(** The four digits of a year. *)
Definition year_text (y : Z) : string :=
  String (digit_char (y / 1000)) (String (digit_char (y / 100 mod 10))
    (String (digit_char (y / 10 mod 10)) (String (digit_char (y mod 10)) EmptyString))).

(** [n] successive years from [y] on. *)
Fixpoint years_from (n : nat) (y : Z) : list Z :=
  match n with
  | O => []
  | S k => y :: years_from k (y + 1)
  end.

Lemma years_from_In (n : nat) :
  forall y x, y <= x < y + Z.of_nat n -> In x (years_from n y).
Proof.
  induction n as [| n IH]; intros y x Hx; [lia |].
  cbn [years_from]. destruct (Z.eq_dec x y) as [-> | Hne]; [now left | right].
  apply IH. lia.
Qed.

(** From the year 1000 on [str] of the year is its four digits: checked
    year by year. *)
Lemma year_text_checked :
  forallb (fun y => (Py.str_of_Z y =? year_text y)%string)
          (years_from (Z.to_nat 9000) 1000) = true.
Proof. vm_compute. reflexivity. Qed.

Lemma str_of_year (y : Z) : 1000 <= y <= 9999 -> Py.str_of_Z y = year_text y.
Proof.
  intros Hy. pose proof year_text_checked as H. rewrite forallb_forall in H.
  apply String.eqb_eq. apply H. apply years_from_In. lia.
Qed.

(** From the year 1000 on a date is printed with four digits, a dash
    and two digits. *)
Lemma strftime_digits (d : YearMonth) :
  1000 <= year d <= 9999 ->
  strftime d
  = String (digit_char (year d / 1000)) (String (digit_char (year d / 100 mod 10))
      (String (digit_char (year d / 10 mod 10)) (String (digit_char (year d mod 10))
        (String "-"%char (String (digit_char (month d / 10))
          (String (digit_char (month d mod 10)) EmptyString)))))).
Proof.
  intros Hy. unfold strftime. rewrite (str_of_year _ Hy). reflexivity.
Qed.

(** A period of the year 1000 or later in the form
    [validate_period_format] accepts is printed back as it was read. *)
Lemma strftime_strptime (s : string) (d : YearMonth) :
  validate_period_format s = true -> strptime s = Returns d -> 1000 <= year d ->
  strftime d = s.
Proof.
  intros Hv Hp Hy.
  pose proof (strptime_valid s d Hp) as Vd.
  rewrite (strftime_digits d)
    by (unfold valid_date, MINYEAR, MAXYEAR in Vd; lia).
  clear Hy Vd. revert Hv Hp.
  unfold validate_period_format, strptime.
  destruct s as [| a [| b [| c [| e [| dash [| m1 [| m2 rest]]]]]]];
    try discriminate;
    destruct dash as [[] [] [] [] [] [] [] []]; try discriminate.
  destruct rest as [| x rest].
  2: { intros _. cbn [parse_month].
       destruct (digit_of a), (digit_of b), (digit_of c), (digit_of e); discriminate. }
  cbn [String.eqb orb andb].
  destruct (digit_of a) as [da |] eqn:Ha; [| discriminate].
  destruct (digit_of b) as [db |] eqn:Hb; [| discriminate].
  destruct (digit_of c) as [dc |] eqn:Hc; [| discriminate].
  destruct (digit_of e) as [de |] eqn:He; [| discriminate].
  unfold parse_month.
  destruct (digit_of m1) as [d1 |] eqn:H1; [| discriminate].
  destruct (digit_of m2) as [d2 |] eqn:H2;
    [| destruct d1 as [| [| |] |]; discriminate].
  pose proof (digit_of_range _ _ Ha) as Ra. pose proof (digit_of_range _ _ Hb) as Rb.
  pose proof (digit_of_range _ _ Hc) as Rc. pose proof (digit_of_range _ _ He) as Re.
  pose proof (digit_of_range _ _ H2) as R2.
  apply digit_char_of in Ha, Hb, Hc, He, H2.
  destruct (four_digits da db dc de Ra Rb Rc Re) as (Y1 & Y2 & Y3 & Y4).
  cbv zeta in Y1, Y2, Y3, Y4.
  assert (Hm1 : forall k, 0 <= k <= 9 -> digit_of m1 = Some k -> digit_char k = m1)
    by (intros k _ Hk; now apply digit_char_of).
  destruct d1 as [| [| |] |]; try discriminate; intros Hv; rewrite Hv;
    destruct (Z.ltb (1000 * da + 100 * db + 10 * dc + de) MINYEAR);
    try discriminate; intros Hd;
    match type of Hd with
    | Returns ?x = Returns d => assert (Hdx : d = x) by congruence
    end;
    subst d; cbn [year month];
    rewrite Y1, Y2, Y3, Y4, Ha, Hb, Hc, He.
  - destruct (two_digits 0 d2 ltac:(lia) R2) as [M1 M2].
    change (10 * 0 + d2) with d2 in M1, M2.
    rewrite M1, M2, H2, (Hm1 0 ltac:(lia) H1). reflexivity.
  - destruct (two_digits 1 d2 ltac:(lia) R2) as [M1 M2].
    change (10 * 1) with 10 in M1, M2.
    rewrite M1, M2, H2, (Hm1 1 ltac:(lia) H1). reflexivity.
Qed.

(** C10, as the code has it.  For two periods of the years 1000 to
    9999 that [strptime] accepts and that both lie before the last month
    of the calendar, the function returns a list, and the same list for
    either order of the arguments; the list is the run of successive
    calendar months from the earlier period to the later, so it is not
    empty, each element is the month after the one before, and, for
    periods written as [validate_period_format] wants them, its first
    element is the earlier argument and its last element the later. *)
Theorem generate_month_range_between (a b : string) (da db : YearMonth)
  (Ha : strptime a = Returns da)
  (Hb : strptime b = Returns db)
  (Hya : 1000 <= year da)
  (Hyb : 1000 <= year db)
  (Hla : month_index da < month_index last_month)
  (Hlb : month_index db < month_index last_month) :
  exists (n : nat) (months : list string),
    generate_month_range a b = Some (Returns months)
    /\ generate_month_range b a = Some (Returns months)
    /\ months = map strftime (months_run (S n) (earlier da db))
    /\ Z.of_nat n = month_index (later da db) - month_index (earlier da db)
    /\ months <> []
    /\ (validate_period_format a = true -> validate_period_format b = true ->
        hd_error months = Some (if ym_gt da db then b else a)
        /\ last months "" = (if ym_gt da db then a else b)).
Proof.
  destruct (generate_month_range_returns a b da db Ha Hb Hla Hlb) as (Hab & Hba & Hlast).
  cbv zeta in Hab, Hba, Hlast.
  pose proof (strptime_valid a da Ha) as Va.
  pose proof (strptime_valid b db Hb) as Vb.
  exists (Z.to_nat (month_index (later da db) - month_index (earlier da db))).
  eexists. split; [exact Hab |]. split; [now rewrite Hba |].
  split; [reflexivity |]. split.
  - unfold earlier, later. destruct (ym_gt da db) eqn:Hgt.
    + apply (ym_gt_index da db Va Vb) in Hgt. lia.
    + assert (month_index da <= month_index db).
      { destruct (Z_le_gt_dec (month_index da) (month_index db)); [assumption |].
        assert (ym_gt da db = true) by (apply ym_gt_index; auto; lia). congruence. }
      lia.
  - split; [discriminate |].
    intros Fa Fb. split.
    + cbn [months_run map hd_error]. unfold earlier.
      destruct (ym_gt da db); f_equal; now apply strftime_strptime.
    + assert (Hl : forall (l : list YearMonth) x, l <> [] ->
                last (map strftime l) "" = strftime (last l x)).
      { induction l as [| y l IH]; intros x Hne; [contradiction |].
        destruct l as [| z l]; [reflexivity |].
        change (last (map strftime (y :: z :: l)) "")
          with (last (map strftime (z :: l)) "").
        change (last (y :: z :: l) x) with (last (z :: l) x).
        apply IH. discriminate. }
      rewrite (Hl _ (earlier da db)) by (cbn [months_run]; discriminate).
      rewrite Hlast. unfold later.
      destruct (ym_gt da db); now apply strftime_strptime.
Qed.

(** Two ordinary periods, given in the wrong order. *)
Lemma generate_month_range_between_witness :
  exists (n : nat) (months : list string),
    generate_month_range "2025-02" "2024-11" = Some (Returns months)
    /\ generate_month_range "2024-11" "2025-02" = Some (Returns months)
    /\ months = map strftime
                   (months_run (S n) (earlier (mkYM 2025 2) (mkYM 2024 11)))
    /\ Z.of_nat n = month_index (later (mkYM 2025 2) (mkYM 2024 11))
                    - month_index (earlier (mkYM 2025 2) (mkYM 2024 11))
    /\ months <> []
    /\ (validate_period_format "2025-02" = true ->
        validate_period_format "2024-11" = true ->
        hd_error months
          = Some (if ym_gt (mkYM 2025 2) (mkYM 2024 11) then "2024-11" else "2025-02")
        /\ last months ""
           = (if ym_gt (mkYM 2025 2) (mkYM 2024 11) then "2025-02" else "2024-11")).
Proof.
  apply (generate_month_range_between "2025-02" "2024-11" (mkYM 2025 2) (mkYM 2024 11)
           eq_refl eq_refl).
  - cbn [year]. lia.
  - cbn [year]. lia.
  - reflexivity.
  - reflexivity.
Defined.

(** C10 as stated fails in four ways.  At the ends of the calendar:
    "0000-01" has the form of a period ([validate_period_format] accepts
    it), yet [strptime] rejects the year 0; "9999-12" is a period of the
    calendar, yet the step to the month after it raises [ValueError]
    before the loop can stop, so no list is returned for a range that
    ends there.  Below the year 1000: "0999-11" is accepted and read, but
    the months are printed without the leading zero, so the first element
    of the list is not the earlier argument.  And a period followed by a
    line feed is accepted by [validate_period_format], yet [strptime]
    rejects it. *)
Lemma generate_month_range_counterexample :
  validate_period_format "0000-01" = true
  /\ generate_month_range "0000-01" "0000-01" = Some ValueError
  /\ validate_period_format "9999-12" = true
  /\ generate_month_range "9999-12" "9999-12" = Some ValueError
  /\ generate_month_range "9999-10" "9999-12" = Some ValueError
  /\ validate_period_format "0999-11" = true
  /\ validate_period_format "1000-01" = true
  /\ generate_month_range "0999-11" "1000-01"
     = Some (Returns ["999-11"; "999-12"; "1000-01"])
  /\ validate_period_format ("2024-04" @@ LF) = true
  /\ generate_month_range ("2024-04" @@ LF) "2024-05" = Some ValueError.
Proof. vm_compute. repeat split. Qed.

End MonthRangeClaim.

(* ===================================================================== *)
(** * Further properties *)
(* ===================================================================== *)

(** ** The two submissions of the client *)

(** The result of a pull as its callers take it apart: a success carries
    a job id that tests true and no message, a failure no job id and a
    message that is not empty. *)
Definition pull_result (r : ApiClient.SubmitResult) : Prop :=
  match r with
  | (true, Some j, None) => World.truthy j = true
  | (false, None, Some e) => e <> ""
  | _ => False
  end.

(** The same for an export, whose message can be empty (an empty
    [Octa-ErrorMessage] header, an exception without text). *)
Definition export_result (r : ApiClient.SubmitResult) : Prop :=
  match r with
  | (true, Some j, None) => World.truthy j = true
  | (false, None, Some _) => True
  | _ => False
  end.

(** A report type the client refuses before any request: absent from
    [GST_REPORTS], or present and not enabled. *)
Definition unavailable (cfg : Config.t) (report_type : string) : bool :=
  match Py.dict_get (Config.GST_REPORTS cfg) report_type with
  | Some rep => negb (Config.enabled rep)
  | None => true
  end.

(** The message of that refusal. *)
Definition unavailable_message (cfg : Config.t) (report_type : string) : string :=
  match Py.dict_get (Config.GST_REPORTS cfg) report_type with
  | Some _ => report_type @@ " is not yet enabled. Waiting for API documentation."
  | None => "Unknown report type: " @@ report_type
  end.

(** The endpoints a report type is configured with. *)
Definition pull_endpoint_of (cfg : Config.t) (report_type : string) : string :=
  match Py.dict_get (Config.GST_REPORTS cfg) report_type with
  | Some rep => Config.pull_endpoint rep
  | None => ""
  end.

Definition export_endpoint_of (cfg : Config.t) (report_type : string) : string :=
  match Py.dict_get (Config.GST_REPORTS cfg) report_type with
  | Some rep => Config.export_endpoint rep
  | None => ""
  end.

Lemma append_empty_r (s t : string) : s @@ t = "" -> t = "".
Proof. destruct s; [trivial | discriminate]. Qed.

Section Submissions.
Import World ApiClient.
Context {W : Type} (sys : System W) (cfg : Config.t).

Lemma pull_attempts_result (todo : nat) :
  forall attempt req gstin period w,
    pull_result (value_of (pull_attempts sys cfg todo attempt req gstin period w)).
Proof.
  induction todo as [| todo IH]; intros attempt req gstin period w.
  - cbn. discriminate.
  - cbn [pull_attempts]. rewrite value_bind.
    repeat (branch; try (cbn; first [assumption | discriminate]));
      unfold sleep; rewrite emit_bind, value_mk; apply IH.
Qed.

Lemma pull_gst_report_result (report_type company_id gstin period : string) (w : W) :
  pull_result (value_of (pull_gst_report sys cfg report_type company_id gstin period w)).
Proof.
  unfold pull_gst_report. rewrite emit_bind, value_mk.
  destruct (Py.dict_get (Config.GST_REPORTS cfg) report_type) as [rep |];
    [| cbn; discriminate].
  destruct (negb (Config.enabled rep)).
  - cbn. intros H. apply append_empty_r in H. discriminate.
  - apply pull_attempts_result.
Qed.

Lemma export_gst_report_result (report_type company_id gstin start_period end_period : string)
  (report_format : Z) (w : W) :
  export_result
    (value_of (export_gst_report sys cfg report_type company_id gstin
                 start_period end_period report_format w)).
Proof.
  unfold export_gst_report. rewrite emit_bind, value_mk.
  destruct (Py.dict_get (Config.GST_REPORTS cfg) report_type) as [rep |];
    [| exact I].
  destruct (negb (Config.enabled rep)); [exact I |].
  rewrite value_bind.
  repeat (branch; try (cbn; first [assumption | exact I])).
Qed.

(** X1.  Every pull returns either [(True, job_id, None)] with a job id that
    tests true, or [(False, None, message)] with a message that is not
    empty; every export returns the same but for the message, which can be
    empty. *)
Theorem submission_result_shape
  (report_type company_id gstin period start_period end_period : string)
  (report_format : Z) (w : W) :
  pull_result (value_of (pull_gst_report sys cfg report_type company_id gstin period w))
  /\ export_result
       (value_of (export_gst_report sys cfg report_type company_id gstin
                    start_period end_period report_format w)).
Proof.
  split; [apply pull_gst_report_result | apply export_gst_report_result].
Qed.

(** X2.  A report type that is unknown or not enabled is refused before any
    request: both submissions return the failure with its message, leave
    the world as it was and post nothing. *)
Theorem unavailable_report_makes_no_call
  (report_type company_id gstin period start_period end_period : string)
  (report_format : Z) (w : W)
  (Hoff : unavailable cfg report_type = true) :
  pull_gst_report sys cfg report_type company_id gstin period w
    = ((false, None, Some (unavailable_message cfg report_type)), w,
       [EvPull report_type company_id gstin period])
  /\ export_gst_report sys cfg report_type company_id gstin
       start_period end_period report_format w
     = ((false, None, Some (unavailable_message cfg report_type)), w,
        [EvExport report_type company_id gstin start_period end_period report_format]).
Proof.
  unfold unavailable, unavailable_message in *.
  unfold pull_gst_report, export_gst_report. rewrite !emit_bind.
  destruct (Py.dict_get (Config.GST_REPORTS cfg) report_type) as [rep |].
  - rewrite Hoff. split; reflexivity.
  - split; reflexivity.
Qed.

End Submissions.

Lemma unavailable_report_makes_no_call_witness :
  unavailable Config.config_py "GSTR-2B" = true
  /\ ApiClient.pull_gst_report Scenario.scripted Config.config_py
       "GSTR-2B" "oc-3372" "19AADCG0737G1ZQ" "2024-04"
       (Scenario.start [Scenario.job_created "J1"])
     = ((false, None,
         Some "GSTR-2B is not yet enabled. Waiting for API documentation."),
        Scenario.start [Scenario.job_created "J1"],
        [World.EvPull "GSTR-2B" "oc-3372" "19AADCG0737G1ZQ" "2024-04"]).
Proof.
  split; [reflexivity |].
  exact (proj1 (unavailable_report_makes_no_call Scenario.scripted Config.config_py
                  "GSTR-2B" "oc-3372" "19AADCG0737G1ZQ" "2024-04" "2024-04" "2024-04" 101
                  (Scenario.start [Scenario.job_created "J1"]) eq_refl)).
Defined.

Section SubmissionRequests.
Import World ApiClient.
Context {W : Type} (sys : System W) (cfg : Config.t).

(** Transient answers before the last iteration are retried: after [k]
    of them the loop is where it would have started [k] posts later. *)
Lemma pull_attempts_skips_transient (req : PostReq) (gstin period : string)
  (accepted : Response) (data : Py.dict JVal) (k : nat) :
  forall (todo : nat) (attempt : Z) (w : W),
    (k < todo)%nat ->
    attempt + Z.of_nat todo = Config.API_RETRY_COUNT cfg ->
    (forall i, (i < k)%nat ->
       transient (fst (session_post sys (after_posts sys i req w) req)) = true) ->
    fst (session_post sys (after_posts sys k req w) req) = Responded accepted ->
    status_code accepted = 200 ->
    json accepted = JsonObject data ->
    truthy (field data "jobId") = true ->
    value_of (pull_attempts sys cfg todo attempt req gstin period w)
      = (true, Some (field data "jobId"), None)
    /\ world_of (pull_attempts sys cfg todo attempt req gstin period w)
       = after_posts sys (S k) req w
    /\ Scenario.posts (trace_of (pull_attempts sys cfg todo attempt req gstin period w))
       = repeat req (S k)
    /\ List.length
         (Scenario.sleeps InTransport
            (trace_of (pull_attempts sys cfg todo attempt req gstin period w)))
       = k.
Proof.
  induction k as [| k IH]; intros todo attempt w Hk Hcount Hbad Hgood H200 Hjson Hjob.
  - destruct todo as [| todo]; [lia |].
    cbn [pull_attempts after_posts] in *.
    rewrite value_bind, world_bind, trace_bind, value_post, world_post, trace_post.
    rewrite Hgood, H200, Hjson, Hjob. cbn. repeat split.
  - destruct todo as [| todo]; [lia |].
    cbn [pull_attempts].
    rewrite value_bind, world_bind, trace_bind, value_post, world_post, trace_post.
    assert (Hlast : (attempt <? Config.API_RETRY_COUNT cfg - 1) = true)
      by (apply Z.ltb_lt; lia).
    rewrite Hlast. cbn [negb].
    destruct (IH todo (attempt + 1) (snd (session_post sys w req)))
      as (IHv & IHw & IHp & IHs); try assumption; try lia.
    { intros i Hi. apply (Hbad (S i)). lia. }
    assert (Hstep : forall secs,
      let run := bind (sleep InTransport secs)
                   (fun _ => pull_attempts sys cfg todo (attempt + 1) req gstin period)
                   (snd (session_post sys w req)) in
      value_of run = (true, Some (field data "jobId"), None)
      /\ world_of run = after_posts sys (S (S k)) req w
      /\ Scenario.posts ([EvPost req] ++ trace_of run) = repeat req (S (S k))
      /\ List.length (Scenario.sleeps InTransport ([EvPost req] ++ trace_of run)) = S k).
    { intros secs run. subst run. unfold sleep. rewrite emit_bind.
      rewrite value_mk, world_mk, trace_mk, IHv, IHw.
      split; [reflexivity |]. split; [reflexivity |].
      split.
      - change (Scenario.posts ([EvPost req] ++ EvSleep InTransport secs ::
                  trace_of (pull_attempts sys cfg todo (attempt + 1) req gstin period
                              (snd (session_post sys w req)))))
          with (req :: Scenario.posts
                  (trace_of (pull_attempts sys cfg todo (attempt + 1) req gstin period
                               (snd (session_post sys w req))))).
        now rewrite IHp.
      - change (Scenario.sleeps InTransport ([EvPost req] ++ EvSleep InTransport secs ::
                  trace_of (pull_attempts sys cfg todo (attempt + 1) req gstin period
                              (snd (session_post sys w req)))))
          with (secs :: Scenario.sleeps InTransport
                  (trace_of (pull_attempts sys cfg todo (attempt + 1) req gstin period
                               (snd (session_post sys w req))))).
        cbn [List.length]. now rewrite IHs. }
    pose proof (Hbad 0%nat ltac:(lia)) as H0. cbn [after_posts] in H0.
    destruct (fst (session_post sys w req)) as [r | m | m | m];
      cbn [transient] in H0; try discriminate; try apply Hstep.
    destruct (Z.eqb_spec (status_code r) 429) as [E | E].
    + rewrite E. apply Hstep.
    + destruct (Z.eqb_spec (status_code r) 500) as [E' | E']; [| discriminate].
      rewrite E'. apply Hstep.
Qed.

(** X3.  A pull that meets [k] transient failures (HTTP 429, HTTP 500, a
    timeout, a refused connection), with [k] below [API_RETRY_COUNT], and
    is then answered HTTP 200 with a job id, succeeds with that job id:
    the callers never see the failures.  It has posted the request [k + 1]
    times and slept [k] times in between. *)
Theorem pull_recovers_from_transient_failures
  (report_type company_id gstin period : string) (rep : Config.Report)
  (accepted : Response) (data : Py.dict JVal) (k : nat) (w : W)
  (Hrep : Py.dict_get (Config.GST_REPORTS cfg) report_type = Some rep)
  (Hon : Config.enabled rep = true)
  (Hk : Z.of_nat k < Config.API_RETRY_COUNT cfg)
  (Hbad : forall i, (i < k)%nat ->
     transient (fst (session_post sys
       (after_posts sys i
          (mkPost (Config.pull_endpoint rep) company_id (PullPayload gstin period)) w)
       (mkPost (Config.pull_endpoint rep) company_id (PullPayload gstin period)))) = true)
  (Hgood : fst (session_post sys
     (after_posts sys k
        (mkPost (Config.pull_endpoint rep) company_id (PullPayload gstin period)) w)
     (mkPost (Config.pull_endpoint rep) company_id (PullPayload gstin period)))
     = Responded accepted)
  (H200 : status_code accepted = 200)
  (Hjson : json accepted = JsonObject data)
  (Hjob : truthy (field data "jobId") = true) :
  let req := mkPost (Config.pull_endpoint rep) company_id (PullPayload gstin period) in
  let run := pull_gst_report sys cfg report_type company_id gstin period w in
  value_of run = (true, Some (field data "jobId"), None)
  /\ world_of run = after_posts sys (S k) req w
  /\ Scenario.posts (trace_of run) = repeat req (S k)
  /\ List.length (Scenario.sleeps InTransport (trace_of run)) = k.
Proof.
  intros req run. subst run. unfold pull_gst_report. rewrite Hrep, Hon. cbn [negb].
  rewrite emit_bind, value_mk, world_mk, trace_mk.
  apply (pull_attempts_skips_transient req gstin period accepted data k); auto; lia.
Qed.

End SubmissionRequests.

(** HTTP 429, then HTTP 500, then the job: three posts, two pauses, a
    success. *)
Lemma pull_recovers_from_transient_failures_witness :
  World.value_of
    (ApiClient.pull_gst_report Scenario.scripted Config.config_py
       "GSTR-2A" "oc-3372" "19AADCG0737G1ZQ" "2024-04"
       (Scenario.start [Scenario.http 429 [] (World.JsonDecodeError "");
                        Scenario.http 500 [] (World.JsonDecodeError "");
                        Scenario.job_created "J7"]))
  = (true, Some (World.JStr "J7"), None).
Proof.
  refine (proj1 (pull_recovers_from_transient_failures Scenario.scripted Config.config_py
            "GSTR-2A" "oc-3372" "19AADCG0737G1ZQ" "2024-04"
            (Config.report true "gstr2a")
            (World.mkResponse 200 [] "" (World.JsonObject [("jobId", World.JStr "J7")]) [])
            [("jobId", World.JStr "J7")] 2
            (Scenario.start [Scenario.http 429 [] (World.JsonDecodeError "");
                             Scenario.http 500 [] (World.JsonDecodeError "");
                             Scenario.job_created "J7"])
            eq_refl eq_refl _ _ eq_refl eq_refl eq_refl eq_refl)).
  - vm_compute. reflexivity.
  - intros i Hi. destruct i as [| [| i]]; [reflexivity | reflexivity | lia].
Defined.

Section SubmissionPosts.
Import World ApiClient.
Context {W : Type} (sys : System W) (cfg : Config.t).

Lemma export_gst_report_posts
  (report_type company_id gstin start_period end_period : string)
  (report_format : Z) (w : W) :
  exists k : nat,
    (k <= 1)%nat
    /\ Scenario.posts
         (trace_of (export_gst_report sys cfg report_type company_id gstin
                      start_period end_period report_format w))
       = repeat (mkPost (export_endpoint_of cfg report_type) company_id
                        (ExportPayload [gstin] start_period end_period report_format))
                k.
Proof.
  unfold export_endpoint_of, export_gst_report. rewrite emit_bind, trace_mk.
  destruct (Py.dict_get (Config.GST_REPORTS cfg) report_type) as [rep |];
    [| exists 0%nat; split; [lia | reflexivity]].
  destruct (negb (Config.enabled rep));
    [exists 0%nat; split; [lia | reflexivity] |].
  exists 1%nat. split; [lia |].
  rewrite trace_bind, trace_post.
  repeat branch; reflexivity.
Qed.

(** X4.  The requests carry the arguments as they were given.  Every post of
    a pull goes to the pull endpoint of the report type with the company
    id in the header and the GSTIN and the period in the body, and there
    are at most [API_RETRY_COUNT] of them; an export makes at most one
    post, to the export endpoint, with the GSTIN as a list of one. *)
Theorem submissions_post_their_arguments
  (report_type company_id gstin period start_period end_period : string)
  (report_format : Z) (w : W) :
  (exists k : nat,
      (k <= Z.to_nat (Config.API_RETRY_COUNT cfg))%nat
      /\ Scenario.posts
           (trace_of (pull_gst_report sys cfg report_type company_id gstin period w))
         = repeat (mkPost (pull_endpoint_of cfg report_type) company_id
                          (PullPayload gstin period)) k)
  /\ (exists k : nat,
        (k <= 1)%nat
        /\ Scenario.posts
             (trace_of (export_gst_report sys cfg report_type company_id gstin
                          start_period end_period report_format w))
           = repeat (mkPost (export_endpoint_of cfg report_type) company_id
                            (ExportPayload [gstin] start_period end_period report_format))
                    k).
Proof.
  split.
  - unfold pull_endpoint_of, pull_gst_report. rewrite emit_bind, trace_mk.
    destruct (Py.dict_get (Config.GST_REPORTS cfg) report_type) as [rep |];
      [| exists 0%nat; split; [lia | reflexivity]].
    destruct (negb (Config.enabled rep));
      [exists 0%nat; split; [lia | reflexivity] |].
    destruct (pull_attempts_posts sys cfg
                (mkPost (Config.pull_endpoint rep) company_id (PullPayload gstin period))
                gstin period (Z.to_nat (Config.API_RETRY_COUNT cfg)) 0 w) as (k & Hk & Hp).
    exists k. split; [exact Hk | exact Hp].
  - apply export_gst_report_posts.
Qed.

End SubmissionPosts.

(** ** The status query *)

(** The values the [status] key of a status snapshot can have. *)
Definition snapshot_statuses : list string :=
  ["completed"; "pending"; "processing"; "failed"; "cancelled"; "expired";
   "unknown"; "error"].

Lemma canonical_status_values (v : World.JVal) :
  In (ApiClient.canonical_status v)
     ["completed"; "pending"; "processing"; "failed"; "cancelled"; "expired"; "unknown"].
Proof.
  unfold ApiClient.canonical_status.
  destruct (ApiClient.as_int_key v) as [k |]; [| simpl; tauto].
  unfold ApiClient.status_mapping, ApiClient.table_get.
  repeat match goal with
         | |- context [?a =? ?b] => destruct (a =? b); [simpl; tauto |]
         end.
  simpl; tauto.
Qed.

Lemma canonical_status_not_error (v : World.JVal) :
  ApiClient.canonical_status v <> "error".
Proof.
  pose proof (canonical_status_values v) as H. intros E. rewrite E in H.
  simpl in H. repeat (destruct H as [H | H]; [discriminate |]). exact H.
Qed.

Section StatusSnapshot.
Import World ApiClient.
Context {W : Type} (sys : System W) (cfg : Config.t).

(** X5.  A status query never raises and never returns a snapshot without a
    status.  Whatever the vendor does (any HTTP code, a body that is not
    JSON or not an object, an exception), the snapshot has a string under
    [status] that is one of completed, pending, processing, failed,
    cancelled, expired, unknown and error; a [status] field sent by the
    vendor is replaced; the status is [error] exactly when the query
    failed, and then the snapshot has a [message]; and the query has made
    one GET, for the job under [JOB_STATUS], with the company header. *)
Theorem check_job_status_always_has_status (company_id : string) (job_id : JVal) (w : W) :
  let run := check_job_status sys cfg company_id job_id w in
  exists status : string,
    Py.dict_get (value_of run) "status" = Some (JStr status)
    /\ In status snapshot_statuses
    /\ (status = "error" ->
        exists message, value_of run = status_error message)
    /\ (status <> "error" ->
        exists r data,
          fst (session_get sys w
                 (mkGet (Config.JOB_STATUS cfg @@ "/" @@ py_str job_id) (Some company_id)))
            = Responded r
          /\ status_code r = 200 /\ json r = JsonObject data
          /\ status = canonical_status (field data "jobStatus"))
    /\ Utils.status_lower (value_of run) = inl status
    /\ trace_of run
       = [EvGet (mkGet (Config.JOB_STATUS cfg @@ "/" @@ py_str job_id) (Some company_id))].
Proof.
  intros run. subst run. rewrite check_job_status_trace.
  unfold check_job_status. rewrite value_bind, value_get.
  assert (Herr : forall m w',
    exists status : string,
      Py.dict_get (value_of (ret (W := W) (status_error m) w')) "status" = Some (JStr status)
      /\ In status snapshot_statuses
      /\ (status = "error" ->
          exists message, value_of (ret (W := W) (status_error m) w') = status_error message)
      /\ (status <> "error" ->
          exists r data,
            fst (session_get sys w
                   (mkGet (Config.JOB_STATUS cfg @@ "/" @@ py_str job_id) (Some company_id)))
              = Responded r
            /\ status_code r = 200 /\ json r = JsonObject data
            /\ status = canonical_status (field data "jobStatus"))
      /\ Utils.status_lower (value_of (ret (W := W) (status_error m) w')) = inl status
      /\ [EvGet (mkGet (Config.JOB_STATUS cfg @@ "/" @@ py_str job_id) (Some company_id))]
         = [EvGet (mkGet (Config.JOB_STATUS cfg @@ "/" @@ py_str job_id) (Some company_id))]).
  { intros m w'. exists "error". unfold ret, value_of; cbn [fst].
    split; [reflexivity |]. split; [simpl; tauto |].
    split; [intros _; now exists m |].
    split; [intros H; now elim H |].
    split; reflexivity. }
  destruct (fst (session_get sys w _)) as [r | e | e | e] eqn:Hget; try apply Herr.
  destruct (status_code r =? 200) eqn:H200; [| apply Herr].
  destruct (json r) as [e | data | ty] eqn:Hjson; try apply Herr.
  exists (canonical_status (field data "jobStatus")).
  unfold ret, value_of; cbn [fst]. rewrite dict_get_set_same.
  split; [reflexivity |]. split.
  { pose proof (canonical_status_values (field data "jobStatus")) as H.
    unfold snapshot_statuses. simpl in *. tauto. }
  split.
  { intros E. now apply canonical_status_not_error in E. }
  split.
  { intros _. exists r, data. apply Z.eqb_eq in H200. repeat split; assumption. }
  split; [| reflexivity].
  unfold Utils.status_lower. rewrite dict_get_set_same.
  f_equal.
  pose proof (canonical_status_values (field data "jobStatus")) as H.
  simpl in H.
  repeat (destruct H as [H | H]; [rewrite <- H; reflexivity |]). now elim H.
Qed.

End StatusSnapshot.

(** ** The download *)

(** The files a trace writes, in order. *)
Definition writes (t : list World.Event) : list string :=
  flat_map (fun e => match e with World.EvWrite p => [p] | _ => [] end) t.

(** A download only reads from the network and writes a file. *)
Definition download_event (e : World.Event) : Prop :=
  match e with
  | World.EvGet _ | World.EvWrite _ => True
  | _ => False
  end.

(** *** Where a file name leads

    The file is written at [Path(output_dir) / filename], and the name
    comes from the vendor.  A plain name, one word that is neither [.]
    nor [..], leads into the directory; an absolute name leads wherever
    it says, the directory is dropped. *)

(** A name of one word: no slash in it, and neither empty nor a dot or
    two. *)
Fixpoint no_slash (s : string) : bool :=
  match s with
  | EmptyString => true
  | String c rest => negb (c =? "/")%char && no_slash rest
  end.

Definition plain_name (name : string) : bool :=
  no_slash name
  && negb ((name =? "") || (name =? ".") || (name =? ".."))%string.

Lemma split_slash_no_slash (s : string) :
  no_slash s = true -> ApiClient.split_slash s = [s].
Proof.
  induction s as [| c rest IH]; [reflexivity |].
  cbn [no_slash ApiClient.split_slash]. intros H. apply andb_true_iff in H.
  destruct H as [Hc Hrest]. apply negb_true_iff in Hc. rewrite Hc.
  now rewrite (IH Hrest).
Qed.

(** A plain name is added to the names of the directory. *)
Lemma path_join_plain (dir name : string) :
  plain_name name = true ->
  ApiClient.path_join dir name
  = ApiClient.path_str (ApiClient.path_root dir) (ApiClient.path_names dir ++ [name]).
Proof.
  unfold plain_name. intros H. apply andb_true_iff in H. destruct H as [Hs Hn].
  apply negb_true_iff in Hn. apply orb_false_iff in Hn. destruct Hn as [Hn _].
  apply orb_false_iff in Hn. destruct Hn as [He Hd].
  assert (Hroot : ApiClient.path_root name = "").
  { destruct name as [| c rest]; [reflexivity |].
    cbn [no_slash] in Hs. apply andb_true_iff in Hs. destruct Hs as [Hc _].
    apply negb_true_iff in Hc. unfold ApiClient.path_root.
    destruct (Ascii.eqb_spec c "/"%char) as [-> | Hne]; [discriminate |].
    destruct c as [[] [] [] [] [] [] [] []]; try reflexivity. now contradiction Hne. }
  unfold ApiClient.path_join. rewrite Hroot. cbn [String.eqb].
  unfold ApiClient.path_names at 2. rewrite (split_slash_no_slash name Hs).
  cbn [filter]. now rewrite He, Hd.
Qed.

(** An absolute name replaces the directory. *)
Lemma path_join_absolute (dir name : string) :
  ApiClient.path_root name <> "" ->
  ApiClient.path_join dir name
  = ApiClient.path_str (ApiClient.path_root name) (ApiClient.path_names name).
Proof.
  intros H. unfold ApiClient.path_join.
  destruct (String.eqb_spec (ApiClient.path_root name) ""); [contradiction | reflexivity].
Qed.

(** A vendor that names the file of its download itself: the file name
    found in the [Content-Disposition] header is [name]. *)
Definition names_the_file (name : string) : World.System Scenario.Scripted := {|
  World.session_post := World.session_post Scenario.scripted;
  World.session_get := World.session_get Scenario.scripted;
  World.fs_mkdir := World.fs_mkdir Scenario.scripted;
  World.fs_write := World.fs_write Scenario.scripted;
  World.fs_stat := World.fs_stat Scenario.scripted;
  World.now_stamp := World.now_stamp Scenario.scripted;
  World.content_disposition_filename := fun _ => Some name;
  World.url_last_segment := World.url_last_segment Scenario.scripted
|}.

(** A download answered with a header that names the file. *)
Definition named_file (header : string) (chunks : list string) : World.HttpOutcome :=
  World.Responded
    (World.mkResponse 200 [("content-disposition", header)] ""
                      (World.JsonDecodeError "") chunks).

Section DownloadEffects.
Import World ApiClient.
Context {W : Type} (sys : System W) (cfg : Config.t).

(** The resolved file name is never empty. *)
Lemma resolve_filename_nonempty (r : Response) (url : string) (job_id : JVal) (w : W) :
  resolve_filename sys r url job_id w <> "".
Proof.
  unfold resolve_filename.
  match goal with
  | |- match ?o with _ => _ end <> _ => destruct o as [f |]
  end; [| discriminate].
  destruct (String.eqb_spec f "") as [E | E]; cbn [negb]; [discriminate | exact E].
Qed.

Lemma save_and_verify_trace (output_dir filename : string) (body : list string) (w : W) :
  (trace_of (save_and_verify sys output_dir filename body w) = []
   /\ fst (fst (value_of (save_and_verify sys output_dir filename body w))) = false)
  \/ trace_of (save_and_verify sys output_dir filename body w)
     = [EvWrite (path_join output_dir filename)].
Proof.
  unfold save_and_verify.
  destruct (fs_mkdir sys w output_dir) as [[msg |] w1]; [left; split; reflexivity |].
  destruct (fs_write sys w1 _ _) as [[msg |] w2]; [right; reflexivity |].
  destruct (fs_stat sys w2 (path_join output_dir filename)) as [size |];
    [| right; reflexivity].
  destruct (0 <? size); right; reflexivity.
Qed.


End DownloadEffects.

(** A download whose header names an absolute file writes that file and
    not one in the output directory, and reports it as a success; a name
    that climbs with [..] is joined as it is. *)
Lemma download_export_outside_the_directory :
  let run name :=
    ApiClient.download_export (names_the_file name) Config.config_py "oc-3372"
      (World.JStr "J1") "output/exports"
      (Scenario.start [Scenario.status_done Scenario.export_url;
                       named_file ("attachment; filename=" @@ name) ["data"]]) in
  World.value_of (run "/etc/cron.d/x.xlsx")
  = (true, Some "/etc/cron.d/x.xlsx", Some "/etc/cron.d/x.xlsx")
  /\ writes (World.trace_of (run "/etc/cron.d/x.xlsx")) = ["/etc/cron.d/x.xlsx"]
  /\ writes (World.trace_of (run "../../x.xlsx")) = ["output/exports/../../x.xlsx"]
  /\ writes (World.trace_of (run "x.xlsx")) = ["output/exports/x.xlsx"].
Proof. vm_compute. repeat split. Qed.

(** ** The smart retry driver, for every queue *)

(** The calls of the client a trace holds: one event per call of
    [pull_gst_report] or [export_gst_report]. *)
Definition client_calls (t : list World.Event) : list World.Event :=
  filter (fun e =>
    match e with
    | World.EvPull _ _ _ _ | World.EvExport _ _ _ _ _ _ => true
    | _ => false
    end) t.

(** What an entry of [retry_results] looks like. *)
Definition retry_entry (r : Retry.t) : Prop :=
  (Retry.retry_status r = "Success"
   /\ 1 <= Retry.retry_attempts r <= Utils.max_attempts
   /\ (exists j, Retry.job_id r = Some j /\ World.truthy j = true)
   /\ Retry.final_error r = None)
  \/ (Retry.retry_status r = "Failed"
      /\ Retry.retry_attempts r = Utils.max_attempts
      /\ Retry.job_id r = None
      /\ exists e, Retry.final_error r = Some e).

(** A pause of the driver: [min(base ** attempt, cap)] after a failed
    attempt that is not the last, counted from [first] on. *)
Definition backoff_pause (cfg : Config.t) (first secs : Z) : Prop :=
  exists attempt,
    first <= attempt < Utils.max_attempts
    /\ secs = Z.min (Config.RETRY_EXPONENTIAL_BASE cfg ^ attempt)
                    (Config.RETRY_MAX_WAIT cfg).

(** [sum(r['retry_attempts'] for r in retry_results)]. *)
Definition total_attempts (rs : list Retry.t) : Z :=
  fold_right (fun r n => Retry.retry_attempts r + n) 0 rs.

Lemma sleeps_app (site : World.SleepSite) (t1 t2 : list World.Event) :
  Scenario.sleeps site (t1 ++ t2) = Scenario.sleeps site t1 ++ Scenario.sleeps site t2.
Proof. unfold Scenario.sleeps. apply flat_map_app. Qed.

Lemma client_calls_app (t1 t2 : list World.Event) :
  client_calls (t1 ++ t2) = client_calls t1 ++ client_calls t2.
Proof. unfold client_calls. apply filter_app. Qed.

Lemma transport_no_calls (t : list World.Event) :
  Forall transport_event t ->
  client_calls t = [] /\ Scenario.sleeps World.Backoff t = [].
Proof.
  induction 1 as [| e t He _ [IHc IHs]]; [split; reflexivity |].
  destruct e as [| | r | r | [] secs | p]; cbn in He; try contradiction;
    cbn; split; assumption.
Qed.

Section SmartRetryQueue.
Import World Utils.
Context {W : Type} (sys : System W) (cfg : Config.t).

Lemma retry_call_result (operation : Op.t) (w : W) :
  export_result (value_of (retry_call sys cfg operation w)).
Proof.
  unfold retry_call. destruct (Op.operation_type operation).
  - pose proof (pull_gst_report_result sys cfg (Op.report_type operation)
                  (Op.company_id operation) (Op.gstin operation)
                  (Op.return_period operation) w) as H.
    destruct (value_of _) as [[[] [j |]] [e |]]; cbn in *; auto.
  - apply export_gst_report_result.
Qed.

Lemma retry_call_trace (operation : Op.t) (w : W) :
  List.length (client_calls (trace_of (retry_call sys cfg operation w))) = 1%nat
  /\ Scenario.sleeps Backoff (trace_of (retry_call sys cfg operation w)) = [].
Proof.
  unfold retry_call. destruct (Op.operation_type operation).
  - destruct (pull_gst_report_events sys cfg (Op.report_type operation)
                (Op.company_id operation) (Op.gstin operation)
                (Op.return_period operation) w) as (t & Ht & Hall).
    rewrite Ht. apply transport_no_calls in Hall. destruct Hall as [Hc Hs].
    unfold client_calls, Scenario.sleeps in *. cbn [filter flat_map app].
    rewrite Hc, Hs. split; reflexivity.
  - destruct (export_gst_report_events sys cfg (Op.report_type operation)
                (Op.company_id operation) (Op.gstin operation)
                (Op.start_period operation) (Op.end_period operation)
                (match Op.report_format operation with Some f => f | None => 101 end) w)
      as (t & Ht & Hall & _).
    rewrite Ht. apply transport_no_calls in Hall. destruct Hall as [Hc Hs].
    unfold client_calls, Scenario.sleeps in *. cbn [filter flat_map app].
    rewrite Hc, Hs. split; reflexivity.
Qed.

(** The loop of one operation: one entry, for that operation, of the
    right shape; as many calls as the entry says, counted from the
    attempt the loop starts at; a pause before every call but the first,
    each of the length the back-off prescribes. *)
Lemma retry_attempts_entry (operation : Op.t) :
  forall (todo : nat) (attempt : Z) (w : W),
    1 <= attempt ->
    attempt + Z.of_nat (S todo) = max_attempts + 1 ->
    let run := retry_attempts sys cfg (S todo) attempt operation w in
    exists r,
      value_of run = [r]
      /\ Retry.op r = operation
      /\ retry_entry r
      /\ Z.of_nat (List.length (client_calls (trace_of run)))
         = Retry.retry_attempts r - attempt + 1
      /\ S (List.length (Scenario.sleeps Backoff (trace_of run)))
         = List.length (client_calls (trace_of run))
      /\ Forall (backoff_pause cfg attempt) (Scenario.sleeps Backoff (trace_of run)).
Proof.
  induction todo as [| todo IH]; intros attempt w Hpos Hcount run; subst run.
  - cbn [retry_attempts]. rewrite value_bind, trace_bind.
    destruct (retry_call_trace operation w) as [Hc Hs].
    pose proof (retry_call_result operation w) as Hshape.
    destruct (value_of (retry_call sys cfg operation w)) as [[success job_id] error].
    assert (Hlast : (attempt <? max_attempts) = false) by (apply Z.ltb_ge; lia).
    destruct success; [| rewrite Hlast];
      eexists; (split; [reflexivity |]); (split; [reflexivity |]);
      cbn [ret trace_of snd]; rewrite app_nil_r, Hc, Hs; cbn [Retry.retry_attempts].
    + split; [| split; [lia | split; [reflexivity | constructor]]].
      left. cbn. destruct job_id as [j |], error as [e |]; cbn in Hshape;
        try contradiction.
      repeat split; try lia. now exists j.
    + split; [| split; [lia | split; [reflexivity | constructor]]].
      right. cbn. destruct job_id as [j |], error as [e |]; cbn in Hshape;
        try contradiction.
      repeat split; try lia. now exists e.
  - remember (S todo) as k eqn:Hk. cbn [retry_attempts]. rewrite value_bind, trace_bind.
    destruct (retry_call_trace operation w) as [Hc Hs].
    pose proof (retry_call_result operation w) as Hshape.
    destruct (value_of (retry_call sys cfg operation w)) as [[success job_id] error].
    destruct success.
    + eexists; (split; [reflexivity |]); (split; [reflexivity |]).
      cbn [ret trace_of snd]. rewrite app_nil_r, Hc, Hs. cbn [Retry.retry_attempts].
      split; [| split; [lia | split; [reflexivity | constructor]]].
      left. cbn. destruct job_id as [j |], error as [e |]; cbn in Hshape;
        try contradiction.
      unfold max_attempts in *. repeat split; try lia. now exists j.
    + assert (Hnext : (attempt <? max_attempts) = true) by (apply Z.ltb_lt; lia).
      rewrite Hnext. unfold sleep. rewrite emit_bind, value_mk, trace_mk.
      subst k.
      destruct (IH (attempt + 1) (world_of (retry_call sys cfg operation w)))
        as (r & Hr & Hop & Hentry & Hcalls & Hsleeps & Hcap); [lia | lia |].
      exists r. split; [exact Hr |]. split; [exact Hop |]. split; [exact Hentry |].
      rewrite client_calls_app, sleeps_app, Hs, length_app, Hc.
      change (client_calls (EvSleep Backoff ?s :: ?t)) with (client_calls t).
      change (Scenario.sleeps Backoff (EvSleep Backoff ?s :: ?t))
        with (s :: Scenario.sleeps Backoff t).
      cbn [app List.length Nat.add].
      split; [lia |]. split; [lia |].
      constructor; [exists attempt; split; [lia | reflexivity] |].
      eapply Forall_impl; [| exact Hcap].
      intros secs (a & Ha & Hsecs). exists a. split; [lia | exact Hsecs].
Qed.

End SmartRetryQueue.

Section SmartRetryDriver.
Import World Utils.
Context {W : Type} (sys : System W) (cfg : Config.t).

Lemma retry_each_entries (failed_operations : list Op.t) :
  forall w,
    let run := retry_each sys cfg failed_operations w in
    map Retry.op (value_of run) = failed_operations
    /\ Forall retry_entry (value_of run)
    /\ Z.of_nat (List.length (client_calls (trace_of run)))
       = total_attempts (value_of run)
    /\ (List.length (Scenario.sleeps Backoff (trace_of run))
        + List.length (value_of run))%nat
       = List.length (client_calls (trace_of run))
    /\ Forall (backoff_pause cfg 1) (Scenario.sleeps Backoff (trace_of run)).
Proof.
  induction failed_operations as [| operation rest IH]; intros w run; subst run.
  - cbn. repeat split; constructor.
  - cbn [retry_each]. rewrite !value_bind, !trace_bind.
    change (Z.to_nat max_attempts) with 3%nat.
    destruct (retry_attempts_entry sys cfg operation 2 1 w ltac:(lia) eq_refl)
      as (r & Hr & Hop & Hentry & Hcalls & Hsleeps & Hcap).
    rewrite Hr.
    destruct (IH (world_of (retry_attempts sys cfg 3 1 operation w)))
      as (IHop & IHentry & IHcalls & IHsleeps & IHcap).
    cbn [ret value_of trace_of fst snd]. cbn [ret value_of trace_of fst snd] in *.
    rewrite app_nil_r, client_calls_app, sleeps_app, !length_app.
    cbn [app map List.length total_attempts fold_right].
    split; [now rewrite Hop, IHop |].
    split; [constructor; assumption |].
    split; [unfold total_attempts in IHcalls; lia |].
    split; [lia |].
    apply Forall_app; split; assumption.
Qed.

(** X7.  The driver answers a queue entry by entry.  When smart retry is
    enabled it returns one entry for every queued operation, in the order
    of the queue, each carrying its operation; when it is disabled it
    returns nothing.  An entry is either a success, reached at attempt 1,
    2 or 3, with the job id of that attempt and no error, or a failure
    after exactly three attempts, with no job id and the error of the
    third. *)
Theorem smart_retry_one_entry_per_operation (failed_operations : list Op.t) (w : W) :
  let retry_results :=
    value_of (smart_retry_with_backoff sys cfg failed_operations w) in
  map Retry.op retry_results
    = (if Config.SMART_RETRY_ENABLED cfg then failed_operations else [])
  /\ Forall retry_entry retry_results.
Proof.
  cbv zeta. unfold smart_retry_with_backoff.
  destruct (Config.SMART_RETRY_ENABLED cfg); cbn [negb]; [| split; constructor].
  destruct failed_operations as [| o rest]; [split; constructor |].
  destruct (retry_each_entries (o :: rest) w) as (Hop & Hentry & _).
  split; assumption.
Qed.

(** X8.  The attempts the driver reports are the calls it made: the trace
    holds as many client calls as the [retry_attempts] of the entries add
    up to, so at most three per queued operation.  The driver pauses
    before every call that is not the first for its operation and at no
    other time; a pause after attempt [a] lasts
    [min(RETRY_EXPONENTIAL_BASE ** a, RETRY_MAX_WAIT)] seconds, with [a]
    1 or 2, so no pause is longer than [RETRY_MAX_WAIT]. *)
Theorem smart_retry_effort_is_reported (failed_operations : list Op.t) (w : W) :
  let run := smart_retry_with_backoff sys cfg failed_operations w in
  Z.of_nat (List.length (client_calls (trace_of run))) = total_attempts (value_of run)
  /\ (List.length (client_calls (trace_of run)) <= 3 * List.length failed_operations)%nat
  /\ (List.length (Scenario.sleeps Backoff (trace_of run))
      + List.length (value_of run))%nat
     = List.length (client_calls (trace_of run))
  /\ Forall (fun secs =>
               secs <= Config.RETRY_MAX_WAIT cfg
               /\ exists attempt,
                    1 <= attempt < max_attempts
                    /\ secs = Z.min (Config.RETRY_EXPONENTIAL_BASE cfg ^ attempt)
                                    (Config.RETRY_MAX_WAIT cfg))
            (Scenario.sleeps Backoff (trace_of run)).
Proof.
  cbv zeta. unfold smart_retry_with_backoff.
  destruct (negb (Config.SMART_RETRY_ENABLED cfg));
    [cbn; repeat split; try lia; constructor |].
  destruct failed_operations as [| o rest];
    [cbn; repeat split; try lia; constructor |].
  destruct (retry_each_entries (o :: rest) w) as (Hop & Hentry & Hcalls & Hsleeps & Hcap).
  split; [exact Hcalls |]. split; [| split; [assumption |]].
  2: { eapply Forall_impl; [| exact Hcap].
       intros secs (a & Ha & Hs). split; [rewrite Hs; apply Z.le_min_r |].
       exists a. now split. }
  assert (Hbound : forall rs, Forall retry_entry rs ->
            total_attempts rs <= 3 * Z.of_nat (List.length rs)).
  { induction 1 as [| r rs Hr _ IHrs]; [cbn; lia |].
    cbn [total_attempts fold_right List.length]. unfold total_attempts in IHrs.
    unfold retry_entry, max_attempts in Hr.
    destruct Hr as [(_ & Hle & _) | (_ & Heq & _)]; lia. }
  specialize (Hbound _ Hentry).
  rewrite <- Hop at 2. rewrite length_map. lia.
Qed.

End SmartRetryDriver.

(** ** The retry queue and the results of a pull batch *)

(** [r['Status'] == 'Failed']. *)
Definition is_failed (r : Row.t) : bool := String.eqb (Row.Status r) "Failed".

(** The queue entry of a failed result. *)
Definition queued (r : Row.t) : Op.t :=
  Op.mk pull (Row.Report_Type r) (Row.Company_ID r) (Row.Company_Name r)
        (Row.GSTIN r) (Row.Return_Period r) (Some (Row.Error_Message r)) "" "" None.

(** A result as the main loops write it. *)
Definition pull_row (r : Row.t) : Prop :=
  (Row.Status r = "Success" /\ World.truthy (Row.Job_ID r) = true
   /\ Row.Error_Message r = "-")
  \/ (Row.Status r = "Failed" /\ Row.Job_ID r = World.JStr ""
      /\ Row.Error_Message r <> "")
  \/ (Row.Status r = "Skipped" /\ Row.Job_ID r = World.JStr ""
      /\ Row.Error_Message r <> "").

(** [st'] is [st] with some results appended, and with the queue entries
    of the failed ones appended to the queue, in the same order. *)
Definition logged (st st' : Main.PullState) : Prop :=
  exists rows,
    Main.results st' = Main.results st ++ rows
    /\ Main.failed_operations st'
       = Main.failed_operations st ++ map queued (filter is_failed rows)
    /\ Forall pull_row rows.

Lemma logged_refl (st : Main.PullState) : logged st st.
Proof. exists []. cbn. rewrite !app_nil_r. repeat split. constructor. Qed.

Lemma logged_trans (st1 st2 st3 : Main.PullState) :
  logged st1 st2 -> logged st2 st3 -> logged st1 st3.
Proof.
  intros (r1 & Hr1 & Ho1 & Hf1) (r2 & Hr2 & Ho2 & Hf2).
  exists (r1 ++ r2). repeat split.
  - now rewrite Hr2, Hr1, app_assoc.
  - now rewrite Ho2, Ho1, filter_app, map_app, app_assoc.
  - now apply Forall_app.
Qed.

Lemma logged_count (st : Main.PullState) : logged st (Main.count_operation st).
Proof. exists []. cbn. rewrite !app_nil_r. repeat split. constructor. Qed.

(** A result that is not [Failed] leaves the queue alone. *)
Lemma logged_row (st : Main.PullState) (r : Row.t) :
  pull_row r -> is_failed r = false -> logged st (Main.append_result st r).
Proof.
  intros Hrow Hf. exists [r]. cbn. rewrite Hf. cbn. rewrite app_nil_r.
  repeat split. now constructor.
Qed.

Section OrchestratorLog.
Import World Main.
Context {W : Type} (sys : System W) (cfg : Config.t).
Variable report_types : list string.
Variable months : list string.
Variable total_operations : Z.

Lemma pull_unit_logged (c n g m : string) (flag : option string) (st : PullState)
  (rt : string) (w : W) :
  logged st (snd (value_of (Main.pull_unit sys cfg total_operations c n g m flag st rt w))).
Proof.
  rewrite pull_unit_value. cbn [snd].
  pose proof (pull_gst_report_result sys cfg rt c g m w) as Hshape.
  destruct (value_of (ApiClient.pull_gst_report sys cfg rt c g m w))
    as [[success job_id] error_msg].
  set (flag' := Main.unit_flag cfg (success, job_id, error_msg) flag).
  unfold unit_failed, unit_row. cbn [fst snd].
  destruct success, job_id as [j |], error_msg as [e |]; cbn in Hshape;
    try contradiction; cbn [negb andb].
  - apply (logged_trans _ _ _ (logged_count st)).
    apply logged_row; [| reflexivity].
    left. cbn. rewrite Hshape. repeat split; assumption.
  - assert (Hmsg : or_else e "-" = e).
    { unfold or_else. destruct (String.eqb_spec e ""); [contradiction | reflexivity]. }
    rewrite Hmsg.
    destruct (is_some flag'); cbn [negb].
    + apply (logged_trans _ _ _ (logged_count st)).
      apply logged_row; [| reflexivity].
      right; right. cbn. repeat split; assumption.
    + eexists [_]. cbn. repeat split.
      constructor; [| constructor]. right; left. cbn. repeat split; assumption.
Qed.

Lemma pull_month_logged (c n g m : string) (todo : list string) :
  forall flag st w,
    logged st (snd (value_of (Main.pull_month sys cfg total_operations
                                c n g m todo flag st w))).
Proof.
  induction todo as [| rt rest IH]; intros flag st w.
  - apply logged_refl.
  - cbn [Main.pull_month]. rewrite value_bind.
    apply (logged_trans st _ _ (pull_unit_logged c n g m flag st rt w)).
    apply IH.
Qed.

Lemma skip_month_logged (c n g m e : string) (todo : list string) :
  e <> "" ->
  forall st, logged st (skip_month c n g m e todo st).
Proof.
  intros He. induction todo as [| rt rest IH]; intros st.
  - apply logged_refl.
  - cbn [skip_month].
    eapply logged_trans; [| apply IH].
    apply (logged_trans _ _ _ (logged_count st)).
    apply logged_row; [| reflexivity].
    right; right. cbn. repeat split. exact He.
Qed.

End OrchestratorLog.

(** The flag, when set, holds the message that set it, which is not
    empty. *)
Definition flag_set (flag : option string) : Prop :=
  match flag with Some e => e <> "" | None => True end.

Section OrchestratorQueue.
Import World Main.
Context {W : Type} (sys : System W) (cfg : Config.t).
Variable report_types : list string.
Variable months : list string.
Variable total_operations : Z.

Lemma unit_flag_set (res : ApiClient.SubmitResult) (flag : option string) :
  flag_set flag -> flag_set (Main.unit_flag cfg res flag).
Proof.
  intros Hflag. destruct res as [[success job_id] error_msg]. unfold unit_flag.
  destruct (says_not_connected success error_msg
            && Config.SKIP_NOT_CONNECTED_COMPANIES cfg) eqn:Hsay; [| exact Hflag].
  apply andb_true_iff in Hsay. destruct Hsay as [Hsay _].
  unfold says_not_connected in Hsay. apply andb_true_iff in Hsay.
  destruct Hsay as [_ Hsay]. destruct error_msg as [e |]; [| discriminate].
  apply andb_true_iff in Hsay. destruct Hsay as [Hne _]. cbn.
  destruct (String.eqb_spec e ""); [discriminate | assumption].
Qed.

Lemma pull_month_flag_set (c n g m : string) (todo : list string) :
  forall flag st w,
    flag_set flag ->
    flag_set (fst (value_of (Main.pull_month sys cfg total_operations
                               c n g m todo flag st w))).
Proof.
  induction todo as [| rt rest IH]; intros flag st w Hflag.
  - exact Hflag.
  - cbn [Main.pull_month]. rewrite value_bind. apply IH.
    rewrite pull_unit_value. cbn [fst]. now apply unit_flag_set.
Qed.

Lemma pull_months_logged (c n g : string) (todo : list string) :
  forall flag st w,
    flag_set flag ->
    logged st (snd (value_of (Main.pull_months sys cfg report_types total_operations
                                c n g todo flag st w))).
Proof.
  induction todo as [| m rest IH]; intros flag st w Hflag.
  - apply logged_refl.
  - cbn [Main.pull_months]. destruct flag as [e |].
    + apply (logged_trans st _ _ (skip_month_logged c n g m e report_types Hflag st)).
      now apply IH.
    + rewrite value_bind.
      apply (logged_trans st _ _
               (pull_month_logged sys cfg total_operations c n g m report_types None st w)).
      apply IH. now apply pull_month_flag_set.
Qed.

Lemma missing_month_logged (c n g m : string) (todo : list string) :
  forall st, logged st (missing_month c n g m todo st).
Proof.
  induction todo as [| rt rest IH]; intros st.
  - apply logged_refl.
  - cbn [missing_month].
    eapply logged_trans; [| apply IH].
    apply logged_row; [| reflexivity].
    right; right. cbn. repeat split. discriminate.
Qed.

Lemma missing_months_logged (c n g : string) (todo : list string) :
  forall st, logged st (missing_months report_types c n g todo st).
Proof.
  induction todo as [| m rest IH]; intros st.
  - apply logged_refl.
  - cbn [missing_months].
    apply (logged_trans st _ _ (missing_month_logged c n g m report_types st)).
    apply IH.
Qed.

Lemma pull_company_logged (company : Company.t) (st : PullState) (w : W) :
  logged st (value_of (Main.pull_company sys cfg report_types months total_operations
                         company st w)).
Proof.
  unfold Main.pull_company. branch.
  - apply missing_months_logged.
  - rewrite value_bind. now apply pull_months_logged.
Qed.

Lemma pull_companies_logged (companies : list Company.t) :
  forall st w,
    logged st (value_of (Main.pull_companies sys cfg report_types months total_operations
                           companies st w)).
Proof.
  induction companies as [| company rest IH]; intros st w.
  - apply logged_refl.
  - cbn [Main.pull_companies]. rewrite value_bind.
    apply (logged_trans st _ _ (pull_company_logged company st w)).
    apply IH.
Qed.

End OrchestratorQueue.

Section PullQueue.
Import World Main.
Context {W : Type} (sys : System W) (cfg : Config.t).

Lemma pull_all_logged (companies : list Company.t) (months report_types : list string)
  (w : W) :
  let st := value_of (pull_all sys cfg companies months report_types w) in
  failed_operations st = map queued (filter is_failed (results st))
  /\ Forall pull_row (results st).
Proof.
  cbv zeta. unfold pull_all.
  destruct (pull_companies_logged sys cfg report_types months
              (Z.of_nat (List.length companies) * Z.of_nat (List.length months)
               * Z.of_nat (List.length report_types))
              companies (mkPS 0 [] []) w) as (rows & Hr & Ho & Hf).
  cbn [results failed_operations app] in Hr, Ho. rewrite Hr, Ho. now split.
Qed.

(** X9.  When the main loops of a pull batch end, the retry queue is exactly
    the [Failed] results, in the order of the results: each queue entry is
    a pull of the report type, company and period of its result, with the
    message of the result as its error.  Results skipped for a missing id
    or for a company that is not connected are never queued.  Every result
    is [Success] with a job id and the message [-], or [Failed] or
    [Skipped] with an empty job id and a message. *)
Theorem retry_queue_is_the_failed_results (companies : list Company.t)
  (months report_types : list string) (w : W) :
  let st := value_of (pull_all sys cfg companies months report_types w) in
  failed_operations st = map queued (filter is_failed (results st))
  /\ Forall pull_row (results st).
Proof. apply pull_all_logged. Qed.

End PullQueue.

(** ** The results a pull batch hands to the writer *)

(** A result after the update loop: as the main loops wrote it, or
    upgraded by a retry. *)
Definition final_row (r : Row.t) : Prop :=
  pull_row r
  \/ (Row.Status r = "Success (After Retry)" /\ World.truthy (Row.Job_ID r) = true).

(** [len(df[df['Status'] == status])]. *)
Definition count_status (status : string) (rows : list Row.t) : nat :=
  List.length (filter (fun r => String.eqb (Row.Status r) status) rows).

Lemma upgrade_first_final (rows : list Row.t) (retry : Retry.t) :
  Forall final_row rows ->
  World.truthy (Utils.job_of (Retry.job_id retry)) = true ->
  Forall final_row (Main.upgrade_first rows retry).
Proof.
  intros Hrows Hjob. induction Hrows as [| r rest Hr Hrest IH]; [constructor |].
  cbn [Main.upgrade_first]. destruct (Main.retry_matches r retry).
  - constructor; [| assumption]. right. split; [reflexivity | exact Hjob].
  - now constructor.
Qed.

Lemma apply_retries_final (retry_results : list Retry.t) :
  Forall retry_entry retry_results ->
  forall rows, Forall final_row rows ->
               Forall final_row (Main.apply_retries rows retry_results).
Proof.
  unfold Main.apply_retries.
  induction 1 as [| retry rest Hentry _ IH]; intros rows Hrows; [exact Hrows |].
  cbn [fold_left]. apply IH. unfold Main.apply_retry.
  destruct (String.eqb_spec (Retry.retry_status retry) "Success") as [E | _];
    [| exact Hrows].
  apply upgrade_first_final; [exact Hrows |].
  destruct Hentry as [(_ & _ & (j & Hj & Ht) & _) | (Hs & _)].
  - now rewrite Hj.
  - rewrite Hs in E. discriminate.
Qed.

Lemma final_rows_counted (rows : list Row.t) :
  Forall final_row rows ->
  (count_status "Success" rows + count_status "Failed" rows
   + count_status "Skipped" rows + count_status "Success (After Retry)" rows)%nat
  = List.length rows.
Proof.
  unfold count_status.
  induction 1 as [| r rest Hr _ IH]; [reflexivity |].
  cbn [filter List.length].
  destruct Hr as [[(Hs & _) | [(Hs & _) | (Hs & _)]] | (Hs & _)];
    rewrite Hs; cbn [String.eqb Ascii.eqb Bool.eqb List.length]; lia.
Qed.

Section PullResults.
Import World Main.
Context {W : Type} (sys : System W) (cfg : Config.t).

Lemma run_pull_operation_final (companies : list Company.t)
  (months report_types : list string) (w : W) :
  Forall final_row (value_of (run_pull_operation sys cfg companies months report_types w)).
Proof.
  unfold run_pull_operation. rewrite value_bind.
  destruct (pull_all_logged sys cfg companies months report_types w) as [_ Hrows].
  assert (Hfinal : Forall final_row
            (results (value_of (pull_all sys cfg companies months report_types w))))
    by (eapply Forall_impl; [| exact Hrows]; intros r Hr; now left).
  destruct (failed_operations
              (value_of (pull_all sys cfg companies months report_types w)))
    as [| o rest]; [exact Hfinal |].
  rewrite value_bind. unfold ret, value_of at 1. cbn [fst].
  apply apply_retries_final; [| exact Hfinal].
  unfold Utils.smart_retry_with_backoff.
  destruct (negb (Config.SMART_RETRY_ENABLED cfg)); [constructor |].
  apply (retry_each_entries sys cfg (o :: rest)).
Qed.

(** X10.  The results of a pull batch carry one of four statuses: [Success],
    [Failed], [Skipped] and [Success (After Retry)], the last one with the
    job id of the retry.  The summary counts the first three only, each by
    exact comparison, so its three counts and the number of retried
    successes add up to the number of units: the counts of the summary
    fall short of the total by one for every result a retry has
    upgraded. *)
Theorem pull_summary_leaves_out_retried (companies : list Company.t)
  (months report_types : list string) (w : W) :
  let results := value_of (run_pull_operation sys cfg companies months report_types w) in
  Forall final_row results
  /\ (count_status "Success" results + count_status "Failed" results
      + count_status "Skipped" results
      + count_status "Success (After Retry)" results)%nat
     = (List.length companies * List.length months * List.length report_types)%nat.
Proof.
  cbv zeta. split; [apply run_pull_operation_final |].
  rewrite final_rows_counted by apply run_pull_operation_final.
  unfold run_pull_operation. rewrite value_bind.
  destruct (pull_all_grows sys cfg companies months report_types w)
    as (rows & ops & Hr & _ & Hl & _).
  cbn [results app] in Hr.
  assert (Hlen : List.length
            (results (value_of (pull_all sys cfg companies months report_types w)))
          = (List.length companies * List.length months * List.length report_types)%nat)
    by (rewrite Hr, Hl; lia).
  destruct (failed_operations
              (value_of (pull_all sys cfg companies months report_types w))).
  - exact Hlen.
  - rewrite value_bind. unfold ret, value_of at 1. cbn [fst].
    rewrite apply_retries_length. exact Hlen.
Qed.

End PullResults.

(** ** Companies the loops do not call for, and the switch of the
    short circuit *)

Section IncompleteCompany.
Import World Main.
Context {W : Type} (sys : System W) (cfg : Config.t).
Variable report_types : list string.
Variable months : list string.
Variable total_operations : Z.

Lemma missing_month_rows (c n g m : string) (todo : list string) :
  forall st,
    missing_month c n g m todo st
    = mkPS (current_operation st)
           (results st ++ map (missing_row c n g m) todo)
           (failed_operations st).
Proof.
  induction todo as [| rt rest IH]; intros st; cbn [missing_month map].
  - rewrite app_nil_r. now destruct st.
  - rewrite IH. cbn. now rewrite <- app_assoc.
Qed.

Lemma missing_months_rows (c n g : string) (todo : list string) :
  forall st,
    missing_months report_types c n g todo st
    = mkPS (current_operation st)
           (results st
            ++ flat_map (fun m => map (missing_row c n g m) report_types) todo)
           (failed_operations st).
Proof.
  induction todo as [| m rest IH]; intros st; cbn [missing_months flat_map].
  - rewrite app_nil_r. now destruct st.
  - rewrite IH, missing_month_rows. cbn. now rewrite <- app_assoc.
Qed.

(** X11.  A company whose id or GSTIN is empty costs no call: the world is
    left as it is and no event happens, nothing is queued for a retry and
    the progress counter does not move.  It still gets one result per
    month and report type, month by month: [Skipped], with the message
    "Missing Company ID or GSTIN", and with [Missing] in place of the
    empty id or GSTIN (an id that is present is shown with its prefix). *)
Theorem incomplete_company_costs_no_call (company : Company.t) (st : PullState) (w : W)
  (Hmissing : Company.Company_ID company = "" \/ Company.GSTIN company = "") :
  let company_id := with_prefix (Company.Company_ID company) in
  let rows :=
    flat_map (fun month =>
      map (fun report_type =>
             Row.mk report_type (or_else company_id "Missing")
                    (Company.Company_Name company)
                    (or_else (Company.GSTIN company) "Missing") month (JStr "")
                    "Skipped" "Missing Company ID or GSTIN")
          report_types) months in
  pull_company sys cfg report_types months total_operations company st w
  = (mkPS (current_operation st) (results st ++ rows) (failed_operations st), w, []).
Proof.
  cbv zeta. unfold pull_company.
  assert (Hguard : String.eqb (with_prefix (Company.Company_ID company)) ""
                   || String.eqb (Company.GSTIN company) "" = true).
  { destruct Hmissing as [E | E]; rewrite E; [reflexivity | apply orb_true_r]. }
  rewrite Hguard. unfold ret. now rewrite missing_months_rows.
Qed.

End IncompleteCompany.

Lemma incomplete_company_costs_no_call_witness :
  Main.pull_company Scenario.scripted Config.config_py ["GSTR-2A"] ["2024-04"; "2024-05"] 2
    (Company.mk "3372" "Acme" "") (Main.mkPS 0 [] [])
    (Scenario.start [Scenario.job_created "J1"])
  = (Main.mkPS 0
       [Row.mk "GSTR-2A" "oc-3372" "Acme" "Missing" "2024-04" (World.JStr "") "Skipped"
               "Missing Company ID or GSTIN";
        Row.mk "GSTR-2A" "oc-3372" "Acme" "Missing" "2024-05" (World.JStr "") "Skipped"
               "Missing Company ID or GSTIN"] [],
     Scenario.start [Scenario.job_created "J1"], []).
Proof.
  exact (incomplete_company_costs_no_call Scenario.scripted Config.config_py
           ["GSTR-2A"] ["2024-04"; "2024-05"] 2 (Company.mk "3372" "Acme" "")
           (Main.mkPS 0 [] []) (Scenario.start [Scenario.job_created "J1"])
           (or_intror eq_refl)).
Defined.

(** A result of a unit that was called and not set aside. *)
Definition called_row (r : Row.t) : Prop :=
  Row.Status r = "Success" \/ Row.Status r = "Failed".

Section SwitchOff.
Import World Main.
Context {W : Type} (sys : System W) (cfg : Config.t).
Variable report_types : list string.
Variable total_operations : Z.
Hypothesis Hoff : Config.SKIP_NOT_CONNECTED_COMPANIES cfg = false.

Lemma unit_flag_off (res : ApiClient.SubmitResult) (flag : option string) :
  unit_flag cfg res flag = flag.
Proof.
  destruct res as [[success job_id] error_msg]. unfold unit_flag.
  now rewrite Hoff, andb_false_r.
Qed.

Lemma pull_month_off (c n g m : string) (todo : list string) :
  forall st w,
    let r := value_of (pull_month sys cfg total_operations c n g m todo None st w) in
    fst r = None
    /\ exists rows, results (snd r) = results st ++ rows /\ Forall called_row rows.
Proof.
  induction todo as [| rt rest IH]; intros st w r; subst r.
  - split; [reflexivity |]. exists []. now rewrite app_nil_r.
  - cbn [Main.pull_month]. rewrite value_bind, pull_unit_run.
    cbn [value_of world_of fst snd]. rewrite unit_flag_off.
    match goal with
    | |- context [pull_month _ _ _ _ _ _ _ _ None ?s ?w'] =>
        destruct (IH s w') as (Hflag & rows & Hrows & Hall)
    end.
    split; [exact Hflag |].
    eexists (_ :: rows). rewrite Hrows. cbn [results append_result].
    split.
    + rewrite <- app_assoc. cbn [app]. f_equal.
      match goal with
      | |- results (if ?b then _ else _) = _ => destruct b; reflexivity
      end.
    + constructor; [| exact Hall].
      unfold called_row, unit_row.
      destruct (value_of (ApiClient.pull_gst_report sys cfg rt c g m w))
        as [[[] job_id] error_msg]; cbn; tauto.
Qed.

Lemma pull_months_off (c n g : string) (todo : list string) :
  forall st w,
    let run := pull_months sys cfg report_types total_operations c n g todo None st w in
    fst (value_of run) = None
    /\ pull_calls (trace_of run)
       = flat_map (fun m => map (fun rt => EvPull rt c g m) report_types) todo
    /\ exists rows,
         results (snd (value_of run)) = results st ++ rows /\ Forall called_row rows.
Proof.
  induction todo as [| m rest IH]; intros st w run; subst run.
  - split; [reflexivity |]. split; [reflexivity |]. exists []. now rewrite app_nil_r.
  - cbn [Main.pull_months flat_map]. rewrite value_bind, trace_bind, pull_calls_app.
    rewrite pull_month_calls.
    destruct (pull_month_off c n g m report_types st w) as (Hflag & rows1 & Hrows1 & Hall1).
    rewrite Hflag.
    match goal with
    | |- context [pull_months _ _ _ _ _ _ _ _ None ?s ?w'] =>
        destruct (IH s w') as (Hflag2 & Hcalls & rows2 & Hrows2 & Hall2)
    end.
    split; [exact Hflag2 |]. split; [now rewrite Hcalls |].
    exists (rows1 ++ rows2). rewrite Hrows2, Hrows1, app_assoc.
    split; [reflexivity | now apply Forall_app].
Qed.

End SwitchOff.

(** [config.py] with the short circuit switched off. *)
Definition config_without_skip : Config.t :=
  Config.mk (Config.GST_REPORTS Config.config_py) (Config.JOB_STATUS Config.config_py)
            3 2 2 1 false true 2 30 180 3 2 (Config.EXPORT_OUTPUT_DIR Config.config_py).

Section SwitchOffCompany.
Import World Main.
Context {W : Type} (sys : System W) (cfg : Config.t).

(** X12.  With [SKIP_NOT_CONNECTED_COMPANIES] off, a company that has an id
    and a GSTIN is called for every month and every report type, in the
    order of the loops and with the prefixed id, whatever the vendor
    answers (a not-connected error included); none of its results is
    [Skipped]. *)
Theorem skipping_disabled_calls_every_unit (report_types months : list string)
  (total_operations : Z) (company : Company.t) (st : PullState) (w : W)
  (Hoff : Config.SKIP_NOT_CONNECTED_COMPANIES cfg = false)
  (Hid : Company.Company_ID company <> "")
  (Hgstin : Company.GSTIN company <> "") :
  let run := pull_company sys cfg report_types months total_operations company st w in
  pull_calls (trace_of run)
  = flat_map (fun month =>
      map (fun report_type =>
             EvPull report_type (with_prefix (Company.Company_ID company))
                    (Company.GSTIN company) month)
          report_types) months
  /\ exists rows,
       results (value_of run) = results st ++ rows /\ Forall called_row rows.
Proof.
  cbv zeta. unfold pull_company.
  assert (Hpre : with_prefix (Company.Company_ID company) <> "").
  { intros E. pose proof (with_prefix_startswith _ Hid) as Hp.
    rewrite E in Hp. discriminate. }
  destruct (String.eqb_spec (with_prefix (Company.Company_ID company)) "");
    [contradiction |].
  destruct (String.eqb_spec (Company.GSTIN company) ""); [contradiction |].
  cbn [orb]. rewrite trace_bind, value_bind. cbn [ret trace_of value_of fst snd].
  rewrite app_nil_r.
  destruct (pull_months_off sys cfg report_types total_operations Hoff
              (with_prefix (Company.Company_ID company)) (Company.Company_Name company)
              (Company.GSTIN company) months st w) as (_ & Hcalls & Hrows).
  split; [exact Hcalls | exact Hrows].
Qed.

End SwitchOffCompany.

(** The first month finds the company not connected; with the switch
    off the second month is called all the same. *)
Lemma skipping_disabled_calls_every_unit_witness :
  pull_calls
    (World.trace_of
       (Main.pull_company Scenario.scripted config_without_skip ["GSTR-2A"]
          ["2024-04"; "2024-05"] 2 Scenario.acme (Main.mkPS 0 [] [])
          Scenario.not_connected_then_job))
  = [World.EvPull "GSTR-2A" "oc-3372" "19AADCG0737G1ZQ" "2024-04";
     World.EvPull "GSTR-2A" "oc-3372" "19AADCG0737G1ZQ" "2024-05"].
Proof.
  refine (proj1 (skipping_disabled_calls_every_unit Scenario.scripted config_without_skip
                   ["GSTR-2A"] ["2024-04"; "2024-05"] 2 Scenario.acme (Main.mkPS 0 [] [])
                   Scenario.not_connected_then_job eq_refl _ _));
    discriminate.
Defined.

(** ** Waiting for an export *)

(** The statuses [process_export_batch] gives a batch that failed. *)
Definition failure_statuses : list string :=
  ["Failed to Create Job"; "Download Failed"; "Job Failed"; "Timeout"].

Section ExportOutcome.
Import World ApiClient Utils.
Context {W : Type} (sys : System W) (cfg : Config.t).

(** The [.lower()] of the waiter never raises on a snapshot of the
    client. *)
Lemma check_job_status_lower (company_id : string) (job_id : JVal) (w : W) :
  exists status,
    status_lower (value_of (check_job_status sys cfg company_id job_id w)) = inl status.
Proof.
  unfold check_job_status. rewrite value_bind.
  repeat branch; unfold ret, value_of; cbn [fst]; unfold status_lower;
    try (rewrite dict_get_set_same); eexists; reflexivity.
Qed.

(** Where a finished wait leaves the row: the batch's own fields are
    kept, and the outcome is a success with a file on disk or one of the
    failures without a file. *)
Definition export_outcome (batch : Batch.t) (w' : W) (out : ExportRow.t * bool) : Prop :=
  let '(row, ok) := out in
  ExportRow.Company row = Batch.company_name batch
  /\ ExportRow.GSTIN row = Batch.gstin batch
  /\ ExportRow.Period row = period_label batch
  /\ if ok then
       ExportRow.Status row = "Success"
       /\ truthy (ExportRow.Job_ID row) = true
       /\ exists path size,
            ExportRow.Filepath row = Some path
            /\ fs_stat sys w' path = Some size /\ 0 < size
     else
       In (ExportRow.Status row) failure_statuses
       /\ ExportRow.Filepath row = None
       /\ ExportRow.Filename row = Some "".

Lemma wait_for_export_outcome (batch : Batch.t) (job_id : JVal) (export_dir : string)
  (result : ExportRow.t) (fuel : nat) :
  ExportRow.Company result = Batch.company_name batch ->
  ExportRow.GSTIN result = Batch.gstin batch ->
  ExportRow.Period result = period_label batch ->
  ExportRow.Filepath result = None ->
  truthy (ExportRow.Job_ID result) = true ->
  forall (waited : Z) (w : W) (out : ExportRow.t * bool),
    value_of (wait_for_export sys cfg fuel waited batch job_id export_dir result w)
      = Some out ->
    export_outcome batch
      (world_of (wait_for_export sys cfg fuel waited batch job_id export_dir result w))
      out.
Proof.
  intros Hc Hg Hp Hf Hj.
  induction fuel as [| fuel IH]; intros waited w out; [discriminate |].
  cbn [wait_for_export].
  destruct (waited <? Config.EXPORT_MAX_WAIT cfg).
  - unfold sleep. rewrite emit_bind, value_mk, world_mk, value_bind, world_bind.
    set (w1 := world_of (check_job_status sys cfg (Batch.company_id batch) job_id w)).
    destruct (check_job_status_lower (Batch.company_id batch) job_id w) as (status & Hs).
    rewrite Hs.
    destruct (Py.str_mem status completed_words).
    + rewrite value_bind, world_bind.
      pose proof (download_export_success sys cfg (Batch.company_id batch) job_id
                    export_dir w1) as Hdl.
      destruct (value_of (download_export sys cfg (Batch.company_id batch) job_id
                            export_dir w1)) as [[dl_success filepath] filename].
      destruct dl_success; unfold ret, value_of, world_of; cbn [fst snd];
        intros H; inversion H; subst out; clear H; cbn.
      * destruct (Hdl filepath filename eq_refl) as (path & size & -> & Hstat & Hpos).
        repeat split; try assumption. exists path, size. repeat split; assumption.
      * rewrite Hf. repeat split; try assumption. simpl; tauto.
    + destruct (Py.str_mem status failed_words).
      * unfold ret, value_of, world_of; cbn [fst snd].
        intros H; inversion H; subst out; clear H; cbn.
        rewrite Hf. repeat split; try assumption. simpl; tauto.
      * apply IH.
  - unfold ret, value_of, world_of; cbn [fst snd].
    intros H; inversion H; subst out; clear H; cbn.
    rewrite Hf. repeat split; try assumption. simpl; tauto.
Qed.

End ExportOutcome.

Lemma download_no_sleep (site : World.SleepSite) (t : list World.Event) :
  Forall download_event t -> Scenario.sleeps site t = [].
Proof.
  induction 1 as [| e t He _ IH]; [reflexivity |].
  destruct e; cbn in He; try contradiction; exact IH.
Qed.

Lemma transport_no_sleep_polling (t : list World.Event) :
  Forall transport_event t -> Scenario.sleeps World.Polling t = [].
Proof.
  induction 1 as [| e t He _ IH]; [reflexivity |].
  destruct e as [| | r | r | [] secs | p]; cbn in He; try contradiction; exact IH.
Qed.

Section ExportEnds.
Import World ApiClient Utils.
Context {W : Type} (sys : System W) (cfg : Config.t).

Lemma download_export_events (company_id : string) (job_id : JVal)
  (output_dir : string) (w : W) :
  Forall download_event (trace_of (download_export sys cfg company_id job_id output_dir w)).
Proof.
  unfold download_export. rewrite trace_bind, check_job_status_trace.
  constructor; [exact I |].
  set (snapshot := value_of (check_job_status sys cfg company_id job_id w)).
  set (w1 := world_of (check_job_status sys cfg company_id job_id w)).
  destruct (is_code_100 (field snapshot "jobStatus")
            || is_str (field snapshot "status") "completed"); [| constructor].
  destruct (negb (truthy (field snapshot "url"))); [constructor |].
  destruct (field snapshot "url") as [| b | z | url]; try constructor.
  rewrite trace_bind, trace_get, value_get, world_get. constructor; [exact I |].
  destruct (fst (session_get sys w1 (mkGet url None))) as [r | e | e | e];
    try constructor.
  destruct (negb (status_code r =? 200)); [constructor |].
  match goal with
  | |- Forall _ (trace_of (save_and_verify _ ?d ?f ?b ?w')) =>
      destruct (save_and_verify_trace sys d f b w') as [[Ht _] | Ht]; rewrite Ht
  end; repeat constructor.
Qed.

(** The wait loop ends while it has fuel for the polls that are left,
    and it has slept no more often than that. *)
Lemma wait_for_export_ends (batch : Batch.t) (job_id : JVal) (export_dir : string)
  (result : ExportRow.t) :
  forall (rem : nat) (waited : Z) (fuel : nat) (w : W),
    (rem < fuel)%nat ->
    polls_left cfg rem waited ->
    let run := wait_for_export sys cfg fuel waited batch job_id export_dir result w in
    (exists out, value_of run = Some out)
    /\ (List.length (Scenario.sleeps Polling (trace_of run)) <= rem)%nat
    /\ Forall (fun secs => secs = Config.EXPORT_CHECK_INTERVAL cfg)
              (Scenario.sleeps Polling (trace_of run)).
Proof.
  induction rem as [| rem IH]; intros waited fuel w Hfuel Hleft;
    (destruct fuel as [| fuel]; [lia |]); cbv zeta; cbn [wait_for_export].
  - destruct Hleft as [Hle _].
    assert (Hend : (waited <? Config.EXPORT_MAX_WAIT cfg) = false)
      by (apply Z.ltb_ge; lia).
    rewrite Hend. split; [eexists; reflexivity | split; [cbn; lia | constructor]].
  - destruct (waited <? Config.EXPORT_MAX_WAIT cfg);
      [| split; [eexists; reflexivity | split; [cbn; lia | constructor]]].
    unfold sleep. rewrite emit_bind, value_mk, trace_mk.
    rewrite value_bind, trace_bind, check_job_status_trace.
    set (w1 := world_of (check_job_status sys cfg (Batch.company_id batch) job_id w)).
    change (Scenario.sleeps Polling (EvSleep Polling ?s :: [EvGet ?q] ++ ?t))
      with (s :: Scenario.sleeps Polling t).
    destruct (status_lower _) as [status | e];
      [| split; [eexists; reflexivity | split; [cbn; lia | repeat constructor]]].
    destruct (Py.str_mem status completed_words).
    + rewrite value_bind, trace_bind, sleeps_app.
      rewrite (download_no_sleep Polling _
                 (download_export_events (Batch.company_id batch) job_id export_dir w1)).
      destruct (value_of (download_export sys cfg (Batch.company_id batch) job_id
                            export_dir w1)) as [[[] filepath] filename];
        (split; [eexists; reflexivity | split; [cbn; lia | repeat constructor]]).
    + destruct (Py.str_mem status failed_words);
        [split; [eexists; reflexivity | split; [cbn; lia | repeat constructor]] |].
      destruct (IH (waited + Config.EXPORT_CHECK_INTERVAL cfg) fuel w1
                   ltac:(lia) (polls_left_next cfg rem waited Hleft))
        as (Hv & Hn & Hall).
      split; [exact Hv |]. split; [cbn [List.length]; lia |].
      constructor; [reflexivity | exact Hall].
Qed.

End ExportEnds.

Section ExportBatch.
Import World ApiClient Utils.
Context {W : Type} (sys : System W) (cfg : Config.t).

Lemma process_export_batch_outcome (fuel : nat) (batch : Batch.t)
  (report_format : Z) (report_type_name : string) (export_dir : option string) (w : W)
  (Hinterval : 0 < Config.EXPORT_CHECK_INTERVAL cfg)
  (Hfuel : (polls_needed cfg < fuel)%nat) :
  let run := process_export_batch sys cfg fuel batch report_format report_type_name
                                  export_dir w in
  exists (row : ExportRow.t) (ok : bool),
    value_of run = Some (row, ok)
    /\ ExportRow.Company row = Batch.company_name batch
    /\ ExportRow.GSTIN row = Batch.gstin batch
    /\ ExportRow.Period row = period_label batch
    /\ (if ok then
          ExportRow.Status row = "Success"
          /\ truthy (ExportRow.Job_ID row) = true
          /\ exists path size,
               ExportRow.Filepath row = Some path
               /\ fs_stat sys (world_of run) path = Some size /\ 0 < size
        else
          In (ExportRow.Status row) failure_statuses
          /\ ExportRow.Filepath row = None
          /\ ExportRow.Filename row = Some "")
    /\ (List.length (Scenario.sleeps Polling (trace_of run)) <= polls_needed cfg)%nat
    /\ Forall (fun secs => secs = Config.EXPORT_CHECK_INTERVAL cfg)
              (Scenario.sleeps Polling (trace_of run)).
Proof.
  intros run. subst run. unfold process_export_batch.
  rewrite value_bind, world_bind, trace_bind, sleeps_app.
  destruct (export_gst_report_events sys cfg report_type_name (Batch.company_id batch)
              (Batch.gstin batch) (Batch.start_period batch) (Batch.end_period batch)
              report_format w) as (t & Ht & Hall & _).
  rewrite Ht.
  change (Scenario.sleeps Polling (EvExport ?a ?b ?c ?d ?e ?f :: t))
    with (Scenario.sleeps Polling t).
  rewrite (transport_no_sleep_polling t Hall). cbn [app].
  pose proof (export_gst_report_result sys cfg report_type_name (Batch.company_id batch)
                (Batch.gstin batch) (Batch.start_period batch) (Batch.end_period batch)
                report_format w) as Hshape.
  set (w1 := world_of (export_gst_report sys cfg report_type_name (Batch.company_id batch)
                         (Batch.gstin batch) (Batch.start_period batch)
                         (Batch.end_period batch) report_format w)) in *.
  destruct (value_of (export_gst_report sys cfg report_type_name (Batch.company_id batch)
                        (Batch.gstin batch) (Batch.start_period batch)
                        (Batch.end_period batch) report_format w))
    as [[success job_id] error].
  destruct success, job_id as [j |], error as [e |]; cbn in Hshape; try contradiction;
    cbn [negb].
  - set (dir := match export_dir with
                | Some d => if String.eqb d "" then Config.EXPORT_OUTPUT_DIR cfg else d
                | None => Config.EXPORT_OUTPUT_DIR cfg
                end).
    set (result := set_job_id _ (job_of (Some j))).
    destruct (wait_for_export_ends sys cfg batch (job_of (Some j)) dir result
                (polls_needed cfg) 0 fuel w1 Hfuel (polls_left_start cfg Hinterval))
      as ((out & Hout) & Hn & Hsecs).
    pose proof (wait_for_export_outcome sys cfg batch (job_of (Some j)) dir result fuel
                  eq_refl eq_refl eq_refl eq_refl Hshape 0 w1 out Hout) as Hoc.
    destruct out as [row ok]. exists row, ok.
    unfold export_outcome in Hoc. destruct Hoc as (Hc & Hg & Hp & Hrest).
    repeat (split; [assumption |]). assumption.
  - eexists _, false. split; [reflexivity |].
    cbn. repeat split; try tauto; try lia. constructor.
Qed.

(** X13.  [process_export_batch] always comes to an end, and with one of five
    outcomes.  With a positive check interval it returns after at most
    [EXPORT_MAX_WAIT / EXPORT_CHECK_INTERVAL] (rounded up) polls, each
    after a pause of one interval.  The row it returns names the batch's
    company, GSTIN and period.  Either the flag is true, the status is
    [Success], the job id is set and the file named in the row is on disk
    with a positive size; or the flag is false, the status is one of
    [Failed to Create Job], [Download Failed], [Job Failed] and
    [Timeout], and the row names no file.  The status [Error] of the
    source's exception handler is never reached through a status
    snapshot. *)
Theorem process_export_batch_ends_with_an_outcome (fuel : nat) (batch : Batch.t)
  (report_format : Z) (report_type_name : string) (export_dir : option string) (w : W)
  (Hinterval : 0 < Config.EXPORT_CHECK_INTERVAL cfg)
  (Hfuel : (polls_needed cfg < fuel)%nat) :
  let run := process_export_batch sys cfg fuel batch report_format report_type_name
                                  export_dir w in
  exists (row : ExportRow.t) (ok : bool),
    value_of run = Some (row, ok)
    /\ ExportRow.Company row = Batch.company_name batch
    /\ ExportRow.GSTIN row = Batch.gstin batch
    /\ ExportRow.Period row = period_label batch
    /\ (if ok then
          ExportRow.Status row = "Success"
          /\ truthy (ExportRow.Job_ID row) = true
          /\ exists path size,
               ExportRow.Filepath row = Some path
               /\ fs_stat sys (world_of run) path = Some size /\ 0 < size
        else
          In (ExportRow.Status row) failure_statuses
          /\ ExportRow.Filepath row = None
          /\ ExportRow.Filename row = Some "")
    /\ (List.length (Scenario.sleeps Polling (trace_of run)) <= polls_needed cfg)%nat
    /\ Forall (fun secs => secs = Config.EXPORT_CHECK_INTERVAL cfg)
              (Scenario.sleeps Polling (trace_of run)).
Proof.
  apply process_export_batch_outcome; assumption.
Qed.

End ExportBatch.

(** A job that is processing for ever: sixty polls, then [Timeout]. *)
Lemma process_export_batch_ends_with_an_outcome_witness :
  exists (row : ExportRow.t) (ok : bool),
    World.value_of
      (Utils.process_export_batch Scenario.always_processing Config.config_py 61
         Scenario.acme_batch 101 "GSTR-2A" None tt) = Some (row, ok)
    /\ ok = false
    /\ ExportRow.Status row = "Timeout".
Proof.
  destruct (process_export_batch_ends_with_an_outcome Scenario.always_processing
              Config.config_py 61 Scenario.acme_batch 101 "GSTR-2A" None tt)
    as (row & ok & Hv & _); [reflexivity | vm_compute; lia |].
  exists row, ok. split; [exact Hv |].
  vm_compute in Hv. inversion Hv. split; reflexivity.
Defined.

(** ** The rows of a direct export *)

(** [r['Status'] != 'Success']. *)
Definition not_success (r : ExportRow.t) : bool :=
  negb (String.eqb (ExportRow.Status r) "Success").

(** The rows and the failed batches one batch of a direct export adds:
    one row, with the batch queued when the row is not a success; or the
    two rows [Job Failed] and [Timeout], with the batch queued twice. *)
Definition direct_record (batch : Batch.t) (rows : list ExportRow.t)
  (failed : list Batch.t) : Prop :=
  (exists r, rows = [r] /\ ExportRow.Status r = "Success" /\ failed = [])
  \/ (exists r, rows = [r]
                /\ In (ExportRow.Status r) failure_statuses /\ failed = [batch])
  \/ (exists r1 r2, rows = [r1; r2]
                    /\ ExportRow.Status r1 = "Job Failed"
                    /\ ExportRow.Status r2 = "Timeout"
                    /\ failed = [batch; batch]).

Section DirectRows.
Import World ApiClient Utils Main.
Context {W : Type} (sys : System W) (cfg : Config.t).
Variable selected_report : string.
Variable report_format : Z.

(** What the wait loop of the direct export can leave behind. *)
Lemma direct_wait_leaves (batch : Batch.t) (job_id : JVal) (fuel : nat) :
  forall (waited : Z) (w : W) (wt : Waited),
    value_of (direct_wait sys cfg selected_report report_format fuel waited batch job_id w)
      = Some wt ->
    (job_completed wt = true
     /\ direct_record batch (new_results wt) (new_failed wt)
     /\ List.length (new_results wt) = 1%nat)
    \/ (job_completed wt = false
        /\ exists r, new_results wt = [r] /\ ExportRow.Status r = "Job Failed"
                     /\ new_failed wt = [batch])
    \/ (job_completed wt = false /\ new_results wt = [] /\ new_failed wt = []
        /\ Config.EXPORT_MAX_WAIT cfg <= waited_for wt).
Proof.
  induction fuel as [| fuel IH]; intros waited w wt; [discriminate |].
  cbn [direct_wait].
  destruct (Z.ltb_spec waited (Config.EXPORT_MAX_WAIT cfg)) as [Hlt | Hge].
  - unfold sleep. rewrite emit_bind, value_mk, value_bind.
    set (js := value_of (check_job_status sys cfg (Batch.company_id batch) job_id w)).
    set (w1 := world_of (check_job_status sys cfg (Batch.company_id batch) job_id w)).
    destruct (is_str (get_default js "status" (JStr "unknown")) "completed"
              || is_code_100 (field js "jobStatus")).
    + rewrite value_bind.
      destruct (value_of (download_export sys cfg (Batch.company_id batch) job_id
                            (Config.EXPORT_OUTPUT_DIR cfg) w1))
        as [[[] filepath] filename];
        unfold ret, value_of; cbn [fst]; intros H; inversion H; subst wt; clear H;
        left; cbn; (split; [reflexivity |]); (split; [| reflexivity]).
      * left. eexists; repeat split.
      * right; left. eexists; repeat split. cbn; tauto.
    + destruct (is_str (get_default js "status" (JStr "unknown")) "failed"
                || is_str (get_default js "status" (JStr "unknown")) "error").
      * unfold ret, value_of; cbn [fst]; intros H; inversion H; subst wt; clear H.
        right; left. cbn. split; [reflexivity |]. eexists; repeat split.
      * apply IH.
  - unfold ret, value_of; cbn [fst]; intros H; inversion H; subst wt; clear H.
    right; right. cbn. repeat split. exact Hge.
Qed.

Lemma direct_export_one_record (fuel : nat) (batch : Batch.t) (w : W)
  (rows : list ExportRow.t) (failed : list Batch.t) :
  value_of (direct_export_one sys cfg selected_report report_format fuel batch w)
    = Some (rows, failed) ->
  direct_record batch rows failed.
Proof.
  unfold direct_export_one. rewrite value_bind.
  set (w1 := world_of (export_gst_report sys cfg selected_report (Batch.company_id batch)
                         (Batch.gstin batch) (Batch.start_period batch)
                         (Batch.end_period batch) report_format w)).
  destruct (value_of (export_gst_report sys cfg selected_report (Batch.company_id batch)
                        (Batch.gstin batch) (Batch.start_period batch)
                        (Batch.end_period batch) report_format w))
    as [[success job_id] error].
  destruct (success && truthy (job_of job_id)).
  - rewrite value_bind.
    pose proof (direct_wait_leaves batch (job_of job_id) fuel 0 w1) as Hwait.
    destruct (value_of (direct_wait sys cfg selected_report report_format fuel 0 batch
                          (job_of job_id) w1)) as [wt |]; [| discriminate].
    specialize (Hwait wt eq_refl).
    destruct Hwait as [(Hdone & Hrec & _) | [(Hdone & r & Hr & Hs & Hf)
                                            | (Hdone & Hr & Hf & Hlate)]];
      rewrite Hdone; cbn [negb andb].
    + unfold ret, value_of; cbn [fst]. intros H; inversion H; subst. exact Hrec.
    + destruct (Config.EXPORT_MAX_WAIT cfg <=? waited_for wt);
        unfold ret, value_of; cbn [fst]; intros H; inversion H; subst; clear H;
        rewrite Hr, Hf; cbn [app].
      * right; right. eexists _, _. repeat split. exact Hs.
      * right; left. exists r. repeat split. rewrite Hs. cbn; tauto.
    + assert (Hle : (Config.EXPORT_MAX_WAIT cfg <=? waited_for wt) = true)
        by (apply Z.leb_le; exact Hlate).
      rewrite Hle. unfold ret, value_of; cbn [fst]. intros H; inversion H; subst; clear H.
      rewrite Hr, Hf. cbn [app]. right; left. eexists; repeat split. cbn; tauto.
  - unfold ret, value_of; cbn [fst]. intros H; inversion H; subst; clear H.
    right; left. eexists; repeat split. cbn; tauto.
Qed.

End DirectRows.

Lemma direct_record_counts (batch : Batch.t) (rows : list ExportRow.t)
  (failed : list Batch.t) :
  direct_record batch rows failed ->
  (1 <= List.length rows <= 2)%nat
  /\ List.length failed = List.length (filter not_success rows)
  /\ Forall (fun b => b = batch) failed
  /\ Forall (fun r => In (ExportRow.Status r) ("Success" :: failure_statuses)) rows.
Proof.
  unfold failure_statuses.
  intros [(r & -> & Hs & ->) | [(r & -> & Hs & ->) | (r1 & r2 & -> & Hs1 & Hs2 & ->)]];
    cbn [List.length filter]; unfold not_success.
  - split; [lia |]. split; [rewrite Hs; reflexivity |]. split; [constructor |].
    constructor; [| constructor]. rewrite Hs. now left.
  - assert (Hne : String.eqb (ExportRow.Status r) "Success" = false).
    { cbn in Hs. repeat (destruct Hs as [Hs | Hs]; [rewrite <- Hs; reflexivity |]).
      contradiction. }
    split; [lia |]. split; [rewrite Hne; reflexivity |].
    split; [repeat constructor |].
    constructor; [| constructor]. now right.
  - split; [lia |]. split; [rewrite Hs1, Hs2; reflexivity |].
    split; [repeat constructor |].
    constructor; [rewrite Hs1; cbn; tauto |].
    constructor; [rewrite Hs2; cbn; tauto | constructor].
Qed.

Section DirectExportRun.
Import World ApiClient Utils Main.
Context {W : Type} (sys : System W) (cfg : Config.t).
Variable selected_report : string.
Variable report_format : Z.

Lemma export_loop_records (fuel : nat) (total : Z) (todo : list Batch.t) :
  forall (i : Z) (w : W) (rows : list ExportRow.t) (failed : list Batch.t),
    value_of (export_loop sys cfg selected_report report_format fuel i total todo w)
      = Some (rows, failed) ->
    (List.length todo <= List.length rows <= 2 * List.length todo)%nat
    /\ List.length failed = List.length (filter not_success rows)
    /\ Forall (fun b => In b todo) failed
    /\ Forall (fun r => In (ExportRow.Status r) ("Success" :: failure_statuses)) rows.
Proof.
  induction todo as [| batch rest IH]; intros i w rows failed.
  - unfold export_loop, ret, value_of; cbn [fst]. intros H; inversion H; subst.
    cbn. repeat split; try lia; constructor.
  - cbn [export_loop]. rewrite value_bind.
    pose proof (direct_export_one_record sys cfg selected_report report_format
                  fuel batch w) as Hone.
    destruct (value_of (direct_export_one sys cfg selected_report report_format
                          fuel batch w)) as [[rows1 failed1] |].
    + specialize (Hone rows1 failed1 eq_refl).
      apply direct_record_counts in Hone. destruct Hone as (Hn1 & Hf1 & Hb1 & Hs1).
      rewrite value_bind, value_bind.
      match goal with
      | |- context [export_loop _ _ _ _ _ ?j _ rest ?w'] =>
          pose proof (IH j w') as Hrest;
          destruct (value_of (export_loop sys cfg selected_report report_format
                                fuel j total rest w')) as [[rows2 failed2] |]
      end; [| discriminate].
      specialize (Hrest rows2 failed2 eq_refl).
      destruct Hrest as (Hn2 & Hf2 & Hb2 & Hs2).
      unfold ret, value_of; cbn [fst]. intros H; inversion H; subst; clear H.
      rewrite filter_app, !length_app. cbn [List.length].
      split; [lia |]. split; [lia |]. split.
      * apply Forall_app. split.
        -- eapply Forall_impl; [| exact Hb1]. intros b ->. now left.
        -- eapply Forall_impl; [| exact Hb2]. intros b Hb. now right.
      * now apply Forall_app.
    + rewrite value_bind, value_bind. cbv beta iota. discriminate.
Qed.

Lemma direct_wait_ends (batch : Batch.t) (job_id : JVal) :
  forall (rem : nat) (waited : Z) (fuel : nat) (w : W),
    (rem < fuel)%nat ->
    polls_left cfg rem waited ->
    exists wt,
      value_of (direct_wait sys cfg selected_report report_format fuel waited batch
                            job_id w) = Some wt.
Proof.
  induction rem as [| rem IH]; intros waited fuel w Hfuel Hleft;
    (destruct fuel as [| fuel]; [lia |]); cbn [direct_wait].
  - destruct Hleft as [Hle _].
    assert (Hend : (waited <? Config.EXPORT_MAX_WAIT cfg) = false)
      by (apply Z.ltb_ge; lia).
    rewrite Hend. eexists; reflexivity.
  - destruct (waited <? Config.EXPORT_MAX_WAIT cfg); [| eexists; reflexivity].
    unfold sleep. rewrite emit_bind, value_mk, value_bind.
    set (js := value_of (check_job_status sys cfg (Batch.company_id batch) job_id w)).
    set (w1 := world_of (check_job_status sys cfg (Batch.company_id batch) job_id w)).
    destruct (is_str (get_default js "status" (JStr "unknown")) "completed"
              || is_code_100 (field js "jobStatus")).
    + rewrite value_bind.
      destruct (value_of (download_export sys cfg (Batch.company_id batch) job_id
                            (Config.EXPORT_OUTPUT_DIR cfg) w1))
        as [[[] filepath] filename]; eexists; reflexivity.
    + destruct (is_str (get_default js "status" (JStr "unknown")) "failed"
                || is_str (get_default js "status" (JStr "unknown")) "error");
        [eexists; reflexivity |].
      apply (IH _ fuel w1); [lia | now apply polls_left_next].
Qed.

Lemma export_loop_ends (fuel : nat)
  (Hinterval : 0 < Config.EXPORT_CHECK_INTERVAL cfg)
  (Hfuel : (polls_needed cfg < fuel)%nat) (total : Z) (todo : list Batch.t) :
  forall (i : Z) (w : W),
    exists out,
      value_of (export_loop sys cfg selected_report report_format fuel i total todo w)
        = Some out.
Proof.
  induction todo as [| batch rest IH]; intros i w; [eexists; reflexivity |].
  cbn [export_loop]. rewrite value_bind.
  assert (Hone : exists one,
            value_of (direct_export_one sys cfg selected_report report_format
                        fuel batch w) = Some one).
  { unfold direct_export_one. rewrite value_bind.
    destruct (value_of (export_gst_report sys cfg selected_report _ _ _ _ _ w))
      as [[success job_id] error].
    destruct (success && truthy (job_of job_id)); [| eexists; reflexivity].
    rewrite value_bind.
    match goal with
    | |- context [direct_wait _ _ _ _ _ _ _ ?j ?w'] =>
        destruct (direct_wait_ends batch j (polls_needed cfg) 0 fuel w' Hfuel
                    (polls_left_start cfg Hinterval)) as (wt & Hwt)
    end.
    rewrite Hwt.
    destruct (negb (job_completed wt)
              && (Config.EXPORT_MAX_WAIT cfg <=? waited_for wt));
      eexists; reflexivity. }
  destruct Hone as ([rows1 failed1] & Hone). rewrite Hone.
  rewrite value_bind, value_bind.
  match goal with
  | |- context [export_loop _ _ _ _ _ ?j _ rest ?w'] =>
      destruct (IH j w') as ([rows2 failed2] & Hrest)
  end.
  rewrite Hrest. eexists; reflexivity.
Qed.

(** X14.  A direct export writes one or two rows per batch, not always one.
    With a positive check interval and fuel for the polls, the run
    returns.  A job that is reported as failed at the poll that also uses
    up the waiting budget gets a [Job Failed] row and a [Timeout] row, and
    its batch is queued twice.  So the rows number between the batches and
    twice the batches, every row has one of the five statuses, and the
    list of failed batches has exactly one entry per row that is not a
    [Success], each of them a batch of the run. *)
Theorem direct_export_rows_and_failures (fuel : nat) (export_batches : list Batch.t)
  (w : W)
  (Hinterval : 0 < Config.EXPORT_CHECK_INTERVAL cfg)
  (Hfuel : (polls_needed cfg < fuel)%nat) :
  exists rows failed,
    value_of (run_direct_export sys cfg selected_report report_format fuel
                export_batches w) = Some (rows, failed)
    /\ (List.length export_batches <= List.length rows
        <= 2 * List.length export_batches)%nat
    /\ List.length failed = List.length (filter not_success rows)
    /\ Forall (fun b => In b export_batches) failed
    /\ Forall (fun r => In (ExportRow.Status r) ("Success" :: failure_statuses)) rows.
Proof.
  unfold run_direct_export.
  destruct (export_loop_ends fuel Hinterval Hfuel
              (Z.of_nat (List.length export_batches)) export_batches 1 w)
    as ([rows failed] & Hrun).
  exists rows, failed. split; [exact Hrun |].
  now apply export_loop_records in Hrun.
Qed.

End DirectExportRun.

(** A job that is processing for 59 polls and fails at the 60th, when
    the 180 seconds are used up. *)
Definition fails_at_the_last_poll : Scenario.Scripted :=
  Scenario.start (Scenario.job_created "J5"
                  :: repeat (Scenario.status 1) 59 ++ [Scenario.status (-1)]).

Lemma direct_export_rows_and_failures_witness :
  exists rows failed,
    World.value_of
      (Main.run_direct_export Scenario.scripted Config.config_py "GSTR-2A" 101 61
         [Scenario.acme_batch] fails_at_the_last_poll) = Some (rows, failed)
    /\ map ExportRow.Status rows = ["Job Failed"; "Timeout"]
    /\ failed = [Scenario.acme_batch; Scenario.acme_batch].
Proof.
  destruct (direct_export_rows_and_failures Scenario.scripted Config.config_py
              "GSTR-2A" 101 61 [Scenario.acme_batch] fails_at_the_last_poll)
    as (rows & failed & Hv & _).
  - reflexivity.
  - vm_compute. lia.
  - exists rows, failed. split; [exact Hv |].
    vm_compute in Hv. inversion Hv. split; reflexivity.
Defined.

(** ** Periods as text *)

(** The calendar month before [d]. *)
Definition preceding (d : Utils.YearMonth) : Utils.YearMonth :=
  if Utils.month d =? 1 then Utils.mkYM (Utils.year d - 1) 12
  else Utils.mkYM (Utils.year d) (Utils.month d - 1).

Lemma digit_of_char (d : Z) : 0 <= d <= 9 -> Utils.digit_of (Utils.digit_char d) = Some d.
Proof.
  intros Hd. unfold Utils.digit_of, Utils.digit_char.
  rewrite nat_ascii_embedding by lia.
  assert (H1 : (48 <=? 48 + Z.to_nat d)%nat = true) by (apply Nat.leb_le; lia).
  assert (H2 : (48 + Z.to_nat d <=? 57)%nat = true) by (apply Nat.leb_le; lia).
  rewrite H1, H2. cbn [andb]. f_equal. lia.
Qed.

Section PeriodText.
Import Utils.

(** The digits of a year and of a month. *)
Lemma year_digits (y : Z) :
  0 <= y <= 9999 ->
  0 <= y / 1000 <= 9 /\ 0 <= y / 100 mod 10 <= 9 /\ 0 <= y / 10 mod 10 <= 9
  /\ 0 <= y mod 10 <= 9
  /\ 1000 * (y / 1000) + 100 * (y / 100 mod 10) + 10 * (y / 10 mod 10) + y mod 10 = y.
Proof.
  intros Hy.
  pose proof (Z.div_mod y 10 ltac:(lia)) as E1.
  pose proof (Z.mod_pos_bound y 10 ltac:(lia)) as B1.
  pose proof (Z.div_mod (y / 10) 10 ltac:(lia)) as E2.
  pose proof (Z.mod_pos_bound (y / 10) 10 ltac:(lia)) as B2.
  pose proof (Z.div_mod (y / 100) 10 ltac:(lia)) as E3.
  pose proof (Z.mod_pos_bound (y / 100) 10 ltac:(lia)) as B3.
  assert (H100 : y / 100 = y / 10 / 10) by (rewrite Z.div_div by lia; reflexivity).
  assert (H1000 : y / 1000 = y / 100 / 10) by (rewrite Z.div_div by lia; reflexivity).
  rewrite <- H100 in E2. rewrite <- H1000 in E3.
  assert (0 <= y / 1000 <= 9) by lia.
  repeat split; lia.
Qed.

(** Printing a date of the year 1000 or later and reading it again
    gives the date back, and the text is in the form
    [validate_period_format] accepts: seven characters, four digits, a
    dash and a month of two digits. *)
Lemma strptime_strftime (d : YearMonth) :
  valid_date d -> 1000 <= year d ->
  strptime (strftime d) = Returns d
  /\ validate_period_format (strftime d) = true
  /\ String.length (strftime d) = 7%nat.
Proof.
  intros Hv H1000.
  rewrite (strftime_digits d)
    by (unfold valid_date, MINYEAR, MAXYEAR in Hv; lia).
  revert Hv H1000.
  destruct d as [y m]. unfold valid_date, MINYEAR, MAXYEAR. cbn [year month].
  intros [Hy Hm] _.
  destruct (year_digits y ltac:(lia)) as (D1 & D2 & D3 & D4 & Hsum).
  assert (Hm10 : 0 <= m / 10 <= 1).
  { pose proof (Z.div_mod m 10 ltac:(lia)). pose proof (Z.mod_pos_bound m 10 ltac:(lia)).
    lia. }
  assert (Hmm : 0 <= m mod 10 <= 9) by (pose proof (Z.mod_pos_bound m 10 ltac:(lia)); lia).
  assert (Hmsum : 10 * (m / 10) + m mod 10 = m)
    by (pose proof (Z.div_mod m 10 ltac:(lia)); lia).
  unfold strptime, validate_period_format, parse_month.
  cbn [String.eqb orb andb].
  rewrite !digit_of_char by lia. rewrite Hsum.
  assert (Hmin : (y <? MINYEAR) = false) by (apply Z.ltb_ge; unfold MINYEAR; lia).
  rewrite Hmin.
  assert (Hcase : m / 10 = 0 \/ m / 10 = 1) by lia.
  destruct Hcase as [E | E]; rewrite E.
  - assert (H1 : (1 <=? m mod 10) = true) by (apply Z.leb_le; lia).
    rewrite H1. repeat split. do 2 f_equal. lia.
  - assert (H2 : (m mod 10 <=? 2) = true) by (apply Z.leb_le; lia).
    rewrite H2. repeat split. do 2 f_equal. lia.
Qed.

End PeriodText.

Section PeriodRange.
Import Utils.

Lemma strftime_injective (x y : YearMonth) :
  valid_date x -> valid_date y -> 1000 <= year x -> 1000 <= year y ->
  strftime x = strftime y -> x = y.
Proof.
  intros Hx Hy Yx Yy E.
  destruct (strptime_strftime x Hx Yx) as [Rx _].
  destruct (strptime_strftime y Hy Yy) as [Ry _].
  rewrite E in Rx. congruence.
Qed.

(** A date that comes no earlier than one of the year 1000 or later is
    of the year 1000 or later. *)
Lemma year_from_index (d x : YearMonth) :
  valid_date d -> valid_date x -> 1000 <= year d -> month_index d <= month_index x ->
  1000 <= year x.
Proof.
  unfold valid_date, month_index. intros [_ Hd] [_ Hx] Hy Hi. lia.
Qed.

(** A run of months that stays inside the calendar: its dates are
    valid, none comes before the first, and no date occurs twice. *)
Lemma months_run_distinct (n : nat) :
  forall d,
    valid_date d ->
    month_index d + Z.of_nat n - 1 <= month_index last_month ->
    Forall (fun x => valid_date x /\ month_index d <= month_index x) (months_run n d)
    /\ NoDup (months_run n d).
Proof.
  induction n as [| n IH]; intros d Hd Hend; cbn [months_run].
  - split; constructor.
  - destruct n as [| n].
    + cbn [months_run]. split.
      * constructor; [split; [assumption | lia] | constructor].
      * constructor; [intros [] | constructor].
    + destruct (following_spec d Hd ltac:(lia)) as (_ & Hv & Hi).
      destruct (IH (following d) Hv ltac:(lia)) as [Hall Hnd].
      split.
      * constructor; [split; [assumption | lia] |].
        eapply Forall_impl; [| exact Hall]. intros x [Vx Ix]. split; [assumption | lia].
      * constructor; [| exact Hnd].
        intros Hin. rewrite Forall_forall in Hall.
        destruct (Hall d Hin) as [_ Hle]. lia.
Qed.

(** X15.  The default period is the calendar month before today, written as
    a valid period: the month after it is today's, and the range from the
    default to the default is that one month.  (Stated from the year 1001
    on, where the year before is printed with four digits whatever the
    platform.) *)
Theorem default_period_is_the_month_before (today : YearMonth)
  (Hvalid : valid_date today) (Hyear : 1001 <= year today) :
  Periods.get_default_period today = Returns (strftime (preceding today))
  /\ following (preceding today) = today
  /\ validate_period_format (strftime (preceding today)) = true
  /\ generate_month_range (strftime (preceding today)) (strftime (preceding today))
     = Some (Returns [strftime (preceding today)]).
Proof.
  destruct today as [y m]. unfold valid_date, MINYEAR, MAXYEAR in Hvalid.
  cbn [year month] in *. destruct Hvalid as [Hy Hm].
  assert (Vp : valid_date (preceding (mkYM y m))).
  { unfold preceding, valid_date, MINYEAR, MAXYEAR. cbn [year month].
    destruct (Z.eqb_spec m 1); cbn [year month]; lia. }
  assert (Hbefore : month_index (preceding (mkYM y m)) < month_index last_month).
  { unfold preceding, month_index, last_month, MAXYEAR. cbn [year month].
    destruct (Z.eqb_spec m 1); cbn [year month]; lia. }
  assert (Yp : 1000 <= year (preceding (mkYM y m))).
  { unfold preceding. cbn [year month].
    destruct (Z.eqb_spec m 1); cbn [year month]; lia. }
  destruct (strptime_strftime _ Vp Yp) as (Hread & Hform & _).
  split; [| split; [| split; [exact Hform |]]].
  - unfold Periods.get_default_period, preceding. cbn [year month].
    destruct (Z.eqb_spec m 1); [| reflexivity].
    assert (Hmin : (y - 1 <? MINYEAR) = false) by (apply Z.ltb_ge; unfold MINYEAR; lia).
    now rewrite Hmin.
  - unfold preceding, following. cbn [year month].
    destruct (Z.eqb_spec m 1) as [-> | Hne]; cbn [year month].
    + cbn. f_equal. lia.
    + destruct (Z.eqb_spec (m - 1) 12); [lia |]. f_equal. lia.
  - destruct (generate_month_range_returns _ _ _ _ Hread Hread Hbefore Hbefore)
      as (Hrange & _).
    cbv zeta in Hrange. rewrite Hrange.
    replace (month_index (later (preceding (mkYM y m)) (preceding (mkYM y m)))
             - month_index (earlier (preceding (mkYM y m)) (preceding (mkYM y m))))
      with 0 by (unfold later, earlier; destruct (ym_gt _ _); lia).
    cbn [Z.to_nat months_run map]. unfold earlier. now destruct (ym_gt _ _).
Qed.

Lemma generate_month_range_normal (a b : string) (da db : YearMonth) :
  strptime a = Returns da ->
  strptime b = Returns db ->
  1000 <= year da ->
  1000 <= year db ->
  month_index da < month_index last_month ->
  month_index db < month_index last_month ->
  exists months,
    generate_month_range a b = Some (Returns months)
    /\ Forall (fun m => validate_period_format m = true /\ String.length m = 7%nat) months
    /\ NoDup months
    /\ months <> [].
Proof.
  intros Ha Hb Hya Hyb Hla Hlb.
  destruct (generate_month_range_returns a b da db Ha Hb Hla Hlb) as (Hab & _ & _).
  cbv zeta in Hab.
  pose proof (strptime_valid a da Ha) as Va.
  pose proof (strptime_valid b db Hb) as Vb.
  set (lo := earlier da db) in *. set (hi := later da db) in *.
  assert (Vlo : valid_date lo) by (unfold lo, earlier; now destruct (ym_gt da db)).
  assert (Ylo : 1000 <= year lo) by (unfold lo, earlier; now destruct (ym_gt da db)).
  assert (Hhi : month_index hi < month_index last_month)
    by (unfold hi, later; now destruct (ym_gt da db)).
  assert (Hle : month_index lo <= month_index hi).
  { unfold lo, hi, earlier, later. destruct (ym_gt da db) eqn:Hgt.
    - apply (ym_gt_index da db Va Vb) in Hgt. lia.
    - destruct (Z_le_gt_dec (month_index da) (month_index db)); [assumption |].
      assert (ym_gt da db = true) by (apply ym_gt_index; auto; lia). congruence. }
  destruct (months_run_distinct (S (Z.to_nat (month_index hi - month_index lo))) lo Vlo
              ltac:(lia)) as [Hall Hnd].
  eexists. split; [exact Hab |]. split; [| split].
  - apply Forall_map. eapply Forall_impl; [| exact Hall].
    intros x [Vx Ix].
    destruct (strptime_strftime x Vx (year_from_index lo x Vlo Vx Ylo Ix))
      as (_ & Hf & Hl).
    now split.
  - apply NoDup_map_NoDup_ForallPairs; [| exact Hnd].
    intros x y Hx Hy E. rewrite Forall_forall in Hall.
    destruct (Hall x Hx) as [Vx Ix]. destruct (Hall y Hy) as [Vy Iy].
    apply strftime_injective;
      [exact Vx | exact Vy | exact (year_from_index lo x Vlo Vx Ylo Ix)
       | exact (year_from_index lo y Vlo Vy Ylo Iy) | exact E].
  - discriminate.
Qed.

(** X16.  The months of a range are normalised and distinct.  For two
    periods of the years 1000 to 9999, before the last month of the
    calendar, in either form [strptime] accepts (a month of one digit
    included), every month of the list is written as
    [validate_period_format] wants it, with seven characters, and no
    month occurs twice.  (Below the year 1000 the months are printed
    without the leading zeros of the year.) *)
Theorem generate_month_range_is_normalised (a b : string) (da db : YearMonth)
  (Ha : strptime a = Returns da)
  (Hb : strptime b = Returns db)
  (Hya : 1000 <= year da)
  (Hyb : 1000 <= year db)
  (Hla : month_index da < month_index last_month)
  (Hlb : month_index db < month_index last_month) :
  exists months,
    generate_month_range a b = Some (Returns months)
    /\ Forall (fun m => validate_period_format m = true /\ String.length m = 7%nat) months
    /\ NoDup months.
Proof.
  destruct (generate_month_range_normal a b da db Ha Hb Hya Hyb Hla Hlb)
    as (months & Hr & Hall & Hnd & _).
  now exists months.
Qed.

End PeriodRange.

(** In January the default is December of the year before. *)
Lemma default_period_is_the_month_before_witness :
  Periods.get_default_period (Utils.mkYM 2025 1) = Utils.Returns "2024-12".
Proof.
  refine (proj1 (default_period_is_the_month_before (Utils.mkYM 2025 1) _ _)).
  - unfold valid_date, Utils.MINYEAR, Utils.MAXYEAR. cbn [Utils.year Utils.month]. lia.
  - cbn [Utils.year Utils.month]. lia.
Defined.

(** A start typed with a month of one digit. *)
Lemma generate_month_range_is_normalised_witness :
  exists months,
    Utils.generate_month_range "2024-4" "2024-06" = Some (Utils.Returns months)
    /\ Forall (fun m => Utils.validate_period_format m = true
                        /\ String.length m = 7%nat) months
    /\ NoDup months.
Proof.
  apply (generate_month_range_is_normalised "2024-4" "2024-06"
           (Utils.mkYM 2024 4) (Utils.mkYM 2024 6) eq_refl eq_refl).
  - cbn [Utils.year Utils.month]. lia.
  - cbn [Utils.year Utils.month]. lia.
  - vm_compute. reflexivity.
  - vm_compute. reflexivity.
Defined.

(** ** The report types the menus offer *)

Lemma enabled_names_lookup (reports : Py.dict Config.Report) (report_type : string) :
  NoDup (map fst reports) ->
  In report_type (map fst (filter (fun entry => Config.enabled (snd entry)) reports))
  <-> exists rep, Py.dict_get reports report_type = Some rep /\ Config.enabled rep = true.
Proof.
  induction reports as [| [k v] rest IH]; intros Hnd.
  - cbn. split; [contradiction | intros (rep & H & _); discriminate].
  - inversion Hnd as [| ? ? Hk Hrest]; subst. specialize (IH Hrest).
    cbn [filter snd Py.dict_get map fst] in *.
    destruct (String.eqb_spec report_type k) as [-> | Hne].
    + split.
      * intros Hin. destruct (Config.enabled v) eqn:Hv; [now exists v |].
        exfalso. apply Hk.
        apply in_map_iff in Hin. destruct Hin as ([k' v'] & Hfst & Hin).
        apply filter_In in Hin. destruct Hin as [Hin _].
        apply in_map_iff. exists (k', v'). split; [exact Hfst | exact Hin].
      * intros (rep & Hrep & Hon). inversion Hrep; subst rep. rewrite Hon. now left.
    + split.
      * intros Hin. apply IH.
        destruct (Config.enabled v); [| exact Hin].
        destruct Hin as [E | Hin]; [cbn in E; congruence | exact Hin].
      * intros Hex. apply IH in Hex.
        destruct (Config.enabled v); [right |]; exact Hex.
Qed.

(** X17.  The list of enabled reports and the check of the client agree: a
    report type is in [get_enabled_reports] exactly when the client does
    not refuse it before any request. *)
Theorem enabled_reports_are_the_ones_the_client_accepts (cfg : Config.t)
  (report_type : string)
  (Hkeys : NoDup (map fst (Config.GST_REPORTS cfg))) :
  In report_type (Reports.get_enabled_reports cfg)
  <-> unavailable cfg report_type = false.
Proof.
  unfold Reports.get_enabled_reports, unavailable.
  rewrite (enabled_names_lookup _ _ Hkeys).
  destruct (Py.dict_get (Config.GST_REPORTS cfg) report_type) as [rep |].
  - split.
    + intros (rep' & Hrep & Hon). inversion Hrep; subst. now rewrite Hon.
    + intros Hon. exists rep. split; [reflexivity |]. now destruct (Config.enabled rep).
  - split; [intros (rep' & Hrep & _); discriminate | discriminate].
Qed.

(** The shipped configuration offers GSTR-2A and nothing else. *)
Lemma enabled_reports_are_the_ones_the_client_accepts_witness :
  Reports.get_enabled_reports Config.config_py = ["GSTR-2A"]
  /\ unavailable Config.config_py "GSTR-2A" = false.
Proof.
  split; [reflexivity |].
  apply (enabled_reports_are_the_ones_the_client_accepts Config.config_py "GSTR-2A").
  - vm_compute. repeat constructor; cbn; intuition discriminate.
  - cbn. now left.
Defined.


Section MenuSelection.
Import World ApiClient.
Context {W : Type} (sys : System W) (cfg : Config.t).


End MenuSelection.


(** ** The export phase after a pull *)

(** The batch a row of [export_results] stands for, and the same of a
    batch. *)
Definition row_label (r : ExportRow.t) : string * string * string :=
  (ExportRow.Company r, ExportRow.GSTIN r, ExportRow.Period r).

Definition batch_label (batch : Batch.t) : string * string * string :=
  (Batch.company_name batch, Batch.gstin batch, Utils.period_label batch).

(** The statuses of the rows of an export phase. *)
Definition phase_statuses : list string :=
  "Success" :: "Success (Retry)" :: failure_statuses.

Lemma mark_retried_labels (rows : list ExportRow.t) (batch : Batch.t)
  (filename filepath : option string) (job_id : World.JVal) :
  map row_label (ExportPhase.mark_retried rows batch filename filepath job_id)
  = map row_label rows.
Proof.
  induction rows as [| r rest IH]; [reflexivity |].
  cbn [ExportPhase.mark_retried].
  destruct (String.eqb (ExportRow.Company r) (Batch.company_name batch)
            && String.eqb (ExportRow.Period r) (Utils.period_label batch));
    cbn [map]; [reflexivity | now rewrite IH].
Qed.

Lemma mark_retried_statuses (rows : list ExportRow.t) (batch : Batch.t)
  (filename filepath : option string) (job_id : World.JVal) :
  Forall (fun r => In (ExportRow.Status r) phase_statuses) rows ->
  Forall (fun r => In (ExportRow.Status r) phase_statuses)
         (ExportPhase.mark_retried rows batch filename filepath job_id).
Proof.
  induction 1 as [| r rest Hr Hrest IH]; [constructor |].
  cbn [ExportPhase.mark_retried].
  destruct (String.eqb (ExportRow.Company r) (Batch.company_name batch)
            && String.eqb (ExportRow.Period r) (Utils.period_label batch)).
  - constructor; [cbn; tauto | exact Hrest].
  - now constructor.
Qed.

(** The rows for [batches], each with a status of the phase. *)
Definition rows_of (batches : list Batch.t) (rows : list ExportRow.t) : Prop :=
  map row_label rows = map batch_label batches
  /\ Forall (fun r => In (ExportRow.Status r) phase_statuses) rows.

Section ExportPhaseRows.
Import World ApiClient Utils ExportPhase.
Context {W : Type} (sys : System W) (cfg : Config.t).
Variable EXPORT_RETRY_FAILED : bool.
Variable EXPORT_RETRY_TIMEOUT : Z.
Variable report_type : Z.
Variable report_type_name : string.
Variable export_dir : string.

Lemma first_pass_rows (fuel : nat)
  (Hinterval : 0 < Config.EXPORT_CHECK_INTERVAL cfg)
  (Hfuel : (polls_needed cfg < fuel)%nat) (total : Z) (todo : list Batch.t) :
  forall (i : Z) (w : W),
    exists rows failed,
      value_of (first_pass sys cfg report_type fuel i total todo w) = Some (rows, failed)
      /\ rows_of todo rows.
Proof.
  induction todo as [| batch rest IH]; intros i w.
  - exists [], []. split; [reflexivity |]. split; [reflexivity | constructor].
  - cbn [first_pass]. rewrite value_bind.
    destruct (process_export_batch_outcome sys cfg fuel batch report_type "GSTR-2A"
                None w Hinterval Hfuel)
      as (row & ok & Hv & Hc & Hg & Hp & Hstatus & _).
    cbv zeta in Hv. rewrite Hv. rewrite value_bind, value_bind.
    match goal with
    | |- context [first_pass _ _ _ _ ?j _ rest ?w'] =>
        destruct (IH j w') as (rows & failed & Hrest & Hlabels & Hall)
    end.
    rewrite Hrest. eexists _, _. split; [reflexivity |]. split.
    + cbn [map]. unfold row_label at 1, batch_label at 1.
      now rewrite Hc, Hg, Hp, Hlabels.
    + constructor; [| exact Hall].
      unfold phase_statuses.
      destruct ok; [destruct Hstatus as [-> _]; cbn; tauto |].
      destruct Hstatus as [Hin _]. now do 2 right.
Qed.

Lemma retry_wait_ends (batch : Batch.t) (job_id : JVal) (rows : list ExportRow.t)
  (fuel : nat) :
  forall (waited : Z) (w : W),
    (0 < fuel)%nat ->
    EXPORT_RETRY_TIMEOUT - waited <= 10 * (Z.of_nat fuel - 1) ->
    exists rows',
      value_of (retry_wait sys cfg EXPORT_RETRY_TIMEOUT export_dir fuel waited batch
                           job_id rows w) = Some rows'
      /\ (rows' = rows
          \/ exists filename filepath,
               rows' = mark_retried rows batch filename filepath job_id).
Proof.
  induction fuel as [| fuel IH]; intros waited w Hpos Hleft; [lia |].
  cbn [retry_wait].
  destruct (Z.ltb_spec waited EXPORT_RETRY_TIMEOUT) as [Hlt | Hge];
    [| exists rows; split; [reflexivity | now left]].
  unfold sleep. rewrite emit_bind, value_mk, value_bind.
  set (w1 := world_of (check_job_status sys cfg (Batch.company_id batch) job_id w)).
  destruct (status_lower _) as [status | e];
    [| exists rows; split; [reflexivity | now left]].
  destruct (Py.str_mem status completed_words).
  - rewrite value_bind.
    destruct (value_of (download_export sys cfg (Batch.company_id batch) job_id
                          export_dir w1)) as [[[] filepath] filename].
    + eexists. split; [reflexivity |]. right. now exists filename, filepath.
    + exists rows. split; [reflexivity | now left].
  - destruct (Py.str_mem status ["failed"; "error"]);
      [exists rows; split; [reflexivity | now left] |].
    apply IH; lia.
Qed.

Lemma retry_exports_rows (batches : list Batch.t) (fuel : nat)
  (Hpos : (0 < fuel)%nat)
  (Hretry : EXPORT_RETRY_TIMEOUT <= 10 * (Z.of_nat fuel - 1))
  (failed : list Batch.t) :
  forall (rows : list ExportRow.t) (w : W),
    rows_of batches rows ->
    exists rows',
      value_of (retry_exports sys cfg EXPORT_RETRY_TIMEOUT report_type report_type_name
                              export_dir fuel failed rows w) = Some rows'
      /\ rows_of batches rows'.
Proof.
  induction failed as [| batch rest IH]; intros rows w Hrows.
  - exists rows. split; [reflexivity | exact Hrows].
  - cbn [retry_exports]. rewrite value_bind.
    assert (Hone : exists rows',
              value_of (retry_export sys cfg EXPORT_RETRY_TIMEOUT report_type
                          report_type_name export_dir fuel batch rows w) = Some rows'
              /\ rows_of batches rows').
    { unfold retry_export. rewrite value_bind.
      destruct (value_of (export_gst_report sys cfg report_type_name _ _ _ _ _ w))
        as [[success job_id] error].
      destruct (success && truthy (job_of job_id));
        [| exists rows; split; [reflexivity | exact Hrows]].
      match goal with
      | |- context [retry_wait _ _ _ _ _ _ _ ?j _ ?w'] =>
          destruct (retry_wait_ends batch j rows fuel 0 w' Hpos ltac:(lia))
            as (rows' & Hv & Hcase)
      end.
      exists rows'. split; [exact Hv |].
      destruct Hcase as [-> | (filename & filepath & ->)]; [exact Hrows |].
      destruct Hrows as [Hl Hs]. split.
      - now rewrite mark_retried_labels.
      - now apply mark_retried_statuses. }
    destruct Hone as (rows' & Hv & Hrows'). rewrite Hv. now apply IH.
Qed.

End ExportPhaseRows.

Section ExportPhaseRun.
Import World ApiClient Utils ExportPhase.
Context {W : Type} (sys : System W) (cfg : Config.t).

(** X19.  The export phase ends with one row per batch, in the order of the
    batches.  With a positive check interval and fuel for the polls of
    both loops, [run_export_phase] returns, and row [i] of
    [export_results] names the company, the GSTIN and the period of batch
    [i]: the retry pass adds no row and drops none, it only marks rows as
    [Success (Retry)].  Every row has one of the six statuses [Success],
    [Success (Retry)], [Failed to Create Job], [Download Failed],
    [Job Failed] and [Timeout]. *)
Theorem export_phase_keeps_one_row_per_batch
  (EXPORT_RETRY_FAILED : bool) (EXPORT_RETRY_TIMEOUT report_type : Z)
  (report_type_name export_dir : string) (fuel : nat) (export_batches : list Batch.t)
  (w : W)
  (Hinterval : 0 < Config.EXPORT_CHECK_INTERVAL cfg)
  (Hfuel : (polls_needed cfg < fuel)%nat)
  (Hretry : EXPORT_RETRY_TIMEOUT <= 10 * (Z.of_nat fuel - 1)) :
  exists export_results,
    value_of (run_export_phase sys cfg EXPORT_RETRY_FAILED EXPORT_RETRY_TIMEOUT
                report_type report_type_name export_dir fuel export_batches w)
      = Some export_results
    /\ map row_label export_results = map batch_label export_batches
    /\ Forall (fun r => In (ExportRow.Status r) phase_statuses) export_results.
Proof.
  unfold run_export_phase. rewrite value_bind.
  destruct (first_pass_rows sys cfg report_type fuel Hinterval Hfuel
              (Z.of_nat (List.length export_batches)) export_batches 1 w)
    as (rows & failed & Hv & Hrows).
  rewrite Hv.
  destruct (EXPORT_RETRY_FAILED && match failed with [] => false | _ => true end);
    [| exists rows; split; [reflexivity | exact Hrows]].
  apply (retry_exports_rows sys cfg EXPORT_RETRY_TIMEOUT report_type report_type_name
           export_dir export_batches fuel ltac:(lia) Hretry failed rows _ Hrows).
Qed.

End ExportPhaseRun.

(** A job that never ends: [Timeout] in the first pass, a second job
    in the retry pass, and still the one row. *)
Lemma export_phase_keeps_one_row_per_batch_witness :
  exists export_results,
    World.value_of
      (ExportPhase.run_export_phase Scenario.always_processing Config.config_py
         true 180 101 "GSTR-2A" "output/exports" 61 [Scenario.acme_batch] tt)
      = Some export_results
    /\ map row_label export_results = [batch_label Scenario.acme_batch]
    /\ Forall (fun r => In (ExportRow.Status r) phase_statuses) export_results.
Proof.
  apply (export_phase_keeps_one_row_per_batch Scenario.always_processing Config.config_py
           true 180 101 "GSTR-2A" "output/exports" 61 [Scenario.acme_batch] tt).
  - reflexivity.
  - vm_compute. lia.
  - vm_compute. discriminate.
Defined.

(** A file written at [Path(dir) / filename] for a file name that is
    not empty: in [dir] for a plain name ([path_join_plain]), elsewhere
    for an absolute name ([path_join_absolute]). *)
Definition joined_to (dir path : string) : Prop :=
  exists filename, path = ApiClient.path_join dir filename /\ filename <> "".

(** A trace whose posts all go to [url] and whose files are all written
    at a join of [dir] and a file name. *)
Definition goes_to (url dir : string) (t : list World.Event) : Prop :=
  Forall (fun p => World.post_url p = url) (Scenario.posts t)
  /\ Forall (joined_to dir) (writes t).

Lemma writes_app (t1 t2 : list World.Event) : writes (t1 ++ t2) = writes t1 ++ writes t2.
Proof. unfold writes. apply flat_map_app. Qed.

Lemma posts_app (t1 t2 : list World.Event) :
  Scenario.posts (t1 ++ t2) = Scenario.posts t1 ++ Scenario.posts t2.
Proof. unfold Scenario.posts. apply flat_map_app. Qed.

Lemma goes_to_nil (url dir : string) : goes_to url dir [].
Proof. split; constructor. Qed.

Lemma goes_to_app (url dir : string) (t1 t2 : list World.Event) :
  goes_to url dir t1 -> goes_to url dir t2 -> goes_to url dir (t1 ++ t2).
Proof.
  intros [P1 W1] [P2 W2]. unfold goes_to. rewrite posts_app, writes_app.
  split; now apply Forall_app.
Qed.

Lemma goes_to_quiet (url dir : string) (e : World.Event) (t : list World.Event) :
  match e with World.EvPost _ | World.EvWrite _ => False | _ => True end ->
  goes_to url dir t -> goes_to url dir (e :: t).
Proof.
  intros He Ht. destruct e; try contradiction; exact Ht.
Qed.

Lemma transport_no_write (t : list World.Event) :
  Forall transport_event t -> writes t = [].
Proof.
  induction 1 as [| e t He _ IH]; [reflexivity |].
  destruct e as [| | r | r | [] secs | p]; cbn in He; try contradiction; exact IH.
Qed.

Section ExportTraces.
Import World ApiClient Utils.
Context {W : Type} (sys : System W) (cfg : Config.t).

Lemma download_export_goes_to (url : string) (company_id : string) (job_id : JVal)
  (output_dir : string) (w : W) :
  goes_to url output_dir (trace_of (download_export sys cfg company_id job_id output_dir w)).
Proof.
  unfold download_export. rewrite trace_bind, check_job_status_trace.
  apply goes_to_quiet; [exact I |].
  set (snapshot := value_of (check_job_status sys cfg company_id job_id w)).
  set (w1 := world_of (check_job_status sys cfg company_id job_id w)).
  destruct (is_code_100 (field snapshot "jobStatus")
            || is_str (field snapshot "status") "completed"); [| apply goes_to_nil].
  destruct (negb (truthy (field snapshot "url"))); [apply goes_to_nil |].
  destruct (field snapshot "url") as [| b | z | link]; try apply goes_to_nil.
  rewrite trace_bind, trace_get, value_get, world_get.
  apply goes_to_quiet; [exact I |].
  destruct (fst (session_get sys w1 (mkGet link None))) as [r | e | e | e];
    try apply goes_to_nil.
  destruct (negb (status_code r =? 200)); [apply goes_to_nil |].
  match goal with
  | |- goes_to _ _ (trace_of (save_and_verify _ ?d ?f ?b ?w')) =>
      destruct (save_and_verify_trace sys d f b w') as [[Ht _] | Ht]; rewrite Ht;
      [apply goes_to_nil |];
      split; [constructor |]; constructor; [| constructor];
      exists f; split; [reflexivity | apply resolve_filename_nonempty]
  end.
Qed.

Lemma export_gst_report_goes_to (dir : string)
  (report_type company_id gstin start_period end_period : string)
  (report_format : Z) (w : W) :
  goes_to (export_endpoint_of cfg report_type) dir
          (trace_of (export_gst_report sys cfg report_type company_id gstin
                       start_period end_period report_format w)).
Proof.
  split.
  - destruct (export_gst_report_posts sys cfg report_type company_id gstin
                start_period end_period report_format w) as (k & _ & Hp).
    rewrite Hp. apply Forall_forall. intros p Hin. apply repeat_spec in Hin. now subst p.
  - destruct (export_gst_report_events sys cfg report_type company_id gstin
                start_period end_period report_format w) as (t & Ht & Hall & _).
    rewrite Ht. change (writes (EvExport ?a ?b ?c ?d ?e ?f :: t)) with (writes t).
    rewrite (transport_no_write t Hall). constructor.
Qed.

Lemma wait_for_export_goes_to (url : string) (batch : Batch.t) (job_id : JVal)
  (export_dir : string) (result : ExportRow.t) (fuel : nat) :
  forall (waited : Z) (w : W),
    goes_to url export_dir
      (trace_of (wait_for_export sys cfg fuel waited batch job_id export_dir result w)).
Proof.
  induction fuel as [| fuel IH]; intros waited w; [apply goes_to_nil |].
  cbn [wait_for_export].
  destruct (waited <? Config.EXPORT_MAX_WAIT cfg); [| apply goes_to_nil].
  unfold sleep. rewrite emit_bind, trace_mk. apply goes_to_quiet; [exact I |].
  rewrite trace_bind, check_job_status_trace. apply goes_to_quiet; [exact I |].
  destruct (status_lower _) as [status | e]; [| apply goes_to_nil].
  destruct (Py.str_mem status completed_words).
  - rewrite trace_bind. apply goes_to_app; [apply download_export_goes_to |].
    destruct (value_of (download_export sys cfg _ _ _ _)) as [[[] filepath] filename];
      apply goes_to_nil.
  - destruct (Py.str_mem status failed_words); [apply goes_to_nil | apply IH].
Qed.

Lemma process_export_batch_goes_to (fuel : nat) (batch : Batch.t) (report_format : Z)
  (report_type_name : string) (export_dir : option string) (w : W) :
  goes_to (export_endpoint_of cfg report_type_name)
          (match export_dir with
           | Some d => if String.eqb d "" then Config.EXPORT_OUTPUT_DIR cfg else d
           | None => Config.EXPORT_OUTPUT_DIR cfg
           end)
          (trace_of (process_export_batch sys cfg fuel batch report_format
                       report_type_name export_dir w)).
Proof.
  unfold process_export_batch. rewrite trace_bind.
  apply goes_to_app; [apply export_gst_report_goes_to |].
  destruct (value_of (export_gst_report sys cfg _ _ _ _ _ _ w))
    as [[success job_id] error].
  destruct (negb success); [apply goes_to_nil | apply wait_for_export_goes_to].
Qed.

End ExportTraces.

Section ExportPhaseTraces.
Import World ApiClient Utils ExportPhase.
Context {W : Type} (sys : System W) (cfg : Config.t).
Variable EXPORT_RETRY_TIMEOUT : Z.
Variable report_type : Z.
Variable report_type_name : string.
Variable export_dir : string.

Lemma first_pass_goes_to (fuel : nat) (total : Z) (todo : list Batch.t) :
  forall (i : Z) (w : W),
    goes_to (export_endpoint_of cfg "GSTR-2A") (Config.EXPORT_OUTPUT_DIR cfg)
            (trace_of (first_pass sys cfg report_type fuel i total todo w)).
Proof.
  induction todo as [| batch rest IH]; intros i w; [apply goes_to_nil |].
  cbn [first_pass]. rewrite trace_bind.
  apply goes_to_app;
    [apply (process_export_batch_goes_to sys cfg fuel batch report_type "GSTR-2A" None) |].
  rewrite trace_bind. apply goes_to_app.
  { destruct (i <? total); [| apply goes_to_nil].
    apply goes_to_quiet; [exact I | apply goes_to_nil]. }
  rewrite trace_bind. apply goes_to_app; [apply IH |].
  repeat branch; apply goes_to_nil.
Qed.

Lemma retry_wait_goes_to (url : string) (batch : Batch.t) (job_id : JVal) (fuel : nat) :
  forall (waited : Z) (rows : list ExportRow.t) (w : W),
    goes_to url export_dir
      (trace_of (retry_wait sys cfg EXPORT_RETRY_TIMEOUT export_dir fuel waited batch
                            job_id rows w)).
Proof.
  induction fuel as [| fuel IH]; intros waited rows w; [apply goes_to_nil |].
  cbn [retry_wait].
  destruct (waited <? EXPORT_RETRY_TIMEOUT); [| apply goes_to_nil].
  unfold sleep. rewrite emit_bind, trace_mk. apply goes_to_quiet; [exact I |].
  rewrite trace_bind, check_job_status_trace. apply goes_to_quiet; [exact I |].
  destruct (status_lower _) as [status | e]; [| apply goes_to_nil].
  destruct (Py.str_mem status completed_words).
  - rewrite trace_bind. apply goes_to_app; [apply download_export_goes_to |].
    destruct (value_of (download_export sys cfg _ _ _ _)) as [[[] filepath] filename];
      apply goes_to_nil.
  - destruct (Py.str_mem status ["failed"; "error"]); [apply goes_to_nil | apply IH].
Qed.

Lemma retry_exports_goes_to (fuel : nat) (failed : list Batch.t) :
  forall (rows : list ExportRow.t) (w : W),
    goes_to (export_endpoint_of cfg report_type_name) export_dir
      (trace_of (retry_exports sys cfg EXPORT_RETRY_TIMEOUT report_type report_type_name
                               export_dir fuel failed rows w)).
Proof.
  induction failed as [| batch rest IH]; intros rows w; [apply goes_to_nil |].
  cbn [retry_exports]. rewrite trace_bind. apply goes_to_app.
  - unfold retry_export. rewrite trace_bind.
    apply goes_to_app; [apply export_gst_report_goes_to |].
    destruct (value_of (export_gst_report sys cfg _ _ _ _ _ _ w))
      as [[success job_id] error].
    destruct (success && truthy (job_of job_id));
      [apply retry_wait_goes_to | apply goes_to_nil].
  - destruct (value_of (retry_export sys cfg _ _ _ _ _ _ _ w)) as [rows' |];
      [apply IH | apply goes_to_nil].
Qed.

(** X20.  The two passes of the export phase do not ask for the same report.
    The first pass calls [process_export_batch] without the report type
    read from the pull results and without the chosen directory: all its
    posts go to the export endpoint of GSTR-2A and each of its files is
    written at the join of [EXPORT_OUTPUT_DIR] and the file name of the
    download.  The retry pass posts to the export endpoint of the report
    type of the pull results and writes each file at the join of the
    chosen directory and the file name of the download.  (The join is the
    one of [pathlib]: the file is in the directory for a plain name, not
    for an absolute name or one with [..].) *)
Theorem export_phase_passes_differ (fuel : nat) (export_batches failed : list Batch.t)
  (rows : list ExportRow.t) (w w' : W) :
  let first :=
    trace_of (first_pass sys cfg report_type fuel 1
                (Z.of_nat (List.length export_batches)) export_batches w) in
  let retry :=
    trace_of (retry_exports sys cfg EXPORT_RETRY_TIMEOUT report_type report_type_name
                export_dir fuel failed rows w') in
  Forall (fun p => post_url p = export_endpoint_of cfg "GSTR-2A") (Scenario.posts first)
  /\ Forall (joined_to (Config.EXPORT_OUTPUT_DIR cfg)) (writes first)
  /\ Forall (fun p => post_url p = export_endpoint_of cfg report_type_name)
            (Scenario.posts retry)
  /\ Forall (joined_to export_dir) (writes retry).
Proof.
  cbv zeta.
  destruct (first_pass_goes_to fuel (Z.of_nat (List.length export_batches))
              export_batches 1 w) as [P1 W1].
  destruct (retry_exports_goes_to fuel failed rows w') as [P2 W2].
  repeat split; assumption.
Qed.

End ExportPhaseTraces.

(** The test of the update loop of the export retries: the company name
    and the period, and nothing else. *)
Definition names_batch (r : ExportRow.t) (batch : Batch.t) : bool :=
  String.eqb (ExportRow.Company r) (Batch.company_name batch)
  && String.eqb (ExportRow.Period r) (Utils.period_label batch).

(** The row after the update. *)
Definition retried (r : ExportRow.t) (filename filepath : option string)
  (job_id : World.JVal) : ExportRow.t :=
  ExportRow.mk (ExportRow.Company r) (ExportRow.GSTIN r) (ExportRow.Period r)
               job_id filename filepath "Success (Retry)" (ExportRow.Error r)
               (ExportRow.Report_Type r) (ExportRow.Report_Format r).

(** X21.  A successful export retry rewrites one row: the first row of
    [export_results] with the company name and the period of the batch.
    The loop looks neither at the status of the row nor at its GSTIN, so
    the row it rewrites need not be the row of the batch that failed: a
    row before it with the same name and period is taken instead, even a
    [Success]. *)
Theorem export_retry_marks_the_first_namesake (l1 l2 : list ExportRow.t)
  (r : ExportRow.t) (batch : Batch.t) (filename filepath : option string)
  (job_id : World.JVal)
  (Hbefore : Forall (fun x => names_batch x batch = false) l1)
  (Hrow : names_batch r batch = true) :
  ExportPhase.mark_retried (l1 ++ r :: l2) batch filename filepath job_id
  = l1 ++ retried r filename filepath job_id :: l2.
Proof.
  induction Hbefore as [| x l1 Hx _ IH]; cbn [app ExportPhase.mark_retried].
  - unfold names_batch in Hrow. now rewrite Hrow.
  - unfold names_batch in Hx. rewrite Hx. now rewrite IH.
Qed.

(** Two companies called Acme: the export of the first succeeded, the
    export of the second timed out.  The retry of the second rewrites the
    row of the first. *)
Lemma export_retry_marks_the_first_namesake_witness :
  let first := ExportRow.mk "Acme" "19AADCG0737G1ZQ" "2024-04 to 2024-06"
                 (World.JStr "J1") (Some "a.xlsx") (Some "output/exports/a.xlsx")
                 "Success" World.JNull (World.JInt 101) None in
  let second := ExportRow.mk "Acme" "27AAACA1111A1Z5" "2024-04 to 2024-06"
                  (World.JStr "J2") (Some "") None "Timeout" World.JNull
                  (World.JInt 101) None in
  let batch := Batch.mk "oc-4000" "Acme" "27AAACA1111A1Z5" "2024-04" "2024-06" in
  ExportPhase.mark_retried [first; second] batch (Some "b.xlsx")
    (Some "output/exports/b.xlsx") (World.JStr "J3")
  = [retried first (Some "b.xlsx") (Some "output/exports/b.xlsx") (World.JStr "J3");
     second].
Proof.
  intros first second batch.
  exact (export_retry_marks_the_first_namesake [] [second] first batch (Some "b.xlsx")
           (Some "output/exports/b.xlsx") (World.JStr "J3") (Forall_nil _) eq_refl).
Defined.
(** ** The batches of the export phase *)


Section BatchCoverage.
Import Batches.




End BatchCoverage.
(** A batch whose two periods [strptime] reads, as months of the years
    1000 to 9999 before the last month of the calendar. *)
Definition readable (batch : Batch.t) : Prop :=
  exists start_date end_date,
    Utils.strptime (Batch.start_period batch) = Utils.Returns start_date
    /\ Utils.strptime (Batch.end_period batch) = Utils.Returns end_date
    /\ 1000 <= Utils.year start_date /\ 1000 <= Utils.year end_date
    /\ month_index start_date < month_index last_month
    /\ month_index end_date < month_index last_month.

(** The calendar months of a batch: from the earlier of its two periods
    to the later, each the month after the one before. *)
Definition batch_months (batch : Batch.t) : list Utils.YearMonth :=
  match Utils.strptime (Batch.start_period batch),
        Utils.strptime (Batch.end_period batch) with
  | Utils.Returns start_date, Utils.Returns end_date =>
      months_run
        (S (Z.to_nat (month_index (later start_date end_date)
                      - month_index (earlier start_date end_date))))
        (earlier start_date end_date)
  | _, _ => []
  end.

(** The batches that take the place of [batch]: one for each of its
    months, with the company of [batch] and the month, printed, as start
    and as end. *)
Definition single_months (batch : Batch.t) : list Batch.t :=
  map (fun d => Batches.month_batch batch (Utils.strftime d)) (batch_months batch).

(** A batch of one month, written as [validate_period_format] wants
    it. *)
Definition one_month (b : Batch.t) : Prop :=
  Batch.start_period b = Batch.end_period b
  /\ Utils.validate_period_format (Batch.start_period b) = true
  /\ String.length (Batch.start_period b) = 7%nat.

Section SplitByMonth.
Import Batches.

Lemma readable_range (batch : Batch.t) :
  readable batch ->
  Utils.generate_month_range (Batch.start_period batch) (Batch.end_period batch)
  = Some (Utils.Returns (map Utils.strftime (batch_months batch)))
  /\ Forall (fun m => Utils.validate_period_format m = true /\ String.length m = 7%nat)
            (map Utils.strftime (batch_months batch))
  /\ batch_months batch <> [].
Proof.
  intros (da & db & Ha & Hb & Hya & Hyb & Hla & Hlb).
  destruct (generate_month_range_returns _ _ da db Ha Hb Hla Hlb) as (Hrange & _ & _).
  cbv zeta in Hrange.
  destruct (generate_month_range_normal _ _ da db Ha Hb Hya Hyb Hla Hlb)
    as (months & Hrange' & Hform & _ & _).
  unfold batch_months. rewrite Ha, Hb.
  split; [exact Hrange |]. split; [| discriminate].
  rewrite Hrange in Hrange'. injection Hrange' as <-. exact Hform.
Qed.

Lemma split_by_month_months (export_batches : list Batch.t) :
  Forall readable export_batches ->
  split_by_month export_batches
  = Some (Utils.Returns (flat_map single_months export_batches)).
Proof.
  induction 1 as [| batch rest Hbatch Hrest IH]; [reflexivity |].
  destruct (readable_range batch Hbatch) as (Hrange & _ & _).
  cbn [split_by_month flat_map]. rewrite Hrange, IH.
  unfold single_months at 1. now rewrite map_map.
Qed.

Lemma single_months_one_month (batch : Batch.t) :
  readable batch -> Forall one_month (single_months batch) /\ single_months batch <> [].
Proof.
  intros Hbatch. destruct (readable_range batch Hbatch) as (_ & Hform & Hne).
  unfold single_months. split.
  - rewrite Forall_map in Hform. apply Forall_map.
    eapply Forall_impl; [| exact Hform].
    intros d [Hv Hl]. unfold one_month, month_batch.
    cbn [Batch.start_period Batch.end_period]. now repeat split.
  - destruct (batch_months batch); [contradiction | discriminate].
Qed.

(** X24.  Strategy 2 of the direct export splits every batch into its months.
    For batches whose periods are readable (years 1000 to 9999, before
    the last month of the calendar) the adjustment returns the batches in
    their order, each replaced by one batch for every calendar month from
    the earlier of its periods to the later, with the company of the
    batch it replaces; every new batch has one month as both its start
    and its end, in the form [validate_period_format] accepts, and every
    old batch is replaced by at least one.  Strategy 3 (quarterly)
    changes nothing. *)
Theorem monthly_split_gives_single_months (export_batches : list Batch.t)
  (Hreadable : Forall readable export_batches) :
  adjust_batches "2" export_batches
  = Some (Utils.Returns (flat_map single_months export_batches))
  /\ Forall (fun batch => Forall one_month (single_months batch)
                          /\ single_months batch <> []) export_batches
  /\ adjust_batches "3" export_batches = Some (Utils.Returns export_batches).
Proof.
  split; [| split; [| reflexivity]].
  - change (adjust_batches "2" export_batches) with (split_by_month export_batches).
    now apply split_by_month_months.
  - eapply Forall_impl; [| exact Hreadable].
    intros batch. apply single_months_one_month.
Qed.

End SplitByMonth.

(** A quarter typed with months of one digit, the later month first:
    three batches, from April on, with the months written out. *)
Lemma monthly_split_gives_single_months_witness :
  Batches.adjust_batches "2"
    [Batch.mk "oc-3372" "Acme" "19AADCG0737G1ZQ" "2024-6" "2024-4"]
  = Some (Utils.Returns
            [Batch.mk "oc-3372" "Acme" "19AADCG0737G1ZQ" "2024-04" "2024-04";
             Batch.mk "oc-3372" "Acme" "19AADCG0737G1ZQ" "2024-05" "2024-05";
             Batch.mk "oc-3372" "Acme" "19AADCG0737G1ZQ" "2024-06" "2024-06"]).
Proof.
  refine (proj1 (monthly_split_gives_single_months
                   [Batch.mk "oc-3372" "Acme" "19AADCG0737G1ZQ" "2024-6" "2024-4"] _)).
  constructor; [| constructor].
  exists (Utils.mkYM 2024 6), (Utils.mkYM 2024 4).
  split; [reflexivity |]. split; [reflexivity |].
  cbn [Utils.year]. split; [lia |]. split; [lia |].
  split; vm_compute; reflexivity.
Defined.

(** The periods of a direct export are not validated.  A batch of the
    year 999 is split into months printed without the leading zero of the
    year, which [validate_period_format] does not accept. *)
Lemma monthly_split_below_the_year_1000 :
  Batches.adjust_batches "2"
    [Batch.mk "oc-3372" "Acme" "19AADCG0737G1ZQ" "0999-11" "0999-12"]
  = Some (Utils.Returns
            [Batch.mk "oc-3372" "Acme" "19AADCG0737G1ZQ" "999-11" "999-11";
             Batch.mk "oc-3372" "Acme" "19AADCG0737G1ZQ" "999-12" "999-12"])
  /\ Utils.validate_period_format "999-11" = false.
Proof. vm_compute. split; reflexivity. Qed.

Lemma count_outside (status : string) (rows : list ExportRow.t) :
  ~ In status phase_statuses ->
  Forall (fun r => In (ExportRow.Status r) phase_statuses) rows ->
  Summary.count status rows = 0%nat.
Proof.
  intros Hout. unfold Summary.count.
  induction 1 as [| r rest Hr _ IH]; [reflexivity |].
  cbn [filter].
  destruct (String.eqb_spec (ExportRow.Status r) status) as [E | _]; [| exact IH].
  rewrite E in Hr. contradiction.
Qed.

Section ExportSummary.
Import World ExportPhase.
Context {W : Type} (sys : System W) (cfg : Config.t).

(** X25.  The operation summary of an export phase hides every failure.  It
    counts the rows whose status is [Failed] and those whose status is
    [Skipped], and an export row is never either: whatever happened, the
    summary says 0 failed and 0 skipped, and its total is the number of
    batches.  Its count of successful rows leaves out the exports that
    succeeded at the retry: the total is that count plus the rows marked
    [Success (Retry)] plus the rows of the four failures. *)
Theorem export_summary_reports_no_failure
  (EXPORT_RETRY_FAILED : bool) (EXPORT_RETRY_TIMEOUT report_type : Z)
  (report_type_name export_dir : string) (fuel : nat) (export_batches : list Batch.t)
  (w : W)
  (Hinterval : 0 < Config.EXPORT_CHECK_INTERVAL cfg)
  (Hfuel : (polls_needed cfg < fuel)%nat)
  (Hretry : EXPORT_RETRY_TIMEOUT <= 10 * (Z.of_nat fuel - 1)) :
  exists export_results,
    value_of (run_export_phase sys cfg EXPORT_RETRY_FAILED EXPORT_RETRY_TIMEOUT
                report_type report_type_name export_dir fuel export_batches w)
      = Some export_results
    /\ Summary.failed (Summary.save_operation_summary export_results) = 0%nat
    /\ Summary.skipped (Summary.save_operation_summary export_results) = 0%nat
    /\ Summary.total_operations (Summary.save_operation_summary export_results)
       = List.length export_batches
    /\ (Summary.successful (Summary.save_operation_summary export_results)
        + Summary.count "Success (Retry)" export_results
        + Summary.count "Failed to Create Job" export_results
        + Summary.count "Download Failed" export_results
        + Summary.count "Job Failed" export_results
        + Summary.count "Timeout" export_results)%nat
       = List.length export_batches.
Proof.
  unfold run_export_phase. rewrite value_bind.
  destruct (first_pass_rows sys cfg report_type fuel Hinterval Hfuel
              (Z.of_nat (List.length export_batches)) export_batches 1 w)
    as (rows & failed & Hv & Hrows).
  rewrite Hv.
  assert (Hend : exists export_results,
            value_of
              ((if EXPORT_RETRY_FAILED && match failed with [] => false | _ => true end
                then retry_exports sys cfg EXPORT_RETRY_TIMEOUT report_type
                       report_type_name export_dir fuel failed rows
                else ret (Some rows)) (world_of
                   (first_pass sys cfg report_type fuel 1
                      (Z.of_nat (List.length export_batches)) export_batches w)))
              = Some export_results
            /\ rows_of export_batches export_results).
  { destruct (EXPORT_RETRY_FAILED && match failed with [] => false | _ => true end);
      [| exists rows; split; [reflexivity | exact Hrows]].
    apply (retry_exports_rows sys cfg EXPORT_RETRY_TIMEOUT report_type report_type_name
             export_dir export_batches fuel ltac:(lia) Hretry failed rows _ Hrows). }
  destruct Hend as (export_results & Hval & Hlabels & Hstatus).
  exists export_results. split; [exact Hval |].
  assert (Hlen : List.length export_results = List.length export_batches).
  { rewrite <- (length_map row_label), Hlabels. apply length_map. }
  cbn [Summary.save_operation_summary Summary.failed Summary.skipped
       Summary.total_operations Summary.successful].
  split; [apply count_outside; [| exact Hstatus] |].
  { unfold phase_statuses, failure_statuses. cbn. intuition discriminate. }
  split; [apply count_outside; [| exact Hstatus] |].
  { unfold phase_statuses, failure_statuses. cbn. intuition discriminate. }
  split; [exact Hlen |].
  rewrite <- Hlen. clear - Hstatus. unfold Summary.count.
  induction Hstatus as [| r rest Hr _ IH]; [reflexivity |].
  cbn [filter List.length].
  unfold phase_statuses, failure_statuses in Hr. cbn [In] in Hr.
  repeat (destruct Hr as [Hr | Hr];
          [rewrite <- Hr; cbn [String.eqb Ascii.eqb Bool.eqb List.length]; lia |]).
  contradiction.
Qed.

End ExportSummary.

(** A job that never ends: the row says [Timeout], the summary says one
    operation and no failure. *)
Lemma export_summary_reports_no_failure_witness :
  exists export_results,
    World.value_of
      (ExportPhase.run_export_phase Scenario.always_processing Config.config_py
         true 180 101 "GSTR-2A" "output/exports" 61 [Scenario.acme_batch] tt)
      = Some export_results
    /\ map ExportRow.Status export_results = ["Timeout"]
    /\ Summary.failed (Summary.save_operation_summary export_results) = 0%nat.
Proof.
  destruct (export_summary_reports_no_failure Scenario.always_processing Config.config_py
              true 180 101 "GSTR-2A" "output/exports" 61 [Scenario.acme_batch] tt)
    as (export_results & Hv & Hfailed & _).
  - reflexivity.
  - vm_compute. lia.
  - vm_compute. discriminate.
  - exists export_results. split; [exact Hv |]. split; [| exact Hfailed].
    vm_compute in Hv. inversion Hv. reflexivity.
Defined.

(** ** Normalised identifiers on the pull path *)

(** A company id with its prefix together with a GSTIN in upper case. *)
Definition normalised (company_id gstin : string) : Prop :=
  Py.startswith company_id "oc-" = true /\ Py.upper gstin = gstin.

(** An event that hands only normalised identifiers to the vendor. *)
Definition normalised_event (e : World.Event) : Prop :=
  match e with
  | World.EvPull _ company_id gstin _ => normalised company_id gstin
  | World.EvExport _ company_id gstin _ _ _ => normalised company_id gstin
  | World.EvPost p =>
      match World.post_json p with
      | World.PullPayload gstin _ => normalised (World.post_company p) gstin
      | World.ExportPayload gstins _ _ _ =>
          Forall (normalised (World.post_company p)) gstins
      end
  | _ => True
  end.

Lemma transport_posts (req : World.PostReq) (t : list World.Event) :
  Forall transport_event t ->
  forall k, Scenario.posts t = repeat req k ->
            normalised_event (World.EvPost req) -> Forall normalised_event t.
Proof.
  induction 1 as [| e t He _ IH]; intros k Hp Hreq; [constructor |].
  destruct e as [| | r | r | [] secs | p]; cbn in He; try contradiction.
  - destruct k as [| k]; [discriminate |]. cbn in Hp. inversion Hp; subst.
    constructor; [exact Hreq | now apply (IH k)].
  - constructor; [exact I | now apply (IH k)].
Qed.

Section NormalisedCalls.
Import World ApiClient Main.
Context {W : Type} (sys : System W) (cfg : Config.t).

Lemma pull_gst_report_normalised (report_type company_id gstin period : string) (w : W) :
  normalised company_id gstin ->
  Forall normalised_event
         (trace_of (pull_gst_report sys cfg report_type company_id gstin period w)).
Proof.
  intros Hn.
  destruct (pull_gst_report_events sys cfg report_type company_id gstin period w)
    as (t & Ht & Hall).
  destruct (pull_gst_report_posts sys cfg report_type company_id gstin period w)
    as (k & url & _ & Hp).
  rewrite Ht in *. constructor; [exact Hn |].
  apply (transport_posts (mkPost url company_id (PullPayload gstin period)) t Hall k);
    [exact Hp | exact Hn].
Qed.

Lemma export_gst_report_normalised
  (report_type company_id gstin start_period end_period : string) (report_format : Z)
  (w : W) :
  normalised company_id gstin ->
  Forall normalised_event
         (trace_of (export_gst_report sys cfg report_type company_id gstin
                      start_period end_period report_format w)).
Proof.
  intros Hn.
  destruct (export_gst_report_events sys cfg report_type company_id gstin
              start_period end_period report_format w) as (t & Ht & Hall & _).
  destruct (export_gst_report_posts sys cfg report_type company_id gstin
              start_period end_period report_format w) as (k & _ & Hp).
  rewrite Ht in *. constructor; [exact Hn |].
  apply (transport_posts
           (mkPost (export_endpoint_of cfg report_type) company_id
                   (ExportPayload [gstin] start_period end_period report_format))
           t Hall k); [exact Hp |].
  cbn. now constructor.
Qed.

Variable report_types : list string.
Variable months : list string.
Variable total_operations : Z.

(** The queue holds normalised identifiers only. *)
Definition normalised_queue (st : PullState) : Prop :=
  Forall (fun o => normalised (Op.company_id o) (Op.gstin o)) (failed_operations st).

Lemma pull_unit_normalised (c n g m : string) (flag : option string) (st : PullState)
  (rt : string) (w : W) :
  normalised c g -> normalised_queue st ->
  Forall normalised_event
         (trace_of (pull_unit sys cfg total_operations c n g m flag st rt w))
  /\ normalised_queue
       (snd (value_of (pull_unit sys cfg total_operations c n g m flag st rt w))).
Proof.
  intros Hn Hq. rewrite pull_unit_run. cbn [trace_of value_of fst snd]. split.
  - apply Forall_app. split; [now apply pull_gst_report_normalised |].
    match goal with
    | |- context [if ?b then _ else _] => destruct b
    end; repeat constructor.
  - unfold normalised_queue in *. cbn [failed_operations append_result].
    match goal with
    | |- context [if ?b then _ else _] => destruct b
    end; cbn [failed_operations append_failed count_operation]; [| exact Hq].
    apply Forall_app. split; [exact Hq |]. constructor; [exact Hn | constructor].
Qed.

Lemma pull_month_normalised (c n g m : string) (todo : list string) :
  normalised c g ->
  forall flag st w,
    normalised_queue st ->
    Forall normalised_event
           (trace_of (pull_month sys cfg total_operations c n g m todo flag st w))
    /\ normalised_queue
         (snd (value_of (pull_month sys cfg total_operations c n g m todo flag st w))).
Proof.
  intros Hn. induction todo as [| rt rest IH]; intros flag st w Hq.
  - split; [constructor | exact Hq].
  - cbn [pull_month]. rewrite trace_bind, value_bind.
    destruct (pull_unit_normalised c n g m flag st rt w Hn Hq) as [Ht Hq'].
    match goal with
    | |- context [pull_month _ _ _ _ _ _ _ rest ?f ?s ?w'] =>
        destruct (IH f s w' Hq') as [Ht2 Hq2]
    end.
    split; [now apply Forall_app | exact Hq2].
Qed.

Lemma skip_month_queue (c n g m e : string) (todo : list string) :
  forall st, failed_operations (skip_month c n g m e todo st) = failed_operations st.
Proof.
  induction todo as [| rt rest IH]; intros st; [reflexivity |].
  cbn [skip_month]. now rewrite IH.
Qed.

Lemma pull_months_normalised (c n g : string) (todo : list string) :
  normalised c g ->
  forall flag st w,
    normalised_queue st ->
    Forall normalised_event
           (trace_of (pull_months sys cfg report_types total_operations c n g todo
                                  flag st w))
    /\ normalised_queue
         (snd (value_of (pull_months sys cfg report_types total_operations c n g todo
                                     flag st w))).
Proof.
  intros Hn. induction todo as [| m rest IH]; intros flag st w Hq.
  - split; [constructor | exact Hq].
  - cbn [pull_months]. destruct flag as [e |].
    + apply IH. unfold normalised_queue. now rewrite skip_month_queue.
    + rewrite trace_bind, value_bind.
      destruct (pull_month_normalised c n g m report_types Hn None st w Hq) as [Ht Hq'].
      match goal with
      | |- context [pull_months _ _ _ _ _ _ _ rest ?f ?s ?w'] =>
          destruct (IH f s w' Hq') as [Ht2 Hq2]
      end.
      split; [now apply Forall_app | exact Hq2].
Qed.

End NormalisedCalls.

Section NormalisedRun.
Import World ApiClient Main.
Context {W : Type} (sys : System W) (cfg : Config.t).

Lemma missing_months_queue (report_types : list string) (c n g : string)
  (todo : list string) (st : PullState) :
  failed_operations (missing_months report_types c n g todo st) = failed_operations st.
Proof. now rewrite missing_months_rows. Qed.

Lemma pull_company_normalised (report_types months : list string) (total : Z)
  (company : Company.t) (st : PullState) (w : W) :
  Py.upper (Company.GSTIN company) = Company.GSTIN company ->
  normalised_queue st ->
  Forall normalised_event
         (trace_of (pull_company sys cfg report_types months total company st w))
  /\ normalised_queue
       (value_of (pull_company sys cfg report_types months total company st w)).
Proof.
  intros Hupper Hq. unfold pull_company.
  destruct (String.eqb_spec (with_prefix (Company.Company_ID company)) "") as [E | Hid].
  - cbn [orb]. split; [constructor |].
    unfold normalised_queue, ret, value_of. cbn [fst]. now rewrite missing_months_queue.
  - destruct (String.eqb_spec (Company.GSTIN company) "") as [E | Hg].
    + cbn [orb]. split; [constructor |].
      unfold normalised_queue, ret, value_of. cbn [fst]. now rewrite missing_months_queue.
    + cbn [orb]. rewrite trace_bind, value_bind. cbn [ret trace_of value_of fst snd].
      rewrite app_nil_r.
      apply pull_months_normalised; [| exact Hq]. split; [| exact Hupper].
      apply with_prefix_startswith. intros E. apply Hid. now rewrite E.
Qed.

Lemma pull_companies_normalised (report_types months : list string) (total : Z)
  (companies : list Company.t) :
  Forall (fun c => Py.upper (Company.GSTIN c) = Company.GSTIN c) companies ->
  forall st w,
    normalised_queue st ->
    Forall normalised_event
           (trace_of (pull_companies sys cfg report_types months total companies st w))
    /\ normalised_queue
         (value_of (pull_companies sys cfg report_types months total companies st w)).
Proof.
  induction 1 as [| company rest Hc _ IH]; intros st w Hq.
  - split; [constructor | exact Hq].
  - cbn [pull_companies]. rewrite trace_bind, value_bind.
    destruct (pull_company_normalised report_types months total company st w Hc Hq)
      as [Ht Hq'].
    match goal with
    | |- context [pull_companies _ _ _ _ _ rest ?s ?w'] =>
        destruct (IH s w' Hq') as [Ht2 Hq2]
    end.
    split; [now apply Forall_app | exact Hq2].
Qed.

Lemma retry_attempts_normalised (operation : Op.t) (todo : nat) :
  normalised (Op.company_id operation) (Op.gstin operation) ->
  forall attempt w,
    Forall normalised_event
           (trace_of (Utils.retry_attempts sys cfg todo attempt operation w)).
Proof.
  intros Hn. induction todo as [| todo IH]; intros attempt w; [constructor |].
  cbn [Utils.retry_attempts]. rewrite trace_bind. apply Forall_app. split.
  - unfold Utils.retry_call. destruct (Op.operation_type operation).
    + now apply pull_gst_report_normalised.
    + now apply export_gst_report_normalised.
  - destruct (value_of (Utils.retry_call sys cfg operation w))
      as [[[] job_id] error]; [constructor |].
    destruct (attempt <? Utils.max_attempts); [| constructor].
    unfold sleep. rewrite emit_bind, trace_mk. constructor; [exact I | apply IH].
Qed.

Lemma retry_each_normalised (failed : list Op.t) :
  Forall (fun o => normalised (Op.company_id o) (Op.gstin o)) failed ->
  forall w, Forall normalised_event (trace_of (Utils.retry_each sys cfg failed w)).
Proof.
  induction 1 as [| o rest Ho _ IH]; intros w; [constructor |].
  cbn [Utils.retry_each]. rewrite trace_bind. apply Forall_app. split.
  - now apply retry_attempts_normalised.
  - rewrite trace_bind. apply Forall_app. split; [apply IH | constructor].
Qed.

(** X26.  On the pull path the vendor only sees normalised identifiers.  For
    the companies read from the sheet, every call of the client and every
    request posted during a pull batch, the smart retries included,
    carries a company id that starts with [oc-] and a GSTIN in upper
    case. *)
Theorem sheet_companies_are_pulled_normalised (rows : list ExcelHandler.RawRow)
  (months report_types : list string) (w : W) :
  Forall normalised_event
         (trace_of (run_pull_operation sys cfg (ExcelHandler.read_companies rows)
                                       months report_types w)).
Proof.
  unfold run_pull_operation. rewrite trace_bind.
  assert (Hsheet : Forall (fun c => Py.upper (Company.GSTIN c) = Company.GSTIN c)
                          (ExcelHandler.read_companies rows)).
  { apply Forall_forall. intros c Hc. now apply (read_companies_gstin_upper rows). }
  destruct (pull_companies_normalised report_types months
              (Z.of_nat (List.length (ExcelHandler.read_companies rows))
               * Z.of_nat (List.length months) * Z.of_nat (List.length report_types))
              (ExcelHandler.read_companies rows) Hsheet (mkPS 0 [] []) w
              (Forall_nil _)) as [Ht Hq].
  apply Forall_app. split; [exact Ht |].
  fold (pull_all sys cfg (ExcelHandler.read_companies rows) months report_types) in Hq.
  unfold normalised_queue in Hq.
  destruct (failed_operations
              (value_of (pull_all sys cfg (ExcelHandler.read_companies rows) months
                                  report_types w))) as [| o rest] eqn:Hfailed;
    [constructor |].
  rewrite trace_bind. apply Forall_app. split; [| constructor].
  unfold Utils.smart_retry_with_backoff.
  destruct (negb (Config.SMART_RETRY_ENABLED cfg)); [constructor |].
  now apply retry_each_normalised.
Qed.

End NormalisedRun.
